(** * Weather forecast visualiser: a shallow embedding of [main.py]

    The script resolves an API key, issues one HTTP GET to the forecast
    endpoint, flattens the response into six parallel columns and renders four
    charts to disk.  Python values are modelled as an untyped JSON tree, Python
    exceptions as values of a result type, and the effects of the script
    (environment, standard streams, network, file system, display) as explicit
    state threaded through a small state-and-exception monad. *)

From Stdlib Require Import ZArith Ascii Floats.
From stdpp Require Import gmap strings list pretty.

Set Warnings "-register-all".
Local Open Scope Z_scope.

(** ** Python strings *)

Module Str.

Definition nl : string := String "010"%char "".

Definition code (c : ascii) : N := N_of_ascii c.

(** A string is the sequence of bytes of its UTF-8 encoding. *)

(** [str.isspace] on one code point: the white space of Unicode, that is
    U+0009 to U+000D, U+001C to U+0020, U+0085, U+00A0, U+1680, U+2000 to
    U+200A, U+2028, U+2029, U+202F, U+205F and U+3000. *)
Definition isspace (cp : N) : bool :=
  (((9 <=? cp) && (cp <=? 13)) || ((28 <=? cp) && (cp <=? 32))
   || (cp =? 133) || (cp =? 160) || (cp =? 5760)
   || ((8192 <=? cp) && (cp <=? 8202)) || (cp =? 8232) || (cp =? 8233)
   || (cp =? 8239) || (cp =? 8287) || (cp =? 12288))%N.

(** The code point that one, two or three bytes encode.  No white space
    takes four bytes. *)
Definition continuation (b : ascii) : bool := ((128 <=? code b) && (code b <? 192))%N.

Definition code1 (a : ascii) : option N :=
  if (code a <? 128)%N then Some (code a) else None.

Definition code2 (a b : ascii) : option N :=
  if ((194 <=? code a) && (code a <? 224))%N && continuation b
  then Some ((code a - 192) * 64 + (code b - 128))%N
  else None.

Definition code3 (a b c : ascii) : option N :=
  let cp := ((code a - 224) * 4096 + (code b - 128) * 64 + (code c - 128))%N in
  if ((224 <=? code a) && (code a <? 240))%N && continuation b && continuation c
     && (2048 <=? cp)%N
  then Some cp
  else None.

Definition space (cp : option N) : bool :=
  match cp with
  | Some n => isspace n
  | None => false
  end.

(** The encoding of a code point below U+10000. *)
Definition utf8 (cp : N) : string :=
  if (cp <? 128)%N then String (ascii_of_N cp) ""
  else if (cp <? 2048)%N then
    String (ascii_of_N (192 + cp / 64)) (String (ascii_of_N (128 + cp mod 64)) "")
  else
    String (ascii_of_N (224 + cp / 4096))
      (String (ascii_of_N (128 + cp / 64 mod 64))
         (String (ascii_of_N (128 + cp mod 64)) "")).

(** The text made of the given code points. *)
Definition of_points (cps : list N) : string :=
  foldr (λ cp s, utf8 cp +:+ s) "" cps.

(** Leading white-space characters are dropped one at a time; [sp1], [sp2]
    and [sp3] tell whether the next one, two or three bytes are one of
    them. *)
Fixpoint strip_left (sp1 : ascii → bool) (sp2 : ascii → ascii → bool)
    (sp3 : ascii → ascii → ascii → bool) (s : string) : string :=
  match s with
  | String a r1 =>
      if sp1 a then strip_left sp1 sp2 sp3 r1
      else
        match r1 with
        | String b r2 =>
            if sp2 a b then strip_left sp1 sp2 sp3 r2
            else
              match r2 with
              | String c r3 => if sp3 a b c then strip_left sp1 sp2 sp3 r3 else s
              | EmptyString => s
              end
        | EmptyString => s
        end
  | EmptyString => EmptyString
  end.

(** [s.lstrip()] *)
Definition lstrip (s : string) : string :=
  strip_left (λ a, space (code1 a)) (λ a b, space (code2 a b))
             (λ a b c, space (code3 a b c)) s.

(** [s.rstrip()]: the same from the end, where the bytes of a character
    come last byte first. *)
Definition rstrip (s : string) : string :=
  String.rev (strip_left (λ a, space (code1 a)) (λ b a, space (code2 a b))
                         (λ c b a, space (code3 a b c)) (String.rev s)).

(** [s.strip()] *)
Definition strip (s : string) : string := rstrip (lstrip s).

Definition is_upper (c : ascii) : bool := ((65 <=? code c) && (code c <=? 90))%N.
Definition is_lower (c : ascii) : bool := ((97 <=? code c) && (code c <=? 122))%N.
Definition is_cased (c : ascii) : bool := is_upper c || is_lower c.
Definition upper (c : ascii) : ascii :=
  if is_lower c then ascii_of_N (code c - 32) else c.
Definition lower (c : ascii) : ascii :=
  if is_upper c then ascii_of_N (code c + 32) else c.

(** [s.title()] for text whose letters are those of ASCII: a letter that
    follows a cased character is lowered, any other letter is raised, and
    every other byte is kept. *)
Fixpoint title_go (previous_is_cased : bool) (s : string) : string :=
  match s with
  | EmptyString => EmptyString
  | String c s' =>
      String (if previous_is_cased then lower c else upper c)
             (title_go (is_cased c) s')
  end.
Definition title (s : string) : string := title_go false s.

Fixpoint prefix (p s : string) : bool :=
  match p, s with
  | EmptyString, _ => true
  | String a p', String b s' => if Ascii.eqb a b then prefix p' s' else false
  | String _ _, EmptyString => false
  end.

(** [p in s] for two strings: substring test. *)
Fixpoint contains (p s : string) : bool :=
  prefix p s || match s with EmptyString => false | String _ s' => contains p s' end.

Definition is_empty (s : string) : bool :=
  match s with EmptyString => true | String _ _ => false end.

Fixpoint chars (s : string) : list string :=
  match s with
  | EmptyString => []
  | String c s' => String c "" :: chars s'
  end.

End Str.

(** ** Python exceptions *)

Inductive exn_class : Set :=
| BaseException | SystemExit | Exception
| LookupError | KeyError | IndexError
| TypeError | ValueError | ArithmeticError | OverflowError
| NameError | UnboundLocalError | EOFError
| OSError | FileNotFoundError | FileExistsError | NotADirectoryError | IsADirectoryError
| RequestException | HTTPError | ConnectionError | Timeout
| InvalidJSONError | RequestsJSONDecodeError | JSONDecodeError.

#[global] Instance exn_class_eq_dec : EqDecision exn_class.
Proof. solve_decision. Defined.

(** Direct base classes, as declared by the interpreter, [json] and
    [requests.exceptions]. *)
Definition bases (c : exn_class) : list exn_class :=
  match c with
  | BaseException => []
  | SystemExit | Exception => [BaseException]
  | LookupError | TypeError | ValueError | ArithmeticError
  | NameError | EOFError | OSError => [Exception]
  | KeyError | IndexError => [LookupError]
  | OverflowError => [ArithmeticError]
  | UnboundLocalError => [NameError]
  | FileNotFoundError | FileExistsError | NotADirectoryError
  | IsADirectoryError => [OSError]
  | RequestException => [OSError]
  | HTTPError | ConnectionError | Timeout | InvalidJSONError => [RequestException]
  | JSONDecodeError => [ValueError]
  | RequestsJSONDecodeError => [InvalidJSONError; JSONDecodeError]
  end.

Fixpoint ancestors (depth : nat) (c : exn_class) : list exn_class :=
  match depth with
  | O => [c]
  | S d => c :: flat_map (ancestors d) (bases c)
  end.

Definition issubclass (c k : exn_class) : bool := bool_decide (k ∈ ancestors 6 c).

Record exn : Set := Exn { exn_type : exn_class; exn_str : string }.

Definition isinstance (e : exn) (k : exn_class) : bool := issubclass (exn_type e) k.

Inductive result (A : Type) : Type :=
| Return (a : A)
| Raise (e : exn).
Arguments Return {A} a.
Arguments Raise {A} e.

Definition rbind {A B} (r : result A) (k : A → result B) : result B :=
  match r with
  | Return a => k a
  | Raise e => Raise e
  end.

Declare Scope result_scope.
Delimit Scope result_scope with res.
Notation "x ← r ; k" := (rbind r (λ x, k))
  (at level 20, r at level 100, k at level 200, only parsing) : result_scope.

(** ** Python values decoded from JSON *)

Inductive json : Type :=
| JNull
| JBool (b : bool)
| JInt (z : Z)
| JFloat (f : float)
| JStr (s : string)
| JList (l : list json)
| JDict (d : list (string * json)).

Module Py.

(** A dict keeps its items in insertion order; a key is looked up at its
    first binding. *)
Fixpoint dict_get (k : string) (d : list (string * json)) : option json :=
  match d with
  | [] => None
  | (k', v) :: d' => if String.eqb k k' then Some v else dict_get k d'
  end.

Definition type_name (v : json) : string :=
  match v with
  | JNull => "NoneType" | JBool _ => "bool" | JInt _ => "int"
  | JFloat _ => "float" | JStr _ => "str" | JList _ => "list"
  | JDict _ => "dict"
  end.

(** [bool(v)] *)
Definition truthy (v : json) : bool :=
  match v with
  | JNull => false
  | JBool b => b
  | JInt z => negb (z =? 0)
  | JFloat f => negb (PrimFloat.eqb f 0%float)
  | JStr s => negb (Str.is_empty s)
  | JList l => match l with [] => false | _ :: _ => true end
  | JDict d => match d with [] => false | _ :: _ => true end
  end.

Definition key_error (k : string) : exn := Exn KeyError ("'" +:+ k +:+ "'").

(** [v[k]] for a string [k] *)
Definition getitem (v : json) (k : string) : result json :=
  match v with
  | JDict d =>
      match dict_get k d with
      | Some x => Return x
      | None => Raise (key_error k)
      end
  | JList _ => Raise (Exn TypeError "list indices must be integers or slices, not str")
  | JStr _ => Raise (Exn TypeError "string indices must be integers, not 'str'")
  | _ => Raise (Exn TypeError ("'" +:+ type_name v +:+ "' object is not subscriptable"))
  end.

(** [v[0]] *)
Definition getitem0 (v : json) : result json :=
  match v with
  | JList (x :: _) => Return x
  | JList [] => Raise (Exn IndexError "list index out of range")
  | JStr (String c _) => Return (JStr (String c ""))
  | JStr EmptyString => Raise (Exn IndexError "string index out of range")
  | JDict _ => Raise (Exn KeyError "0")
  | _ => Raise (Exn TypeError ("'" +:+ type_name v +:+ "' object is not subscriptable"))
  end.

(** [len(v)] *)
Definition len (v : json) : result Z :=
  match v with
  | JList l => Return (Z.of_nat (length l))
  | JDict d => Return (Z.of_nat (length d))
  | JStr s => Return (Z.of_nat (String.length s))
  | _ => Raise (Exn TypeError ("object of type '" +:+ type_name v +:+ "' has no len()"))
  end.

Definition is_str (k : string) (v : json) : bool :=
  match v with JStr s => String.eqb s k | _ => false end.

(** [k in v] for a string [k] *)
Definition contains (k : string) (v : json) : result bool :=
  match v with
  | JDict d => Return (bool_decide (is_Some (dict_get k d)))
  | JList l => Return (existsb (is_str k) l)
  | JStr s => Return (Str.contains k s)
  | _ =>
      Raise (Exn TypeError
               ("argument of type '" +:+ type_name v +:+ "' is not iterable"))
  end.

(** The items produced by [for x in v]. *)
Definition iter (v : json) : result (list json) :=
  match v with
  | JList l => Return l
  | JDict d => Return ((λ kv, JStr kv.1) <$> d)
  | JStr s => Return (JStr <$> Str.chars s)
  | _ => Raise (Exn TypeError ("'" +:+ type_name v +:+ "' object is not iterable"))
  end.

End Py.

(** ** The world the script runs in *)

(** A naive [datetime.datetime]: calendar fields without a time zone. *)
Record datetime : Set := DateTime {
  year : Z; month : Z; day : Z; hour : Z; minute : Z; second : Z; microsecond : Z
}.

(** One line drawn by [sns.lineplot]. *)
Record line : Type := Line {
  line_x : list datetime;
  line_y : list json;
  line_marker : string;
  line_style : string;
  line_color : option string;
  line_label : string
}.

(** What a figure holds when it is saved and shown. *)
Inductive figure : Type :=
| LinePlot (lines : list line) (title xlabel ylabel : string)
           (xticks_rotation : Z) (ylim : option (Z * Z))
| PieChart (sizes : list N) (labels : list json) (colors : list nat)
           (autopct : string) (startangle : Z) (title : string).

Inductive node : Type :=
| Directory
| File (content : figure).

Record response : Type := Response {
  status_code : Z;
  reason : string;
  url : string;
  (** what [response.json()] does with the body *)
  json_body : result json
}.

Definition request : Type := string * list (string * string).

Record world : Type := World {
  (** [os.environ], after [load_dotenv()] *)
  environ : gmap string string;
  (** lines still to be read from standard input *)
  stdin : list string;
  (** texts written to standard output, oldest first *)
  stdout : list string;
  (** what the network does with a GET request *)
  server : request → result response;
  (** GET requests issued, oldest first *)
  sent : list request;
  (** paths below the working directory *)
  fs : gmap string node;
  (** figures displayed by [plt.show()], oldest first *)
  shown : list figure
}.

Definition set_stdin (l : list string) (w : world) : world :=
  World (environ w) l (stdout w) (server w) (sent w) (fs w) (shown w).
Definition set_stdout (l : list string) (w : world) : world :=
  World (environ w) (stdin w) l (server w) (sent w) (fs w) (shown w).
Definition set_sent (l : list request) (w : world) : world :=
  World (environ w) (stdin w) (stdout w) (server w) l (fs w) (shown w).
Definition set_fs (m : gmap string node) (w : world) : world :=
  World (environ w) (stdin w) (stdout w) (server w) (sent w) m (shown w).
Definition set_shown (l : list figure) (w : world) : world :=
  World (environ w) (stdin w) (stdout w) (server w) (sent w) (fs w) l.

(** Computations: state passing over [world], with exceptions.  The state
    reached when an exception is raised is kept. *)
Definition M (A : Type) : Type := world → result A * world.

Definition ret {A} (a : A) : M A := λ w, (Return a, w).
Definition raise {A} (e : exn) : M A := λ w, (Raise e, w).
Definition lift {A} (r : result A) : M A := λ w, (r, w).
Definition bind {A B} (m : M A) (k : A → M B) : M B :=
  λ w, match m w with
       | (Return a, w') => k a w'
       | (Raise e, w') => (Raise e, w')
       end.

Declare Scope py_scope.
Delimit Scope py_scope with py.
Notation "x ← m ; k" := (bind m (λ x, k))
  (at level 20, m at level 100, k at level 200, only parsing) : py_scope.
Notation "m ;; k" := (bind m (λ _, k))
  (at level 100, k at level 200, right associativity, only parsing) : py_scope.

(** [print(s)] *)
Definition print (s : string) : M unit :=
  λ w, (Return tt, set_stdout (stdout w ++ [s]) w).

(** [input(prompt)]: the prompt is written, one line is read. *)
Definition input (prompt : string) : M string :=
  λ w, let w1 := set_stdout (stdout w ++ [prompt]) w in
       match stdin w1 with
       | [] => (Raise (Exn EOFError "EOF when reading a line"), w1)
       | l :: rest => (Return l, set_stdin rest w1)
       end.

(** [os.getenv(name)] *)
Definition getenv (name : string) : M (option string) :=
  λ w, (Return (environ w !! name), w).

(** [exit()] raises [SystemExit(None)], whose text is "None". *)
Definition exit {A} : M A := raise (Exn SystemExit "None").

Module requests.

(** [requests.get(url, params=params)] *)
Definition get (u : string) (params : list (string * string)) : M response :=
  λ w, (server w (u, params), set_sent (sent w ++ [(u, params)]) w).

(** The text [raise_for_status] builds; empty when the status is no error. *)
Definition http_error_msg (r : response) : string :=
  let describe kind :=
    pretty (status_code r) +:+ " " +:+ kind +:+ " Error: " +:+ reason r
           +:+ " for url: " +:+ url r in
  if (400 <=? status_code r) && (status_code r <? 500) then describe "Client"
  else if (500 <=? status_code r) && (status_code r <? 600) then describe "Server"
  else "".

(** [response.raise_for_status()] *)
Definition raise_for_status (r : response) : result unit :=
  if negb (Str.is_empty (http_error_msg r))
  then Raise (Exn HTTPError (http_error_msg r))
  else Return tt.

End requests.

Module os.

(** [os.path.exists(p)] *)
Definition path_exists (p : string) : M bool :=
  λ w, (Return (bool_decide (is_Some (fs w !! p))), w).

(** [os.makedirs(p)] for a single path component. *)
Definition makedirs (p : string) : M unit :=
  λ w, match fs w !! p with
       | Some _ =>
           (Raise (Exn FileExistsError ("[Errno 17] File exists: '" +:+ p +:+ "'")),
            w)
       | None => (Return tt, set_fs (<[p := Directory]> (fs w)) w)
       end.

(** [os.path.join(d, name)] *)
Definition path_join (d name : string) : string := d +:+ "/" +:+ name.

End os.

Module plt.

(** [plt.savefig(os.path.join(d, name))] with the current figure [fig]:
    the file is created or replaced inside an existing directory. *)
Definition savefig (d name : string) (fig : figure) : M unit :=
  λ w, let filename := os.path_join d name in
       match fs w !! d with
       | None =>
           (Raise (Exn FileNotFoundError
                       ("[Errno 2] No such file or directory: '" +:+ filename +:+ "'")), w)
       | Some (File _) =>
           (Raise (Exn NotADirectoryError
                       ("[Errno 20] Not a directory: '" +:+ filename +:+ "'")), w)
       | Some Directory =>
           match fs w !! filename with
           | Some Directory =>
               (Raise (Exn IsADirectoryError
                           ("[Errno 21] Is a directory: '" +:+ filename +:+ "'")), w)
           | _ => (Return tt, set_fs (<[filename := File fig]> (fs w)) w)
           end
       end.

(** [plt.show()] with the current figure [fig] *)
Definition show_figure (fig : figure) : M unit :=
  λ w, (Return tt, set_shown (shown w ++ [fig]) w).

End plt.

(** ** [collections.Counter] over decoded values *)

Module collections.

Definition as_int (v : json) : option Z :=
  match v with
  | JBool b => Some (if b then 1 else 0)
  | JInt z => Some z
  | _ => None
  end.

(** [f == z] for a float and an integer: the comparison is exact. *)
Definition float_eq_int (f : float) (z : Z) : bool :=
  match Prim2SF f with
  | S754_zero _ => z =? 0
  | S754_finite s m e =>
      let v := if s then Z.neg m else Z.pos m in
      if 0 <=? e then z =? v * 2 ^ e else z * 2 ^ (- e) =? v
  | _ => false
  end.

(** Key identity in a dict, [a is b or a == b], for hashable values.  The
    decoder shares one NaN object, which is why NaN matches NaN here. *)
Definition same_key (a b : json) : bool :=
  match a, b with
  | JNull, JNull => true
  | JStr s, JStr t => String.eqb s t
  | JFloat f, JFloat g => PrimFloat.eqb f g || (is_nan f && is_nan g)
  | JFloat f, _ => from_option (float_eq_int f) false (as_int b)
  | _, JFloat g => from_option (float_eq_int g) false (as_int a)
  | _, _ =>
      match as_int a, as_int b with
      | Some x, Some y => x =? y
      | _, _ => false
      end
  end.

Definition hashable (v : json) : bool :=
  match v with JList _ | JDict _ => false | _ => true end.

(** [self[elem] = self.get(elem, 0) + 1] *)
Fixpoint add (elem : json) (c : list (json * N)) : list (json * N) :=
  match c with
  | [] => [(elem, 1%N)]
  | (k, n) :: c' =>
      if same_key k elem then (k, (n + 1)%N) :: c' else (k, n) :: add elem c'
  end.

Fixpoint update (c : list (json * N)) (l : list json) : result (list (json * N)) :=
  match l with
  | [] => Return c
  | elem :: l' =>
      if hashable elem then update (add elem c) l'
      else Raise (Exn TypeError ("unhashable type: '" +:+ Py.type_name elem +:+ "'"))
  end.

(** [Counter(l)]: the counts, in order of first occurrence. *)
Definition Counter (l : list json) : result (list (json * N)) := update [] l.

End collections.

(** ** The script *)

Definition BASE_API_URL : string := "http://api.openweathermap.org/data/2.5/forecast".
Definition PLOTS_DIR : string := "visualizations".

(** The six lists returned by [process_forecast_data]. *)
Record columns : Type := Columns {
  timestamps : list datetime;
  temperatures : list json;
  feels_like_temps : list json;
  humidities : list json;
  wind_speeds : list json;
  weather_descriptions_main : list json
}.

(** [bool(v)] for a value that is a string or [None]. *)
Definition truthy_str (v : option string) : bool :=
  match v with
  | Some s => negb (Str.is_empty s)
  | None => false
  end.

Definition get_api_key : M string :=
  (api_key ← getenv "OPENWEATHERMAP_API_KEY";
   api_key ←
     (if negb (truthy_str api_key)
      then
        print "OpenWeatherMap API key not found in .env file or environment variables.";;
        line ← input "Please enter your OpenWeatherMap API key: ";
        ret (Some (Str.strip line))
      else ret api_key);
   if negb (truthy_str api_key)
   then print "API key is required to run the script. Exiting.";; exit
   else ret (default "" api_key))%py.

(** [fetch_weather_data]: the value returned is [JNull] where Python returns
    [None].  [response] stays unbound when [requests.get] itself raises. *)
Definition fetch_weather_data (api_key city_name : string) : M json :=
  λ w,
    let params := [("q", city_name); ("appid", api_key); ("units", "metric")] in
    let '(got, w1) := requests.get BASE_API_URL params w in
    let attempt :=
      (response ← got;
       _ ← requests.raise_for_status response;
       json_body response)%res in
    match attempt with
    | Return data => (Return data, w1)
    | Raise err =>
        if isinstance err HTTPError then
          match got with
          | Raise _ =>
              (Raise (Exn UnboundLocalError
                 "cannot access local variable 'response' where it is not associated with a value"),
               w1)
          | Return response =>
              ((if status_code response =? 401 then
                  print ("HTTP Error: " +:+ exn_str err
                         +:+ " - Invalid API key or key not activated yet.")
                else if status_code response =? 404 then
                  print ("HTTP Error: " +:+ exn_str err
                         +:+ " - City not found: " +:+ city_name)
                else
                  print ("HTTP Error: " +:+ exn_str err));;
               ret JNull)%py w1
          end
        else if isinstance err RequestException then
          (print ("Request Error: " +:+ exn_str err);; ret JNull)%py w1
        else if isinstance err JSONDecodeError then
          (print "Error: Failed to decode JSON response from API.";; ret JNull)%py w1
        else (Raise err, w1)
    end.

Section Transformation.

(** [datetime.datetime.fromtimestamp]: the conversion of the host, for its
    time zone; it raises on a value it cannot convert.  The zone belongs to
    the host the script runs on, not to the [world] the script acts on: a run
    is given by a conversion and a world. *)
Variable fromtimestamp : json → result datetime.

(** The body of the loop of [process_forecast_data], on the six lists built
    so far. *)
Definition process_entry (acc : columns) (entry : json) : result columns :=
  (dt ← Py.getitem entry "dt";
   dt_object ← fromtimestamp dt;
   main ← Py.getitem entry "main";
   temp ← Py.getitem main "temp";
   main ← Py.getitem entry "main";
   feels_like ← Py.getitem main "feels_like";
   main ← Py.getitem entry "main";
   humidity ← Py.getitem main "humidity";
   wind ← Py.getitem entry "wind";
   speed ← Py.getitem wind "speed";
   weather ← Py.getitem entry "weather";
   nonempty ←
     (if Py.truthy weather
      then weather ← Py.getitem entry "weather";
           n ← Py.len weather;
           Return (0 <? n)
      else Return false);
   description ←
     (if nonempty : bool
      then weather ← Py.getitem entry "weather";
           first ← Py.getitem0 weather;
           Py.getitem first "main"
      else Return (JStr "N/A"));
   Return
     (Columns (timestamps acc ++ [dt_object])
              (temperatures acc ++ [temp])
              (feels_like_temps acc ++ [feels_like])
              (humidities acc ++ [humidity])
              (wind_speeds acc ++ [speed])
              (weather_descriptions_main acc ++ [description])))%res.

(** [for entry in entries: ...] *)
Fixpoint process_entries (acc : columns) (entries : list json) : result columns :=
  match entries with
  | [] => Return acc
  | entry :: rest =>
      (acc' ← process_entry acc entry; process_entries acc' rest)%res
  end.

(** [process_forecast_data]: [None] is Python's [None], [Some] the tuple. *)
Definition process_forecast_data (data : json) : M (option columns) :=
  (invalid ←
     lift (if negb (Py.truthy data) then Return true
           else (present ← Py.contains "list" data; Return (negb present))%res);
   if invalid : bool
   then print "Error: Invalid or empty data received from API.";; ret None
   else
     cols ← lift (forecast ← Py.getitem data "list";
                  entries ← Py.iter forecast;
                  process_entries (Columns [] [] [] [] [] []) entries)%res;
     ret (Some cols))%py.

End Transformation.

Definition ensure_plots_dir : M unit :=
  (present ← os.path_exists PLOTS_DIR;
   if negb present
   then os.makedirs PLOTS_DIR;; print ("Created directory: " +:+ PLOTS_DIR)
   else ret tt)%py.

(** The three line charts and the pie chart.  Drawing itself is taken to
    succeed; a figure records what was drawn, and saving it needs the
    directory. *)
Definition temperature_figure
    (timestamps : list datetime) (temps feels_like_temps : list json)
    (city_name : string) : figure :=
  LinePlot
    [Line timestamps temps "o" "-" None "Temperature (°C)";
     Line timestamps feels_like_temps "x" "--" None "Feels Like (°C)"]
    ("5-Day Temperature & Feels Like Forecast for " +:+ Str.title city_name)
    "Time" "Temperature (°C)" 45 None.

Definition plot_temperature_forecast
    (timestamps : list datetime) (temps feels_like_temps : list json)
    (city_name : string) : M unit :=
  let fig := temperature_figure timestamps temps feels_like_temps city_name in
  (plt.savefig PLOTS_DIR "temperature_forecast.png" fig;;
   print ("Saved temperature forecast plot to "
          +:+ os.path_join PLOTS_DIR "temperature_forecast.png");;
   plt.show_figure fig)%py.

Definition humidity_figure
    (timestamps : list datetime) (humidities : list json)
    (city_name : string) : figure :=
  LinePlot
    [Line timestamps humidities "o" "-" (Some "teal") "Humidity (%)"]
    ("5-Day Humidity Forecast for " +:+ Str.title city_name)
    "Time" "Humidity (%)" 45 (Some (0, 100)).

Definition plot_humidity_forecast
    (timestamps : list datetime) (humidities : list json)
    (city_name : string) : M unit :=
  let fig := humidity_figure timestamps humidities city_name in
  (plt.savefig PLOTS_DIR "humidity_forecast.png" fig;;
   print ("Saved humidity forecast plot to "
          +:+ os.path_join PLOTS_DIR "humidity_forecast.png");;
   plt.show_figure fig)%py.

Definition wind_speed_figure
    (timestamps : list datetime) (wind_speeds : list json)
    (city_name : string) : figure :=
  LinePlot
    [Line timestamps wind_speeds "o" "-" (Some "purple") "Wind Speed (m/s)"]
    ("5-Day Wind Speed Forecast for " +:+ Str.title city_name)
    "Time" "Wind Speed (m/s)" 45 None.

Definition plot_wind_speed_forecast
    (timestamps : list datetime) (wind_speeds : list json)
    (city_name : string) : M unit :=
  let fig := wind_speed_figure timestamps wind_speeds city_name in
  (plt.savefig PLOTS_DIR "wind_speed_forecast.png" fig;;
   print ("Saved wind speed forecast plot to "
          +:+ os.path_join PLOTS_DIR "wind_speed_forecast.png");;
   plt.show_figure fig)%py.

(** The pie drawn from the counts; the palette has ten colours, named here
    by their position. *)
Definition conditions_figure
    (condition_counts : list (json * N)) (city_name : string) : figure :=
  let labels := condition_counts.*1 in
  let sizes := condition_counts.*2 in
  let colors := take (length labels) (seq 0 10) in
  PieChart sizes labels colors "%1.1f%%" 140
    ("Distribution of Weather Conditions for " +:+ Str.title city_name
     +:+ " (Next 5 Days)").

Definition plot_weather_conditions_pie
    (weather_descriptions_main : list json) (city_name : string) : M unit :=
  match weather_descriptions_main with
  | [] => print "No weather descriptions to plot for pie chart."
  | _ :: _ =>
      (condition_counts ← lift (collections.Counter weather_descriptions_main);
       let fig := conditions_figure condition_counts city_name in
       plt.savefig PLOTS_DIR "weather_conditions_pie_chart.png" fig;;
       print ("Saved weather conditions pie chart to "
              +:+ os.path_join PLOTS_DIR "weather_conditions_pie_chart.png");;
       plt.show_figure fig)%py
  end.

Section Orchestration.

Variable fromtimestamp : json → result datetime.

(** [sns.set_theme] only styles the figures and leaves no trace here. *)
Definition main : M unit :=
  (print "--- Weather Data Visualizer ---";;
   api_key ← get_api_key;
   city_name ← getenv "CITY_NAME";
   if negb (truthy_str city_name)
   then print "City name cannot be empty. Exiting."
   else
     let city_name := default "" city_name in
     print (Str.nl +:+ "Fetching weather data for " +:+ Str.title city_name +:+ "...");;
     weather_data ← fetch_weather_data api_key city_name;
     if Py.truthy weather_data
     then
       print "Weather data fetched successfully.";;
       processed_data ← process_forecast_data fromtimestamp weather_data;
       match processed_data with
       | None => print "Failed to process weather data. Exiting."
       | Some (Columns timestamps temps feels_like_temps humidities
                       wind_speeds weather_descriptions) =>
           ensure_plots_dir;;
           print (Str.nl +:+ "Generating and saving plots...");;
           plot_temperature_forecast timestamps temps feels_like_temps city_name;;
           plot_humidity_forecast timestamps humidities city_name;;
           plot_wind_speed_forecast timestamps wind_speeds city_name;;
           plot_weather_conditions_pie weather_descriptions city_name;;
           print (Str.nl +:+ "--- All visualizations saved in '" +:+ PLOTS_DIR
                  +:+ "' directory ---");;
           print "--- Script finished ---"
       end
     else
       print ("Could not retrieve weather data for " +:+ Str.title city_name
              +:+ ". Please check the city name and your API key."))%py.

End Orchestration.

(** ** A host on UTC

    One conversion to instantiate the development with: a host whose local
    time is UTC.  Integers are seconds since 1970-01-01; a float is taken at
    its exact value, rounded half to even to the microsecond.  It is the
    conversion of such a host for the time stamps of a forecast, whole
    seconds of the years 1971 to 9998; at the ends of the range and on
    floats between two microseconds the interpreter may round or fail
    otherwise, and nothing below relies on the conversion there. *)

Module Utc.

(** Proleptic Gregorian date of a day count relative to 1970-01-01. *)
Definition civil_from_days (days : Z) : Z * Z * Z :=
  let z := days + 719468 in
  let era := z / 146097 in
  let doe := z - era * 146097 in
  let yoe := (doe - doe / 1460 + doe / 36524 - doe / 146096) / 365 in
  let doy := doe - (365 * yoe + yoe / 4 - yoe / 100) in
  let mp := (5 * doy + 2) / 153 in
  let d := doy - (153 * mp + 2) / 5 + 1 in
  let m := if mp <? 10 then mp + 3 else mp - 9 in
  let y := yoe + era * 400 in
  (if m <=? 2 then y + 1 else y, m, d).

(** Years 1 to 9999 are representable. *)
Definition min_seconds : Z := -62135596800.
Definition max_seconds : Z := 253402300799.

Definition of_micros (us : Z) : result datetime :=
  let secs := us / 1000000 in
  if (secs <? - 2 ^ 63) || (2 ^ 63 <=? secs) then
    Raise (Exn OverflowError "timestamp out of range for platform time_t")
  else if (secs <? min_seconds) || (max_seconds <? secs) then
    Raise (Exn ValueError "year is out of range")
  else
    let '(y, m, d) := civil_from_days (secs / 86400) in
    let rem := secs mod 86400 in
    Return (DateTime y m d (rem / 3600) (rem mod 3600 / 60) (rem mod 60)
                     (us mod 1000000)).

Definition round_half_even (n d : Z) : Z :=
  let q := n / d in
  let r := n mod d in
  if 2 * r <? d then q
  else if d <? 2 * r then q + 1
  else if Z.even q then q else q + 1.

Definition float_micros (f : float) : option Z :=
  match Prim2SF f with
  | S754_zero _ => Some 0
  | S754_finite s m e =>
      let n := Z.pos m * 1000000 in
      let q := if 0 <=? e then n * 2 ^ e else round_half_even n (2 ^ (- e)) in
      Some (if s then - q else q)
  | S754_infinity _ | S754_nan => None
  end.

Definition fromtimestamp (v : json) : result datetime :=
  match v with
  | JInt z => of_micros (z * 1000000)
  | JBool b => of_micros (if b then 1000000 else 0)
  | JFloat f =>
      match float_micros f with
      | Some us => of_micros us
      | None =>
          if is_nan f
          then Raise (Exn ValueError "Invalid value NaN (not a number)")
          else Raise (Exn OverflowError "cannot convert float infinity to integer")
      end
  | _ =>
      Raise (Exn TypeError
               ("'" +:+ Py.type_name v +:+ "' object cannot be interpreted as an integer"))
  end.

End Utc.

(** ** A host nine hours east of UTC

    The conversion of a host whose zone is Asia/Tokyo, which keeps no
    daylight saving time: local time is UTC plus nine hours. *)

Module Tokyo.

Definition utc_offset : Z := 32400.

Definition fromtimestamp (v : json) : result datetime :=
  match v with
  | JInt z => Utc.of_micros ((z + utc_offset) * 1000000)
  | JBool b => Utc.of_micros (((if b then 1 else 0) + utc_offset) * 1000000)
  | JFloat f =>
      match Utc.float_micros f with
      | Some us => Utc.of_micros (us + utc_offset * 1000000)
      | None =>
          if is_nan f
          then Raise (Exn ValueError "Invalid value NaN (not a number)")
          else Raise (Exn OverflowError "cannot convert float infinity to integer")
      end
  | _ =>
      Raise (Exn TypeError
               ("'" +:+ Py.type_name v +:+ "' object cannot be interpreted as an integer"))
  end.

End Tokyo.

(** ** Vocabulary of the specification *)

(** One observation of the forecast, as read off an entry. *)
Record forecast_point : Type := Point {
  pt_time : datetime;
  pt_temp : json;
  pt_feels_like : json;
  pt_humidity : json;
  pt_wind_speed : json;
  pt_condition : json
}.

Definition columns_of (points : list forecast_point) : columns :=
  Columns (pt_time <$> points) (pt_temp <$> points) (pt_feels_like <$> points)
          (pt_humidity <$> points) (pt_wind_speed <$> points)
          (pt_condition <$> points).

(** The values found at one position of the six columns. *)
Definition row (cols : columns) (i : nat) : option forecast_point :=
  t ← timestamps cols !! i;
  temp ← temperatures cols !! i;
  feels ← feels_like_temps cols !! i;
  hum ← humidities cols !! i;
  speed ← wind_speeds cols !! i;
  label ← weather_descriptions_main cols !! i;
  Some (Point t temp feels hum speed label).

(** The label of a condition list that is present in its entry. *)
Inductive condition_label : json → json → Prop :=
| label_empty : condition_label (JList []) (JStr "N/A")
| label_null : condition_label JNull (JStr "N/A")
| label_first c rest description :
    Py.dict_get "main" c = Some description →
    condition_label (JList (JDict c :: rest)) description.

Section Entries.

Variable fromtimestamp : json → result datetime.

(** An entry with a convertible time stamp, a temperature block, a wind
    block and a condition list, and the observation it carries. *)
Inductive well_formed_entry : json → forecast_point → Prop :=
| well_formed d dt t m temp feels hum wn speed weather label :
    Py.dict_get "dt" d = Some dt →
    fromtimestamp dt = Return t →
    Py.dict_get "main" d = Some (JDict m) →
    Py.dict_get "temp" m = Some temp →
    Py.dict_get "feels_like" m = Some feels →
    Py.dict_get "humidity" m = Some hum →
    Py.dict_get "wind" d = Some (JDict wn) →
    Py.dict_get "speed" wn = Some speed →
    Py.dict_get "weather" d = Some weather →
    condition_label weather label →
    well_formed_entry (JDict d) (Point t temp feels hum speed label).

(** A response whose forecast list is [entries], all of them well formed. *)
Definition valid_response (data : json) (entries : list json) : Prop :=
  ∃ d, data = JDict d
       ∧ Py.dict_get "list" d = Some (JList entries)
       ∧ Forall (λ e, ∃ p, well_formed_entry e p) entries.

(** An entry in which the lookup of [k] is the first step to fail. *)
Inductive first_missing : json → string → Prop :=
| missing_dt d :
    Py.dict_get "dt" d = None → first_missing (JDict d) "dt"
| missing_main d dt t :
    Py.dict_get "dt" d = Some dt → fromtimestamp dt = Return t →
    Py.dict_get "main" d = None → first_missing (JDict d) "main"
| missing_temp d dt t m :
    Py.dict_get "dt" d = Some dt → fromtimestamp dt = Return t →
    Py.dict_get "main" d = Some (JDict m) →
    Py.dict_get "temp" m = None → first_missing (JDict d) "temp"
| missing_feels_like d dt t m temp :
    Py.dict_get "dt" d = Some dt → fromtimestamp dt = Return t →
    Py.dict_get "main" d = Some (JDict m) →
    Py.dict_get "temp" m = Some temp →
    Py.dict_get "feels_like" m = None → first_missing (JDict d) "feels_like"
| missing_humidity d dt t m temp feels :
    Py.dict_get "dt" d = Some dt → fromtimestamp dt = Return t →
    Py.dict_get "main" d = Some (JDict m) →
    Py.dict_get "temp" m = Some temp →
    Py.dict_get "feels_like" m = Some feels →
    Py.dict_get "humidity" m = None → first_missing (JDict d) "humidity"
| missing_wind d dt t m temp feels hum :
    Py.dict_get "dt" d = Some dt → fromtimestamp dt = Return t →
    Py.dict_get "main" d = Some (JDict m) →
    Py.dict_get "temp" m = Some temp →
    Py.dict_get "feels_like" m = Some feels →
    Py.dict_get "humidity" m = Some hum →
    Py.dict_get "wind" d = None → first_missing (JDict d) "wind"
| missing_speed d dt t m temp feels hum wn :
    Py.dict_get "dt" d = Some dt → fromtimestamp dt = Return t →
    Py.dict_get "main" d = Some (JDict m) →
    Py.dict_get "temp" m = Some temp →
    Py.dict_get "feels_like" m = Some feels →
    Py.dict_get "humidity" m = Some hum →
    Py.dict_get "wind" d = Some (JDict wn) →
    Py.dict_get "speed" wn = None → first_missing (JDict d) "speed"
| missing_weather d dt t m temp feels hum wn speed :
    Py.dict_get "dt" d = Some dt → fromtimestamp dt = Return t →
    Py.dict_get "main" d = Some (JDict m) →
    Py.dict_get "temp" m = Some temp →
    Py.dict_get "feels_like" m = Some feels →
    Py.dict_get "humidity" m = Some hum →
    Py.dict_get "wind" d = Some (JDict wn) →
    Py.dict_get "speed" wn = Some speed →
    Py.dict_get "weather" d = None → first_missing (JDict d) "weather".

End Entries.

(** An entry that lacks one of the keys the loop reads: a top-level key, or
    a field of its temperature or wind block. *)
Inductive lacks_key : json → string → Prop :=
| lacks_top d k :
    k ∈ ["dt"; "main"; "wind"; "weather"] →
    Py.dict_get k d = None → lacks_key (JDict d) k
| lacks_in_main d m k :
    Py.dict_get "main" d = Some (JDict m) →
    k ∈ ["temp"; "feels_like"; "humidity"] →
    Py.dict_get k m = None → lacks_key (JDict d) k
| lacks_in_wind d wn :
    Py.dict_get "wind" d = Some (JDict wn) →
    Py.dict_get "speed" wn = None → lacks_key (JDict d) "speed".

(** The request [fetch_weather_data] issues. *)
Definition forecast_request (api_key city_name : string) : request :=
  (BASE_API_URL, [("q", city_name); ("appid", api_key); ("units", "metric")]).

(** The world after [fetch_weather_data] has issued its request and printed
    one diagnostic. *)
Definition diagnosed (api_key city_name line : string) (w : world) : world :=
  set_stdout (stdout w ++ [line])
             (set_sent (sent w ++ [forecast_request api_key city_name]) w).

(** The environment names a key and a city, and the server answers the
    forecast request with a decodable body [data]. *)
Definition answered (w : world) (api_key city_name : string) (data : json) : Prop :=
  environ w !! "OPENWEATHERMAP_API_KEY" = Some api_key ∧ api_key ≠ ""
  ∧ environ w !! "CITY_NAME" = Some city_name ∧ city_name ≠ ""
  ∧ ∃ r, server w (forecast_request api_key city_name) = Return r
         ∧ requests.raise_for_status r = Return tt
         ∧ json_body r = Return data.

Definition chart_path (name : string) : string := os.path_join PLOTS_DIR name.

Definition chart_names : list string :=
  ["temperature_forecast.png"; "humidity_forecast.png";
   "wind_speed_forecast.png"; "weather_conditions_pie_chart.png"].

(** The output directory is absent or a directory, and no chart path is
    taken by a directory. *)
Definition output_dir_usable (w : world) : Prop :=
  (fs w !! PLOTS_DIR = None ∨ fs w !! PLOTS_DIR = Some Directory)
  ∧ ∀ name, name ∈ chart_names → fs w !! chart_path name ≠ Some Directory.

Definition is_file (n : option node) : bool :=
  match n with
  | Some (File _) => true
  | _ => false
  end.

(** The chart files on disk. *)
Definition chart_files (w : world) : list string :=
  List.filter (λ name, is_file (fs w !! chart_path name)) chart_names.

(** ** Sample data *)

Module Sample.

Definition condition (label : string) : json :=
  JDict [("id", JInt 500); ("main", JStr label); ("description", JStr "light rain")].

Definition entry (dt : Z) (temp : json) (weather : json) : json :=
  JDict [("dt", JInt dt);
         ("main", JDict [("temp", temp); ("feels_like", JFloat 8.5);
                         ("humidity", JInt 81)]);
         ("wind", JDict [("speed", JFloat 4.5)]);
         ("weather", weather)].

Definition forecast (entries : list json) : json :=
  JDict [("cod", JStr "200"); ("cnt", JInt (Z.of_nat (length entries)));
         ("list", JList entries)].

(** Three entries, three hours apart, with temperatures 10, 12 and 9. *)
Definition three_entries : list json :=
  [entry 1700000000 (JInt 10) (JList [condition "Rain"]);
   entry 1700010800 (JInt 12) (JList [condition "Clouds"]);
   entry 1700021600 (JInt 9) (JList [])].

(** An entry without the "weather" key. *)
Definition entry_without_weather : json :=
  JDict [("dt", JInt 1700000000);
         ("main", JDict [("temp", JInt 10); ("feels_like", JFloat 8.5);
                         ("humidity", JInt 81)]);
         ("wind", JDict [("speed", JFloat 4.5)])].

(** An entry without the "weather" key whose temperature block is a number. *)
Definition entry_with_scalar_main : json :=
  JDict [("dt", JInt 1700000000); ("main", JInt 21);
         ("wind", JDict [("speed", JFloat 4.5)])].

Definition ok (data : json) : response :=
  Response 200 "OK" BASE_API_URL (Return data).

(** A world whose environment names a key and a city, with nothing on disk
    and a server that answers every request with [answer]. *)
Definition world_with (key city : string) (answer : result response) : world :=
  World {[ "OPENWEATHERMAP_API_KEY" := key; "CITY_NAME" := city ]}
        [] [] (λ _, answer) [] ∅ [].

(** The observations carried by [three_entries] on a host on UTC. *)
Definition three_points : list forecast_point :=
  [Point (DateTime 2023 11 14 22 13 20 0) (JInt 10) (JFloat 8.5) (JInt 81)
         (JFloat 4.5) (JStr "Rain");
   Point (DateTime 2023 11 15 1 13 20 0) (JInt 12) (JFloat 8.5) (JInt 81)
         (JFloat 4.5) (JStr "Clouds");
   Point (DateTime 2023 11 15 4 13 20 0) (JInt 9) (JFloat 8.5) (JInt 81)
         (JFloat 4.5) (JStr "N/A")].

(** Two entries, each with an empty condition list. *)
Definition calm_entries : list json :=
  [entry 1700000000 (JInt 10) (JList []);
   entry 1700010800 (JInt 12) (JList [])].

Definition calm_points : list forecast_point :=
  [Point (DateTime 2023 11 14 22 13 20 0) (JInt 10) (JFloat 8.5) (JInt 81)
         (JFloat 4.5) (JStr "N/A");
   Point (DateTime 2023 11 15 1 13 20 0) (JInt 12) (JFloat 8.5) (JInt 81)
         (JFloat 4.5) (JStr "N/A")].

(** A body without a forecast list, as sent with an error code. *)
Definition no_list : list (string * json) :=
  [("cod", JStr "404"); ("message", JStr "city not found")].

(** A world with an empty environment and no network. *)
Definition offline (lines : list string) : world :=
  World ∅ lines [] (λ _, Raise (Exn ConnectionError "Connection refused")) [] ∅ [].

(** Key "ABC", city "Paris", and a server that answers with [data]. *)
Definition scenario (data : json) : world :=
  world_with "ABC" "Paris" (Return (ok data)).

(** City "Nowhereville", unknown to the server. *)
Definition nowhereville : world :=
  world_with "ABC" "Nowhereville"
    (Return (Response 404 "Not Found" BASE_API_URL (Return (JDict no_list)))).

(** Worlds in which the retrieval fails in the other four ways. *)
Definition unauthorized : world :=
  world_with "BAD" "Paris"
    (Return (Response 401 "Unauthorized" BASE_API_URL
               (Return (JDict [("cod", JInt 401); ("message", JStr "Invalid API key")])))).

Definition overloaded : world :=
  world_with "ABC" "Paris"
    (Return (Response 503 "Service Unavailable" BASE_API_URL
               (Raise (Exn RequestsJSONDecodeError "Expecting value")))).

Definition unreachable : world :=
  world_with "ABC" "Paris" (Raise (Exn ConnectionError "Connection refused")).

(** A body that does not decode, reported by [requests] with its own
    exception, or with that of [json] as older releases did. *)
Definition garbled (raised : exn_class) : world :=
  world_with "ABC" "Paris"
    (Return (Response 200 "OK" BASE_API_URL (Raise (Exn raised "Expecting value")))).

End Sample.

(** ** Failures of the retrieval *)

Inductive failure : Set :=
| AuthenticationFailed
| LocationNotFound
| HttpFailure
| NetworkFailure
| DecodeFailure.

(** How an answer of the network fails: by its status, by an exception of
    [requests.get], or by a body that does not decode. *)
Inductive fails : result response → failure → Prop :=
| fails_authentication r :
    status_code r = 401 → fails (Return r) AuthenticationFailed
| fails_location r :
    status_code r = 404 → fails (Return r) LocationNotFound
| fails_http r :
    400 ≤ status_code r < 600 → status_code r ≠ 401 → status_code r ≠ 404 →
    fails (Return r) HttpFailure
| fails_network err :
    isinstance err RequestException = true → isinstance err HTTPError = false →
    fails (Raise err) NetworkFailure
| fails_decode r err :
    ¬ 400 ≤ status_code r < 600 →
    json_body r = Raise err → isinstance err JSONDecodeError = true →
    fails (Return r) DecodeFailure.

(** The line printed for a failure.  A decode error that is also a
    [RequestException] is reported by the handler of the latter. *)
Definition diagnostic (city_name : string) (answer : result response)
    (kind : failure) : string :=
  let http_err :=
    match answer with
    | Return r => requests.http_error_msg r
    | Raise _ => ""
    end in
  match kind with
  | AuthenticationFailed =>
      "HTTP Error: " +:+ http_err +:+ " - Invalid API key or key not activated yet."
  | LocationNotFound =>
      "HTTP Error: " +:+ http_err +:+ " - City not found: " +:+ city_name
  | HttpFailure => "HTTP Error: " +:+ http_err
  | NetworkFailure =>
      match answer with
      | Raise err => "Request Error: " +:+ exn_str err
      | Return _ => ""
      end
  | DecodeFailure =>
      match answer with
      | Return r =>
          match json_body r with
          | Raise err =>
              if isinstance err RequestException
              then "Request Error: " +:+ exn_str err
              else "Error: Failed to decode JSON response from API."
          | Return _ => ""
          end
      | Raise _ => ""
      end
  end.

(** The world after a chart has been saved, announced and shown. *)
Definition saved (name what : string) (fig : figure) (w : world) : world :=
  set_shown (shown w ++ [fig])
    (set_stdout (stdout w ++ ["Saved " +:+ what +:+ " to " +:+ chart_path name])
       (set_fs (<[chart_path name := File fig]> (fs w)) w)).

(** An entry whose condition list is present and empty. *)
Definition empty_conditions (e : json) : Prop :=
  ∃ d, e = JDict d ∧ Py.dict_get "weather" d = Some (JList []).

(** The disk after the directory was ensured and the three line charts of
    [points] were saved. *)
Definition line_charts_on (city : string) (points : list forecast_point)
    (files : gmap string node) : gmap string node :=
  <[chart_path "wind_speed_forecast.png"
      := File (wind_speed_figure (pt_time <$> points) (pt_wind_speed <$> points) city)]>
    (<[chart_path "humidity_forecast.png"
         := File (humidity_figure (pt_time <$> points) (pt_humidity <$> points) city)]>
       (<[chart_path "temperature_forecast.png"
            := File (temperature_figure (pt_time <$> points) (pt_temp <$> points)
                       (pt_feels_like <$> points) city)]>
          (<[PLOTS_DIR := Directory]> files))).

(** The disk after the pie chart step on [labels]: nothing is written for
    an empty list, nor when the counting raises. *)
Definition pie_chart_on (city : string) (labels : list json)
    (files : gmap string node) : gmap string node :=
  match labels with
  | [] => files
  | _ :: _ =>
      match collections.Counter labels with
      | Return counts =>
          <[chart_path "weather_conditions_pie_chart.png"
              := File (conditions_figure counts city)]> files
      | Raise _ => files
      end
  end.

(** The result of a run that got as far as the pie chart. *)
Definition pie_chart_result (labels : list json) : result unit :=
  match collections.Counter labels with
  | Return _ => Return tt
  | Raise err => Raise err
  end.

(** Two groups of columns, one after the other. *)
Definition columns_app (a b : columns) : columns :=
  Columns (timestamps a ++ timestamps b) (temperatures a ++ temperatures b)
          (feels_like_temps a ++ feels_like_temps b)
          (humidities a ++ humidities b) (wind_speeds a ++ wind_speeds b)
          (weather_descriptions_main a ++ weather_descriptions_main b).


(** The world in which [main] starts to work on the decoded response. *)
Definition fetched (api_key city : string) (w : world) : world :=
  set_sent (sent w ++ [forecast_request api_key city])
    (set_stdout (stdout w ++ ["--- Weather Data Visualizer ---";
                              Str.nl +:+ "Fetching weather data for "
                                +:+ Str.title city +:+ "..."]) w).


(** ** Vocabulary of the further properties *)

(** The paths the script may write: the directory and the four charts. *)
Definition output_paths : list string := PLOTS_DIR :: (chart_path <$> chart_names).

(** What a run may do to the world: the environment and the network stay
    as they are, the streams, the requests and the display only grow, input
    is only consumed, and on disk only the output paths change, nothing is
    removed and a directory stays one. *)
Record footprint (w w' : world) : Prop := Footprint {
  footprint_environ : environ w' = environ w;
  footprint_server : server w' = server w;
  footprint_stdout : stdout w `prefix_of` stdout w';
  footprint_sent : sent w `prefix_of` sent w';
  footprint_shown : shown w `prefix_of` shown w';
  footprint_stdin : stdin w' `suffix_of` stdin w;
  footprint_other : ∀ p, p ∉ output_paths → fs w' !! p = fs w !! p;
  footprint_kept : ∀ p, is_Some (fs w !! p) → is_Some (fs w' !! p);
  footprint_dirs : ∀ p, fs w !! p = Some Directory → fs w' !! p = Some Directory
}.

(** A computation that stays within the footprint, from any world. *)
Definition within_footprint {A} (m : M A) : Prop := ∀ w, footprint w (m w).2.

(** The label read off a condition list by the loop. *)
Definition label_read (weather label : json) : Prop :=
  (Py.truthy weather = false ∧ label = JStr "N/A")
  ∨ ∃ c rest, weather = JList (JDict c :: rest) ∧ Py.dict_get "main" c = Some label.

(** The observation the loop reads off an entry, by the subscripts of the
    source, for any entry. *)
Definition entry_reads (fromtimestamp : json → result datetime)
    (e : json) (p : forecast_point) : Prop :=
  ∃ d dt m wn weather,
    e = JDict d
    ∧ Py.dict_get "dt" d = Some dt ∧ fromtimestamp dt = Return (pt_time p)
    ∧ Py.dict_get "main" d = Some (JDict m)
    ∧ Py.dict_get "temp" m = Some (pt_temp p)
    ∧ Py.dict_get "feels_like" m = Some (pt_feels_like p)
    ∧ Py.dict_get "humidity" m = Some (pt_humidity p)
    ∧ Py.dict_get "wind" d = Some (JDict wn)
    ∧ Py.dict_get "speed" wn = Some (pt_wind_speed p)
    ∧ Py.dict_get "weather" d = Some weather
    ∧ label_read weather (pt_condition p).

(** A computation that issues no request, from any world. *)
Definition sends_nothing {A} (m : M A) : Prop := ∀ w, sent (m w).2 = sent w.

(** A computation that leaves disk and display as they are. *)
Definition draws_nothing {A} (m : M A) : Prop :=
  ∀ w, fs (m w).2 = fs w ∧ shown (m w).2 = shown w.

(** The figure shown by the pie chart step on [labels], if any. *)
Definition pie_chart_shown (city : string) (labels : list json) : list figure :=
  match labels with
  | [] => []
  | _ :: _ =>
      match collections.Counter labels with
      | Return counts => [conditions_figure counts city]
      | Raise _ => []
      end
  end.

(** The three line figures drawn from [points]. *)
Definition line_figures (city : string) (points : list forecast_point) : list figure :=
  [temperature_figure (pt_time <$> points) (pt_temp <$> points)
     (pt_feels_like <$> points) city;
   humidity_figure (pt_time <$> points) (pt_humidity <$> points) city;
   wind_speed_figure (pt_time <$> points) (pt_wind_speed <$> points) city].

(** The sum of the slices of a pie. *)
Definition total (sizes : list N) : N := foldr N.add 0%N sizes.

(** The count kept for the string [s] in a counter. *)
Fixpoint tally (s : string) (c : list (json * N)) : N :=
  match c with
  | [] => 0%N
  | (k, n) :: c' => if collections.same_key k (JStr s) then n else tally s c'
  end.

(** The number of occurrences of [s] in a list of strings. *)
Definition occurrences (s : string) (l : list string) : nat :=
  length (filter (λ x, x = s) l).

(** A counter whose keys are strings. *)
Definition string_keys (c : list (json * N)) : Prop :=
  Forall (λ kn : json * N, ∃ t, kn.1 = JStr t) c.

(** What the counter holds after the strings [pre] were counted: one key for
    each of them, with the number of its occurrences. *)
Definition counted (pre : list string) (c : list (json * N)) : Prop :=
  string_keys c ∧ NoDup c.*1
  ∧ (∀ s, JStr s ∈ c.*1 ↔ s ∈ pre)
  ∧ ∀ s, tally s c = N.of_nat (occurrences s pre).

(** ** Further sample data *)

Module Cases.

(** A key in the environment, and no city. *)
Definition no_city : world :=
  World {[ "OPENWEATHERMAP_API_KEY" := "ABC" ]} [] []
        (λ _, Raise (Exn ConnectionError "Connection refused")) [] ∅ [].

(** An empty environment and one line typed at the prompt. *)
Definition typed (line : string) : world := Sample.offline [line].

(** A key typed with a no-break space before it and an em space after
    it. *)
Definition padded_key : string := Str.utf8 160 +:+ " sk-1 " +:+ Str.utf8 8195.

(** A line of white space only: a no-break space, a space and an em
    space. *)
Definition blank_line : string := Str.of_points [160; 32; 8195]%N.

(** The address of the forecast request, as a response reports it. *)
Definition forecast_url (key city : string) : string :=
  BASE_API_URL +:+ "?q=" +:+ city +:+ "&appid=" +:+ key +:+ "&units=metric".

(** Key "ABC", city "Paris", and a server that answers with status 200 and
    a page that is not JSON: decoding raises an exception of class [raised]
    with the text [text].  Since release 2.27 [requests] raises its own
    [JSONDecodeError]; before, it let the one of [json] through. *)
Definition undecodable (raised : exn_class) (text : string) : world :=
  Sample.world_with "ABC" "Paris"
    (Return (Response 200 "OK" (forecast_url "ABC" "Paris") (Raise (Exn raised text)))).

(** The same key and city, and a connection that fails with the text
    [text]. *)
Definition refused (text : string) : world :=
  Sample.world_with "ABC" "Paris" (Raise (Exn ConnectionError text)).

(** City "Nowhereville", unknown to the server. *)
Definition unknown_city : world :=
  Sample.world_with "ABC" "Nowhereville"
    (Return (Response 404 "Not Found" (forecast_url "ABC" "Nowhereville")
               (Return (JDict Sample.no_list)))).

(** The scenario of three entries, with a regular file where the output
    directory should be. *)
Definition taken : world :=
  set_fs {[ PLOTS_DIR := File (PieChart [] [] [] "" 0 "") ]}
         (Sample.scenario (Sample.forecast Sample.three_entries)).

(** An entry whose condition names its category by a list. *)
Definition listed_entry : json :=
  Sample.entry 1700000000 (JInt 10) (JList [JDict [("main", JList [JStr "Rain"])]]).

Definition listed_point : forecast_point :=
  Point (DateTime 2023 11 14 22 13 20 0) (JInt 10) (JFloat 8.5) (JInt 81)
        (JFloat 4.5) (JList [JStr "Rain"]).

End Cases.

(** ** Facts about the transformation *)

Lemma columns_app_nil_r (a : columns) : columns_app a (columns_of []) = a.
Proof. destruct a; unfold columns_app; simpl; by rewrite !app_nil_r. Qed.

Lemma columns_app_cons (a : columns) p ps :
  columns_app a (columns_of (p :: ps))
  = columns_app (columns_app a (columns_of [p])) (columns_of ps).
Proof. unfold columns_app; simpl. by rewrite <- !app_assoc. Qed.

Lemma dict_get_truthy k d v : Py.dict_get k d = Some v → Py.truthy (JDict d) = true.
Proof. destruct d; [discriminate | reflexivity]. Qed.

Lemma getitem_dict k d v :
  Py.dict_get k d = Some v → Py.getitem (JDict d) k = Return v.
Proof. intros H. simpl. by rewrite H. Qed.

Lemma getitem_dict_missing k d :
  Py.dict_get k d = None → Py.getitem (JDict d) k = Raise (Py.key_error k).
Proof. intros H. simpl. by rewrite H. Qed.

Section TransformationFacts.

Variable fromtimestamp : json → result datetime.

Lemma process_entry_ok acc e p :
  well_formed_entry fromtimestamp e p →
  process_entry fromtimestamp acc e = Return (columns_app acc (columns_of [p])).
Proof.
  intros [d dt t m temp feels hum wn speed weather label
            Hdt Ht Hm Htemp Hfeels Hhum Hwn Hspeed Hweather Hlabel].
  unfold process_entry.
  rewrite (getitem_dict _ _ _ Hdt), (getitem_dict _ _ _ Hm),
    (getitem_dict _ _ _ Hwn), (getitem_dict _ _ _ Hweather). simpl.
  rewrite Ht. simpl.
  rewrite Htemp, Hfeels, Hhum, Hspeed. simpl.
  destruct Hlabel as [| |c rest description Hc]; simpl; try reflexivity.
  by rewrite Hc.
Qed.

Lemma process_entries_ok es ps :
  Forall2 (well_formed_entry fromtimestamp) es ps →
  ∀ acc, process_entries fromtimestamp acc es
         = Return (columns_app acc (columns_of ps)).
Proof.
  induction 1 as [|e p es ps He _ IH]; intros acc; simpl.
  - by rewrite columns_app_nil_r.
  - rewrite (process_entry_ok _ _ _ He). simpl.
    by rewrite IH, (columns_app_cons acc p ps).
Qed.

Lemma process_entries_app acc l1 l2 :
  process_entries fromtimestamp acc (l1 ++ l2)
  = rbind (process_entries fromtimestamp acc l1)
          (λ acc', process_entries fromtimestamp acc' l2).
Proof.
  revert acc. induction l1 as [|e l1 IH]; intros acc; simpl; [done|].
  destruct (process_entry fromtimestamp acc e); simpl; auto.
Qed.

Lemma well_formed_points es :
  Forall (λ e, ∃ p, well_formed_entry fromtimestamp e p) es →
  ∃ ps, Forall2 (well_formed_entry fromtimestamp) es ps.
Proof.
  induction 1 as [|e es [p Hp] _ [ps Hps]]; [by exists [] | exists (p :: ps)].
  by constructor.
Qed.

Lemma well_formed_entry_fun e p q :
  well_formed_entry fromtimestamp e p → well_formed_entry fromtimestamp e q → p = q.
Proof.
  intros Hp Hq. inversion Hp; subst. inversion Hq; subst.
  simplify_eq.
  repeat match goal with H : condition_label _ _ |- _ => inversion H; clear H; subst end.
  all: try congruence.
Qed.

(** The transformation of a response that has a forecast list. *)
Lemma process_forecast_data_list d entries w :
  Py.dict_get "list" d = Some (JList entries) →
  process_forecast_data fromtimestamp (JDict d) w
  = match process_entries fromtimestamp (Columns [] [] [] [] [] []) entries with
    | Return cols => (Return (Some cols), w)
    | Raise e => (Raise e, w)
    end.
Proof.
  intros Hlist. unfold process_forecast_data, bind, lift.
  rewrite (dict_get_truthy _ _ _ Hlist). simpl. rewrite Hlist. simpl.
  by destruct (process_entries _ _ _).
Qed.

Lemma process_forecast_data_valid data entries :
  valid_response fromtimestamp data entries →
  ∃ points, Forall2 (well_formed_entry fromtimestamp) entries points
            ∧ ∀ w, process_forecast_data fromtimestamp data w
                   = (Return (Some (columns_of points)), w).
Proof.
  intros (d & -> & Hlist & Hwf).
  destruct (well_formed_points _ Hwf) as [points Hpoints].
  exists points. split; [done|]. intros w.
  rewrite (process_forecast_data_list _ _ _ Hlist).
  by rewrite (process_entries_ok _ _ Hpoints).
Qed.

Lemma row_columns_of points i :
  row (columns_of points) i = points !! i.
Proof.
  unfold row, columns_of; simpl. rewrite !list_lookup_fmap.
  destruct (points !! i) as [[]|]; reflexivity.
Qed.

End TransformationFacts.

Section TransformationTheorems.

Variable fromtimestamp : json → result datetime.

Ltac raises :=
  repeat (cbn [rbind];
          lazymatch goal with
          | |- ∃ err, Raise _ = Raise err => eexists; reflexivity
          | |- ∃ err, rbind ?r _ = Raise err => destruct r eqn:?
          | |- ∃ err, match ?r with _ => _ end = Raise err => destruct r eqn:?
          end).

Lemma process_entry_lacking acc e k :
  lacks_key e k → ∃ err, process_entry fromtimestamp acc e = Raise err.
Proof.
  intros [d k' Hk Hnone | d m k' Hm Hk Hnone | d wn Hwn Hnone];
    unfold process_entry.
  - repeat (apply elem_of_cons in Hk as [-> | Hk]);
      [| | | | by apply elem_of_nil in Hk];
      rewrite (getitem_dict_missing _ _ Hnone); raises.
  - rewrite (getitem_dict _ _ _ Hm).
    repeat (apply elem_of_cons in Hk as [-> | Hk]);
      [| | | by apply elem_of_nil in Hk];
      pose proof (getitem_dict_missing _ _ Hnone) as Hraise;
      raises; rewrite Hraise in *; simplify_eq.
  - rewrite (getitem_dict _ _ _ Hwn).
    pose proof (getitem_dict_missing _ _ Hnone) as Hraise.
    raises; rewrite Hraise in *; simplify_eq.
Qed.

Lemma process_entries_lacking entries e k :
  e ∈ entries → lacks_key e k →
  ∀ acc, ∃ err, process_entries fromtimestamp acc entries = Raise err.
Proof.
  intros Hin Hlacks. induction Hin as [e rest | e e' rest _ IH]; intros acc; simpl.
  - destruct (process_entry_lacking acc e k Hlacks) as [err ->]. by exists err.
  - destruct (process_entry fromtimestamp acc e') as [acc'|err]; simpl; eauto.
Qed.

Lemma process_entry_first_missing acc e k :
  first_missing fromtimestamp e k →
  process_entry fromtimestamp acc e = Raise (Py.key_error k).
Proof.
  intros H. unfold process_entry.
  destruct H;
    repeat match goal with
           | H : Py.dict_get ?k ?d = Some _ |- context [Py.getitem (JDict ?d) ?k] =>
               rewrite (getitem_dict _ _ _ H)
           | H : Py.dict_get ?k ?d = None |- context [Py.getitem (JDict ?d) ?k] =>
               rewrite (getitem_dict_missing _ _ H)
           | H : fromtimestamp ?x = _ |- context [fromtimestamp ?x] => rewrite H
           | _ => progress cbn [rbind]
           end; reflexivity.
Qed.

End TransformationTheorems.

Section ValidResponses.

Variable fromtimestamp : json → result datetime.

Lemma valid_response_columns data entries :
  valid_response fromtimestamp data entries →
  ∃ points,
    Forall2 (well_formed_entry fromtimestamp) entries points
    ∧ (∀ w, process_forecast_data fromtimestamp data w
            = (Return (Some (columns_of points)), w))
    ∧ ∀ i e, entries !! i = Some e →
             ∃ p, well_formed_entry fromtimestamp e p
                  ∧ row (columns_of points) i = Some p.
Proof.
  intros Hvalid.
  destruct (process_forecast_data_valid _ _ _ Hvalid) as (points & Hpoints & Hrun).
  exists points. split_and!; [done | done |].
  intros i e Hi.
  destruct (Forall2_lookup_l _ _ _ _ _ Hpoints Hi) as (p & Hp & Hwf).
  exists p. by rewrite row_columns_of.
Qed.

End ValidResponses.

(** C2. For a valid response whose forecast list has N entries, the
    transformation returns six lists of length N, and at every position
    below N the six values are those of the observation carried by the entry
    at that position. *)
Theorem process_forecast_data_aligned fromtimestamp data entries w :
  valid_response fromtimestamp data entries →
  ∃ cols,
    process_forecast_data fromtimestamp data w = (Return (Some cols), w)
    ∧ length (timestamps cols) = length entries
    ∧ length (temperatures cols) = length entries
    ∧ length (feels_like_temps cols) = length entries
    ∧ length (humidities cols) = length entries
    ∧ length (wind_speeds cols) = length entries
    ∧ length (weather_descriptions_main cols) = length entries
    ∧ ∀ i, (i < length entries)%nat →
           ∃ e p, entries !! i = Some e
                  ∧ well_formed_entry fromtimestamp e p
                  ∧ row cols i = Some p.
Proof.
  intros Hvalid.
  destruct (valid_response_columns _ _ _ Hvalid) as (points & Hpoints & Hrun & Hrow).
  exists (columns_of points). split; [apply Hrun|].
  pose proof (Forall2_length _ _ _ Hpoints) as Hlen.
  unfold columns_of; simpl. rewrite !length_fmap.
  split_and!; try done.
  intros i Hi. destruct (lookup_lt_is_Some_2 entries i Hi) as [e He].
  destruct (Hrow i e He) as (p & Hwf & Hp). by exists e, p.
Qed.

(** C3, amended. For a valid response, an entry whose condition list is
    present but empty, or null, gets the label "N/A" at its position of the
    condition column; an entry whose condition list starts with a condition
    gets that condition's "main" label. *)
Theorem condition_column_labels fromtimestamp data entries w :
  valid_response fromtimestamp data entries →
  ∃ cols,
    process_forecast_data fromtimestamp data w = (Return (Some cols), w)
    ∧ ∀ i d weather,
        entries !! i = Some (JDict d) →
        Py.dict_get "weather" d = Some weather →
        (weather = JList [] ∨ weather = JNull →
         weather_descriptions_main cols !! i = Some (JStr "N/A"))
        ∧ (∀ c rest description,
             weather = JList (JDict c :: rest) →
             Py.dict_get "main" c = Some description →
             weather_descriptions_main cols !! i = Some description).
Proof.
  intros Hvalid.
  destruct (valid_response_columns _ _ _ Hvalid) as (points & Hpoints & Hrun & Hrow).
  exists (columns_of points). split; [apply Hrun|].
  intros i d weather He Hweather.
  destruct (Hrow _ _ He) as (p & Hwf & Hp).
  assert (weather_descriptions_main (columns_of points) !! i = Some (pt_condition p))
    as ->.
  { rewrite row_columns_of in Hp. unfold columns_of; simpl.
    by rewrite list_lookup_fmap, Hp. }
  inversion Hwf as [? ? ? ? ? ? ? ? ? weather' label ? ? ? ? ? ? ? ? Hw Hlabel];
    subst; simpl.
  assert (weather' = weather) as -> by congruence.
  split.
  - intros [-> | ->]; by inversion Hlabel.
  - intros c rest description -> Hc. inversion Hlabel; subst. congruence.
Qed.




(** C10, amended. When the forecast list holds an entry that lacks one of
    the keys read by the loop, the transformation raises: it returns neither
    an absent result nor columns with a default.  The error is the key error
    of the missing key when that lookup is the first step to fail, that is
    when the entries before are well formed and the steps before it in the
    entry succeed. *)
Theorem process_forecast_data_partial fromtimestamp d entries w :
  Py.dict_get "list" d = Some (JList entries) →
  (∀ e k, e ∈ entries → lacks_key e k →
          ∃ err, process_forecast_data fromtimestamp (JDict d) w = (Raise err, w))
  ∧ (∀ good points e k rest,
       entries = good ++ e :: rest →
       Forall2 (well_formed_entry fromtimestamp) good points →
       first_missing fromtimestamp e k →
       process_forecast_data fromtimestamp (JDict d) w
       = (Raise (Py.key_error k), w)).
Proof.
  intros Hlist. rewrite (process_forecast_data_list _ _ _ _ Hlist). split.
  - intros e k Hin Hlacks.
    destruct (process_entries_lacking fromtimestamp _ _ _ Hin Hlacks
                (Columns [] [] [] [] [] [])) as [err ->].
    by exists err.
  - intros good points e k rest -> Hgood Hmissing.
    rewrite process_entries_app, (process_entries_ok _ _ _ Hgood). simpl.
    by rewrite (process_entry_first_missing _ _ _ _ Hmissing).
Qed.

(** ** Facts about strings *)

Lemma string_app_cons a s t : String a s +:+ t = String a (s +:+ t).
Proof. reflexivity. Qed.

Lemma string_app_nil_r s : s +:+ "" = s.
Proof. induction s as [|a s IH]; [done|]. by rewrite string_app_cons, IH. Qed.

Lemma rev_app_spec s t : String.rev_app s t = String.rev s +:+ t.
Proof.
  unfold String.rev. revert t.
  assert (∀ t u, String.rev_app s (t +:+ u) = String.rev_app s t +:+ u) as Hgo.
  { induction s as [|a s IH]; intros t u; [done|]. cbn [String.rev_app].
    by rewrite <- IH, string_app_cons. }
  intros t. by rewrite <- Hgo.
Qed.

Lemma rev_snoc s c : String.rev (s +:+ String c "") = String c (String.rev s).
Proof.
  unfold String.rev.
  assert (∀ t, String.rev_app (s +:+ String c "") t
               = String c (String.rev_app s t)) as Hgo; [|apply Hgo].
  induction s as [|a s IH]; intros t; [done|].
  rewrite string_app_cons. cbn [String.rev_app]. by rewrite IH.
Qed.

Lemma rev_cons c s : String.rev (String c s) = String.rev s +:+ String c "".
Proof. unfold String.rev at 1. cbn [String.rev_app]. apply rev_app_spec. Qed.

Lemma rev_involutive s : String.rev (String.rev s) = s.
Proof.
  induction s as [|a s IH]; [done|]. by rewrite rev_cons, rev_snoc, IH.
Qed.

Lemma string_app_length s t :
  String.length (s +:+ t) = (String.length s + String.length t)%nat.
Proof. induction s as [|a s IH]; [done|]. rewrite string_app_cons. simpl. by rewrite IH. Qed.

Lemma string_app_assoc s t u : (s +:+ t) +:+ u = s +:+ (t +:+ u).
Proof. induction s as [|a s IH]; [done|]. by rewrite !string_app_cons, IH. Qed.

Lemma rev_app s t : String.rev (s +:+ t) = String.rev t +:+ String.rev s.
Proof.
  induction s as [|a s IH].
  - by rewrite string_app_nil_r.
  - by rewrite string_app_cons, !rev_cons, IH, string_app_assoc.
Qed.

Lemma rev_length s : String.length (String.rev s) = String.length s.
Proof.
  induction s as [|a s IH]; [done|].
  rewrite rev_cons, string_app_length, IH. simpl. lia.
Qed.

Section StripLeft.

Variable sp1 : ascii → bool.
Variable sp2 : ascii → ascii → bool.
Variable sp3 : ascii → ascii → ascii → bool.

(** One step of the stripping: nothing is dropped and the string is
    returned, or one character is dropped and the rest is stripped. *)
Lemma strip_left_step s :
  Str.strip_left sp1 sp2 sp3 s = s
  ∨ ∃ k r, s = k +:+ r
           ∧ (String.length r < String.length s)%nat
           ∧ Str.strip_left sp1 sp2 sp3 s = Str.strip_left sp1 sp2 sp3 r.
Proof.
  destruct s as [|a [|b [|c r]]]; cbn [Str.strip_left]; [by left|..].
  - destruct (sp1 a); [right|by left].
    exists (String a ""), "". split_and!; [done|simpl; lia|done].
  - destruct (sp1 a).
    { right. exists (String a ""), (String b ""). split_and!; [done|simpl; lia|done]. }
    destruct (sp2 a b); [right|by left].
    exists (String a (String b "")), "". split_and!; [done|simpl; lia|done].
  - destruct (sp1 a).
    { right. exists (String a ""), (String b (String c r)).
      split_and!; [done|simpl; lia|done]. }
    destruct (sp2 a b).
    { right. exists (String a (String b "")), (String c r).
      split_and!; [done|simpl; lia|done]. }
    destruct (sp3 a b c); [right|by left].
    exists (String a (String b (String c ""))), r. split_and!; [done|simpl; lia|done].
Qed.

Lemma strip_left_length s :
  (String.length (Str.strip_left sp1 sp2 sp3 s) ≤ String.length s)%nat.
Proof.
  remember (String.length s) as n eqn:Hn. revert s Hn.
  induction n as [n IH] using lt_wf_ind. intros s ->.
  destruct (strip_left_step s) as [->|(k & r & _ & Hlt & ->)]; [done|].
  specialize (IH _ Hlt r eq_refl). lia.
Qed.

Lemma strip_left_suffix s : ∃ k, s = k +:+ Str.strip_left sp1 sp2 sp3 s.
Proof.
  remember (String.length s) as n eqn:Hn. revert s Hn.
  induction n as [n IH] using lt_wf_ind. intros s ->.
  destruct (strip_left_step s) as [->|(k & r & Hs & Hlt & ->)]; [by exists ""|].
  destruct (IH _ Hlt r eq_refl) as [k' Hr].
  exists (k +:+ k'). by rewrite string_app_assoc, <- Hr.
Qed.

Lemma strip_left_idempotent s :
  Str.strip_left sp1 sp2 sp3 (Str.strip_left sp1 sp2 sp3 s)
  = Str.strip_left sp1 sp2 sp3 s.
Proof.
  remember (String.length s) as n eqn:Hn. revert s Hn.
  induction n as [n IH] using lt_wf_ind. intros s ->.
  destruct (strip_left_step s) as [Hs|(k & r & _ & Hlt & Hs)]; rewrite Hs.
  - exact Hs.
  - exact (IH _ Hlt r eq_refl).
Qed.

(** A string that starts with a character to drop is not left as it is. *)
Lemma strip_left_shorter s r :
  (String.length r < String.length s)%nat →
  Str.strip_left sp1 sp2 sp3 r ≠ s.
Proof.
  intros Hlt Heq. pose proof (strip_left_length r) as Hlen.
  rewrite Heq in Hlen. lia.
Qed.

Lemma strip_left_one a r :
  Str.strip_left sp1 sp2 sp3 (String a r)
  = if sp1 a then Str.strip_left sp1 sp2 sp3 r
    else match r with
         | String b r2 =>
             if sp2 a b then Str.strip_left sp1 sp2 sp3 r2
             else match r2 with
                  | String c r3 =>
                      if sp3 a b c then Str.strip_left sp1 sp2 sp3 r3
                      else String a r
                  | EmptyString => String a r
                  end
         | EmptyString => String a r
         end.
Proof. reflexivity. Qed.

(** What is left as it is stays so when cut at the end. *)
Lemma strip_left_prefix p q :
  Str.strip_left sp1 sp2 sp3 (p +:+ q) = p +:+ q →
  Str.strip_left sp1 sp2 sp3 p = p.
Proof.
  destruct p as [|a [|b [|c r]]]; [done|..].
  - change (String a "" +:+ q) with (String a q).
    rewrite !strip_left_one. destruct (sp1 a); [|done].
    intros H. by apply strip_left_shorter in H; [|simpl; lia].
  - change (String a (String b "") +:+ q) with (String a (String b q)).
    rewrite !strip_left_one. destruct (sp1 a).
    { rewrite <- strip_left_one. intros H.
      by apply strip_left_shorter in H; [|simpl; lia]. }
    destruct (sp2 a b); [|done].
    intros H. by apply strip_left_shorter in H; [|simpl; lia].
  - change (String a (String b (String c r)) +:+ q)
      with (String a (String b (String c (r +:+ q)))).
    rewrite (strip_left_one a (String b (String c (r +:+ q)))).
    rewrite (strip_left_one a (String b (String c r))).
    destruct (sp1 a).
    { intros H. by apply strip_left_shorter in H; [|simpl; lia]. }
    destruct (sp2 a b).
    { intros H. by apply strip_left_shorter in H; [|simpl; lia]. }
    destruct (sp3 a b c); [|done].
    intros H. apply strip_left_shorter in H; [done|].
    simpl. rewrite string_app_length. lia.
Qed.

End StripLeft.

Lemma lstrip_idempotent s : Str.lstrip (Str.lstrip s) = Str.lstrip s.
Proof. apply strip_left_idempotent. Qed.

Lemma rstrip_idempotent s : Str.rstrip (Str.rstrip s) = Str.rstrip s.
Proof. unfold Str.rstrip. by rewrite rev_involutive, strip_left_idempotent. Qed.

(** What [rstrip] returns starts the string it is given. *)
Lemma rstrip_prefix s : ∃ k, s = Str.rstrip s +:+ k.
Proof.
  unfold Str.rstrip.
  destruct (strip_left_suffix (λ a, Str.space (Str.code1 a))
              (λ b a, Str.space (Str.code2 a b))
              (λ c b a, Str.space (Str.code3 a b c)) (String.rev s)) as [k Hk].
  exists (String.rev k).
  rewrite <- rev_app, <- Hk. by rewrite rev_involutive.
Qed.

Lemma strip_stripped s :
  Str.lstrip (Str.strip s) = Str.strip s ∧ Str.rstrip (Str.strip s) = Str.strip s.
Proof.
  unfold Str.strip. split; [|apply rstrip_idempotent].
  destruct (rstrip_prefix (Str.lstrip s)) as [k Hk].
  apply (strip_left_prefix _ _ _ _ k). rewrite <- Hk. apply lstrip_idempotent.
Qed.

Lemma isspace_cases cp :
  Str.isspace cp = true →
  (cp = 9 ∨ cp = 10 ∨ cp = 11 ∨ cp = 12 ∨ cp = 13 ∨ cp = 28 ∨ cp = 29 ∨ cp = 30
   ∨ cp = 31 ∨ cp = 32 ∨ cp = 133 ∨ cp = 160 ∨ cp = 5760 ∨ cp = 8192 ∨ cp = 8193
   ∨ cp = 8194 ∨ cp = 8195 ∨ cp = 8196 ∨ cp = 8197 ∨ cp = 8198 ∨ cp = 8199
   ∨ cp = 8200 ∨ cp = 8201 ∨ cp = 8202 ∨ cp = 8232 ∨ cp = 8233 ∨ cp = 8239
   ∨ cp = 8287 ∨ cp = 12288)%N.
Proof.
  unfold Str.isspace.
  rewrite !orb_true_iff, !andb_true_iff, !N.leb_le, !N.eqb_eq. lia.
Qed.

Lemma utf8_length cp : (1 ≤ String.length (Str.utf8 cp))%nat.
Proof. unfold Str.utf8. repeat case_match; simpl; lia. Qed.

(** A white-space character in front is dropped by [lstrip], one at the end
    by [rstrip]. *)
Lemma lstrip_utf8 cp rest :
  Str.isspace cp = true → Str.lstrip (Str.utf8 cp +:+ rest) = Str.lstrip rest.
Proof.
  intros Hcp. apply isspace_cases in Hcp. destruct_or!; subst cp; reflexivity.
Qed.

Lemma rstrip_utf8 cp rest :
  Str.isspace cp = true → Str.rstrip (rest +:+ Str.utf8 cp) = Str.rstrip rest.
Proof.
  intros Hcp. unfold Str.rstrip. rewrite rev_app.
  apply isspace_cases in Hcp. destruct_or!; subst cp; reflexivity.
Qed.

Lemma lstrip_length s : (String.length (Str.lstrip s) ≤ String.length s)%nat.
Proof. apply strip_left_length. Qed.

Lemma rstrip_length s : (String.length (Str.rstrip s) ≤ String.length s)%nat.
Proof.
  unfold Str.rstrip. rewrite rev_length, <- (rev_length s). apply strip_left_length.
Qed.

(** A string that [lstrip] and [rstrip] leave as it is neither starts nor
    ends with a white-space character. *)
Lemma stripped_no_space s cp rest :
  Str.lstrip s = s → Str.rstrip s = s → Str.isspace cp = true →
  s ≠ Str.utf8 cp +:+ rest ∧ s ≠ rest +:+ Str.utf8 cp.
Proof.
  intros Hl Hr Hcp. pose proof (utf8_length cp) as Hlen. split; intros ->.
  - rewrite (lstrip_utf8 _ _ Hcp) in Hl.
    pose proof (lstrip_length rest) as Hrest.
    rewrite Hl, string_app_length in Hrest. lia.
  - rewrite (rstrip_utf8 _ _ Hcp) in Hr.
    pose proof (rstrip_length rest) as Hrest.
    rewrite Hr, string_app_length in Hrest. lia.
Qed.

(** A line made of white space only is empty once stripped. *)
Lemma strip_blank cps :
  Forall (λ cp, Str.isspace cp = true) cps → Str.strip (Str.of_points cps) = "".
Proof.
  intros Hcps. unfold Str.strip.
  assert (Str.lstrip (Str.of_points cps) = "") as ->; [|reflexivity].
  induction Hcps as [|cp cps Hcp _ IH]; [reflexivity|].
  cbn [Str.of_points foldr]. by rewrite (lstrip_utf8 _ _ Hcp).
Qed.

(** ** Facts about credentials and retrieval *)

Lemma is_empty_true s : Str.is_empty s = true ↔ s = "".
Proof. destruct s; simpl; split; congruence. Qed.

Lemma truthy_str_true v : truthy_str v = true ↔ ∃ s, v = Some s ∧ s ≠ "".
Proof.
  destruct v as [[|c s]|]; simpl; split; try done.
  - intros (s & [= <-] & Hs). done.
  - intros _. by eexists.
  - intros (s & ? & _). done.
Qed.

Lemma get_api_key_env w key :
  environ w !! "OPENWEATHERMAP_API_KEY" = Some key → key ≠ "" →
  get_api_key w = (Return key, w).
Proof.
  intros Hkey Hne. unfold get_api_key, bind, getenv, ret. rewrite Hkey.
  destruct key; [done | reflexivity].
Qed.

Lemma get_api_key_returns w key w' :
  get_api_key w = (Return key, w') → key ≠ "".
Proof.
  unfold get_api_key, bind, getenv, ret, print, input, exit, raise.
  destruct (truthy_str (environ w !! _)) eqn:Henv; simpl.
  - rewrite Henv. simpl. intros [= <- _].
    apply truthy_str_true in Henv as (s & -> & Hs). done.
  - destruct (stdin w) as [|line rest]; simpl; [done|].
    destruct (Str.is_empty (Str.strip line)) eqn:Hline; simpl; [done|].
    intros [= <- _] Hempty. apply is_empty_true in Hempty. congruence.
Qed.

Lemma get_api_key_exits w line rest :
  truthy_str (environ w !! "OPENWEATHERMAP_API_KEY") = false →
  stdin w = line :: rest → Str.strip line = "" →
  ∃ w', get_api_key w = (Raise (Exn SystemExit "None"), w') ∧ sent w' = sent w.
Proof.
  intros Henv Hin Hline.
  unfold get_api_key, bind, getenv, ret, print, input, exit, raise.
  rewrite Henv. simpl. rewrite Hin. simpl. rewrite Hline. simpl.
  eexists. split; reflexivity.
Qed.

(** C5. [get_api_key] never returns an empty string; and when the
    environment gives no key, or an empty one, and the line typed at the
    prompt is empty once stripped, as is every line made of white space only,
    of ASCII or of Unicode, the program stops with [SystemExit] without having
    issued any request. *)
Theorem get_api_key_never_empty :
  (∀ w key w', get_api_key w = (Return key, w') → key ≠ "")
  ∧ (∀ fromtimestamp w line rest,
       truthy_str (environ w !! "OPENWEATHERMAP_API_KEY") = false →
       stdin w = line :: rest →
       Str.strip line = "" →
       ∃ w', main fromtimestamp w = (Raise (Exn SystemExit "None"), w')
             ∧ sent w' = sent w)
  ∧ (∀ fromtimestamp w cps rest,
       truthy_str (environ w !! "OPENWEATHERMAP_API_KEY") = false →
       stdin w = Str.of_points cps :: rest →
       Forall (λ cp, Str.isspace cp = true) cps →
       ∃ w', main fromtimestamp w = (Raise (Exn SystemExit "None"), w')
             ∧ sent w' = sent w).
Proof.
  assert (∀ fromtimestamp w line rest,
            truthy_str (environ w !! "OPENWEATHERMAP_API_KEY") = false →
            stdin w = line :: rest →
            Str.strip line = "" →
            ∃ w', main fromtimestamp w = (Raise (Exn SystemExit "None"), w')
                  ∧ sent w' = sent w) as Hexit.
  { intros fromtimestamp w line rest Henv Hin Hline.
    destruct (get_api_key_exits
                (set_stdout (stdout w ++ ["--- Weather Data Visualizer ---"]) w)
                line rest Henv Hin Hline) as (w' & Hrun & Hsent).
    exists w'. split; [|done].
    unfold main, bind at 1. unfold print at 1. unfold bind at 1. by rewrite Hrun. }
  split_and!; [apply get_api_key_returns | exact Hexit |].
  intros fromtimestamp w cps rest Henv Hin Hcps.
  by apply (Hexit fromtimestamp w (Str.of_points cps) rest Henv Hin), strip_blank.
Qed.

Lemma decode_error_not_http err :
  isinstance err JSONDecodeError = true → isinstance err HTTPError = false.
Proof. destruct err as [[] msg]; vm_compute; congruence. Qed.

Lemma http_error_msg_nonempty r :
  400 ≤ status_code r < 600 → Str.is_empty (requests.http_error_msg r) = false.
Proof.
  intros [Hlo Hhi]. unfold requests.http_error_msg.
  destruct (Z.ltb_spec (status_code r) 500) as [Hlt|Hge].
  - assert ((400 <=? status_code r) = true) as -> by lia. simpl.
    destruct (pretty (status_code r)); reflexivity.
  - rewrite andb_false_r.
    assert ((500 <=? status_code r) = true) as -> by lia.
    assert ((status_code r <? 600) = true) as -> by lia. simpl.
    destruct (pretty (status_code r)); reflexivity.
Qed.

Lemma http_error_msg_empty r :
  ¬ 400 ≤ status_code r < 600 → requests.http_error_msg r = "".
Proof.
  intros Hno. unfold requests.http_error_msg.
  destruct (Z.leb_spec 400 (status_code r)), (Z.ltb_spec (status_code r) 500),
    (Z.leb_spec 500 (status_code r)), (Z.ltb_spec (status_code r) 600);
    simpl; try reflexivity; lia.
Qed.

Lemma raise_for_status_error r :
  400 ≤ status_code r < 600 →
  requests.raise_for_status r = Raise (Exn HTTPError (requests.http_error_msg r)).
Proof.
  intros H. unfold requests.raise_for_status. by rewrite http_error_msg_nonempty.
Qed.

Lemma raise_for_status_ok r :
  ¬ 400 ≤ status_code r < 600 → requests.raise_for_status r = Return tt.
Proof.
  intros H. unfold requests.raise_for_status. by rewrite http_error_msg_empty.
Qed.

Lemma fetch_weather_data_ok api_key city w r data :
  server w (forecast_request api_key city) = Return r →
  requests.raise_for_status r = Return tt →
  json_body r = Return data →
  fetch_weather_data api_key city w
  = (Return data, set_sent (sent w ++ [forecast_request api_key city]) w).
Proof.
  intros Hserver Hstatus Hbody. unfold fetch_weather_data, requests.get.
  fold (forecast_request api_key city). rewrite Hserver. simpl.
  by rewrite Hstatus, Hbody.
Qed.

(** X26. Each failure of the retrieval (status 401, status 404, another
    error status, an exception of the request, a body that does not decode)
    makes [fetch_weather_data] send its one request, print one diagnostic and
    return [None]; nothing is raised.  The diagnostic is that of the first
    handler that names the exception. *)
Theorem fetch_weather_data_failures api_key city w kind :
  fails (server w (forecast_request api_key city)) kind →
  fetch_weather_data api_key city w
  = (Return JNull,
     diagnosed api_key city
       (diagnostic city (server w (forecast_request api_key city)) kind) w).
Proof.
  intros Hfails.
  unfold fetch_weather_data, requests.get, diagnosed, diagnostic.
  fold (forecast_request api_key city).
  destruct Hfails as [r H401 | r H404 | r Hrange Hn401 Hn404
                     | err Hreq Hhttp | r err Hrange Hbody Hjson]; simpl.
  - rewrite raise_for_status_error by lia. simpl.
    rewrite H401. reflexivity.
  - rewrite raise_for_status_error by lia. simpl.
    rewrite H404. reflexivity.
  - rewrite raise_for_status_error by lia. simpl.
    destruct (Z.eqb_spec (status_code r) 401); [done|].
    destruct (Z.eqb_spec (status_code r) 404); [done|]. reflexivity.
  - rewrite Hhttp, Hreq. reflexivity.
  - rewrite raise_for_status_ok by done. simpl. rewrite Hbody.
    rewrite (decode_error_not_http _ Hjson), Hjson.
    by destruct (isinstance err RequestException).
Qed.

(** C4. The retrieval does not tell a body that does not decode from a
    network failure.  [requests] reports such a body with its own
    [JSONDecodeError], which is a [RequestException] as well as a
    [JSONDecodeError] of [json]: the handler of [RequestException], which comes
    first, prints its "Request Error:" line, the very line it prints for a
    connection that failed with the same text, and the handler written for
    decode failures is not reached.  It is reached when the decoding raises the
    [JSONDecodeError] of [json] itself. *)
Theorem decode_failure_reported_as_request_error :
  fails (server (Cases.undecodable RequestsJSONDecodeError
                   "Expecting value: line 1 column 1 (char 0)")
           (forecast_request "ABC" "Paris")) DecodeFailure
  ∧ isinstance (Exn RequestsJSONDecodeError "Expecting value: line 1 column 1 (char 0)")
      RequestException = true
  ∧ isinstance (Exn RequestsJSONDecodeError "Expecting value: line 1 column 1 (char 0)")
      JSONDecodeError = true
  ∧ fetch_weather_data "ABC" "Paris"
      (Cases.undecodable RequestsJSONDecodeError
         "Expecting value: line 1 column 1 (char 0)")
    = (Return JNull,
       diagnosed "ABC" "Paris"
         "Request Error: Expecting value: line 1 column 1 (char 0)"
         (Cases.undecodable RequestsJSONDecodeError
            "Expecting value: line 1 column 1 (char 0)"))
  ∧ (∀ text,
       fails (server (Cases.undecodable RequestsJSONDecodeError text)
                (forecast_request "ABC" "Paris")) DecodeFailure
       ∧ fails (server (Cases.refused text) (forecast_request "ABC" "Paris"))
           NetworkFailure
       ∧ (fetch_weather_data "ABC" "Paris"
            (Cases.undecodable RequestsJSONDecodeError text)).1
         = (fetch_weather_data "ABC" "Paris" (Cases.refused text)).1
       ∧ stdout (fetch_weather_data "ABC" "Paris"
                   (Cases.undecodable RequestsJSONDecodeError text)).2
         = stdout (fetch_weather_data "ABC" "Paris" (Cases.refused text)).2)
  ∧ fetch_weather_data "ABC" "Paris"
      (Cases.undecodable JSONDecodeError "Expecting value: line 1 column 1 (char 0)")
    = (Return JNull,
       diagnosed "ABC" "Paris" "Error: Failed to decode JSON response from API."
         (Cases.undecodable JSONDecodeError
            "Expecting value: line 1 column 1 (char 0)")).
Proof.
  assert (∀ text,
            fails (server (Cases.undecodable RequestsJSONDecodeError text)
                     (forecast_request "ABC" "Paris")) DecodeFailure) as Hdecode.
  { intros text. eapply fails_decode; [|reflexivity..]. simpl. lia. }
  split_and!; [apply Hdecode | reflexivity.. | | reflexivity].
  intros text. split_and!; [apply Hdecode | | reflexivity..].
  by apply fails_network.
Qed.

(** ** Facts about rendering and orchestration *)

Lemma bind_ret {A B} (m : M A) (k : A → M B) w a w' :
  m w = (Return a, w') → bind m k w = k a w'.
Proof. intros H. unfold bind. by rewrite H. Qed.

Lemma bind_raise {A B} (m : M A) (k : A → M B) w e w' :
  m w = (Raise e, w') → bind m k w = (Raise e, w').
Proof. intros H. unfold bind. by rewrite H. Qed.

Lemma print_run s w : print s w = (Return tt, set_stdout (stdout w ++ [s]) w).
Proof. reflexivity. Qed.

Lemma savefig_ok d name fig w :
  fs w !! d = Some Directory →
  fs w !! os.path_join d name ≠ Some Directory →
  plt.savefig d name fig w
  = (Return tt, set_fs (<[os.path_join d name := File fig]> (fs w)) w).
Proof.
  intros Hdir Hfile. unfold plt.savefig. rewrite Hdir.
  destruct (fs w !! os.path_join d name) as [[]|]; done.
Qed.

Lemma savefig_missing d name fig w :
  fs w !! d = None →
  ∃ err, plt.savefig d name fig w = (Raise err, w)
         ∧ exn_type err = FileNotFoundError.
Proof. intros Hdir. unfold plt.savefig. rewrite Hdir. by eexists. Qed.

Lemma ensure_plots_dir_absent w :
  fs w !! PLOTS_DIR = None →
  ensure_plots_dir w
  = (Return tt,
     set_stdout (stdout w ++ ["Created directory: " +:+ PLOTS_DIR])
       (set_fs (<[PLOTS_DIR := Directory]> (fs w)) w)).
Proof.
  intros Hdir. unfold ensure_plots_dir, bind, os.path_exists, os.makedirs, print.
  rewrite Hdir. rewrite bool_decide_eq_false_2 by (by intros [? ?]). simpl.
  by rewrite Hdir.
Qed.

Lemma ensure_plots_dir_present w n :
  fs w !! PLOTS_DIR = Some n → ensure_plots_dir w = (Return tt, w).
Proof.
  intros Hdir. unfold ensure_plots_dir, bind, os.path_exists.
  rewrite Hdir. by rewrite bool_decide_eq_true_2 by eauto.
Qed.

Lemma plot_temperature_forecast_ok ts temps feels city w :
  fs w !! PLOTS_DIR = Some Directory →
  fs w !! chart_path "temperature_forecast.png" ≠ Some Directory →
  plot_temperature_forecast ts temps feels city w
  = (Return tt, saved "temperature_forecast.png" "temperature forecast plot"
                      (temperature_figure ts temps feels city) w).
Proof.
  intros Hdir Hfile. unfold plot_temperature_forecast.
  erewrite bind_ret by (by apply savefig_ok). reflexivity.
Qed.

Lemma plot_humidity_forecast_ok ts hums city w :
  fs w !! PLOTS_DIR = Some Directory →
  fs w !! chart_path "humidity_forecast.png" ≠ Some Directory →
  plot_humidity_forecast ts hums city w
  = (Return tt, saved "humidity_forecast.png" "humidity forecast plot"
                      (humidity_figure ts hums city) w).
Proof.
  intros Hdir Hfile. unfold plot_humidity_forecast.
  erewrite bind_ret by (by apply savefig_ok). reflexivity.
Qed.

Lemma plot_wind_speed_forecast_ok ts speeds city w :
  fs w !! PLOTS_DIR = Some Directory →
  fs w !! chart_path "wind_speed_forecast.png" ≠ Some Directory →
  plot_wind_speed_forecast ts speeds city w
  = (Return tt, saved "wind_speed_forecast.png" "wind speed forecast plot"
                      (wind_speed_figure ts speeds city) w).
Proof.
  intros Hdir Hfile. unfold plot_wind_speed_forecast.
  erewrite bind_ret by (by apply savefig_ok). reflexivity.
Qed.

Lemma plot_weather_conditions_pie_empty city w :
  plot_weather_conditions_pie [] city w
  = (Return tt,
     set_stdout (stdout w ++ ["No weather descriptions to plot for pie chart."]) w).
Proof. reflexivity. Qed.

Lemma plot_weather_conditions_pie_ok labels counts city w :
  labels ≠ [] →
  collections.Counter labels = Return counts →
  fs w !! PLOTS_DIR = Some Directory →
  fs w !! chart_path "weather_conditions_pie_chart.png" ≠ Some Directory →
  plot_weather_conditions_pie labels city w
  = (Return tt, saved "weather_conditions_pie_chart.png" "weather conditions pie chart"
                      (conditions_figure counts city) w).
Proof.
  intros Hne Hcount Hdir Hfile. unfold plot_weather_conditions_pie.
  destruct labels as [|l labels]; [done|].
  unfold bind at 1, lift. rewrite Hcount.
  erewrite bind_ret by (by apply savefig_ok). reflexivity.
Qed.

Lemma plot_weather_conditions_pie_unhashable labels err city w :
  collections.Counter labels = Raise err →
  plot_weather_conditions_pie labels city w = (Raise err, w).
Proof.
  intros Hcount. unfold plot_weather_conditions_pie.
  destruct labels as [|l labels]; [done|].
  unfold bind, lift. by rewrite Hcount.
Qed.

(** Two chart paths, or a chart path and the directory, differ. *)
Ltac paths_differ :=
  let H := fresh in intros H; vm_compute in H; discriminate H.

Section MainFacts.

Variable fromtimestamp : json → result datetime.

Lemma main_answered w api_key city data :
  answered w api_key city data →
  main fromtimestamp w
  = (if Py.truthy data
     then
       print "Weather data fetched successfully.";;
       processed_data ← process_forecast_data fromtimestamp data;
       match processed_data with
       | None => print "Failed to process weather data. Exiting."
       | Some (Columns timestamps temps feels_like_temps humidities
                       wind_speeds weather_descriptions) =>
           ensure_plots_dir;;
           print (Str.nl +:+ "Generating and saving plots...");;
           plot_temperature_forecast timestamps temps feels_like_temps city;;
           plot_humidity_forecast timestamps humidities city;;
           plot_wind_speed_forecast timestamps wind_speeds city;;
           plot_weather_conditions_pie weather_descriptions city;;
           print (Str.nl +:+ "--- All visualizations saved in '" +:+ PLOTS_DIR
                  +:+ "' directory ---");;
           print "--- Script finished ---"
       end
     else
       print ("Could not retrieve weather data for " +:+ Str.title city
              +:+ ". Please check the city name and your API key."))%py
      (fetched api_key city w).
Proof.
  intros (Hkey & Hkey_ne & Hcity & Hcity_ne & r & Hserver & Hstatus & Hbody).
  unfold main.
  rewrite (bind_ret _ _ _ _ _ (print_run _ _)).
  erewrite bind_ret by (by apply get_api_key_env).
  erewrite bind_ret by reflexivity. cbn [environ set_stdout]. rewrite Hcity.
  assert (truthy_str (Some city) = true) as -> by (apply truthy_str_true; eauto).
  cbn [negb default from_option id].
  rewrite (bind_ret _ _ _ _ _ (print_run _ _)).
  erewrite bind_ret by (by eapply fetch_weather_data_ok).
  unfold fetched. simpl.
  rewrite <- app_assoc. reflexivity.
Qed.

Lemma ensure_plots_dir_usable w :
  output_dir_usable w →
  ∃ w1, ensure_plots_dir w = (Return tt, w1)
        ∧ fs w1 = <[PLOTS_DIR := Directory]> (fs w)
        ∧ shown w1 = shown w ∧ sent w1 = sent w.
Proof.
  intros [[Habsent | Hdir] _].
  - eexists. split; [by apply ensure_plots_dir_absent | done].
  - exists w. split; [by eapply ensure_plots_dir_present|].
    by rewrite insert_id.
Qed.

(** The directory is ensured and the three line charts are saved; the run
    goes on with [k]. *)
Lemma line_charts_run (k : M unit) ts temps feels hums speeds city w :
  output_dir_usable w →
  ∃ w3,
    (ensure_plots_dir;;
     print (Str.nl +:+ "Generating and saving plots...");;
     plot_temperature_forecast ts temps feels city;;
     plot_humidity_forecast ts hums city;;
     plot_wind_speed_forecast ts speeds city;;
     k)%py w = k w3
    ∧ fs w3
      = <[chart_path "wind_speed_forecast.png"
            := File (wind_speed_figure ts speeds city)]>
          (<[chart_path "humidity_forecast.png"
               := File (humidity_figure ts hums city)]>
             (<[chart_path "temperature_forecast.png"
                  := File (temperature_figure ts temps feels city)]>
                (<[PLOTS_DIR := Directory]> (fs w))))
    ∧ shown w3
      = shown w ++ [temperature_figure ts temps feels city;
                    humidity_figure ts hums city;
                    wind_speed_figure ts speeds city]
    ∧ sent w3 = sent w.
Proof.
  intros Husable.
  destruct (ensure_plots_dir_usable w Husable) as (w1 & Hrun & Hfs & Hshown & Hsent).
  destruct Husable as [_ Hfiles].
  eexists. split.
  - rewrite (bind_ret _ _ _ _ _ Hrun).
    rewrite (bind_ret _ _ _ _ _ (print_run _ _)).
    erewrite (bind_ret (plot_temperature_forecast _ _ _ _)).
    2:{ apply plot_temperature_forecast_ok; cbn [fs set_stdout]; rewrite Hfs.
        - apply lookup_insert_eq.
        - rewrite lookup_insert_ne by paths_differ. apply Hfiles. set_solver. }
    erewrite (bind_ret (plot_humidity_forecast _ _ _)).
    2:{ apply plot_humidity_forecast_ok;
          cbn [fs saved set_stdout set_fs set_shown]; rewrite Hfs.
        - rewrite lookup_insert_ne by paths_differ. apply lookup_insert_eq.
        - rewrite !lookup_insert_ne by paths_differ. apply Hfiles. set_solver. }
    erewrite (bind_ret (plot_wind_speed_forecast _ _ _)).
    2:{ apply plot_wind_speed_forecast_ok;
          cbn [fs saved set_stdout set_fs set_shown]; rewrite Hfs.
        - rewrite !lookup_insert_ne by paths_differ. apply lookup_insert_eq.
        - rewrite !lookup_insert_ne by paths_differ. apply Hfiles. set_solver. }
    reflexivity.
  - cbn [fs shown sent saved set_stdout set_fs set_shown].
    rewrite Hfs, Hshown, Hsent, <- !app_assoc. done.
Qed.

Lemma output_dir_usable_fs w w' :
  fs w' = fs w → output_dir_usable w → output_dir_usable w'.
Proof. unfold output_dir_usable. by intros ->. Qed.

(** A run on a response that transforms into [points]: the three line
    charts are on disk when the pie chart is attempted. *)
Lemma main_line_charts w api_key city data points :
  answered w api_key city data →
  Py.truthy data = true →
  (∀ w0, process_forecast_data fromtimestamp data w0
         = (Return (Some (columns_of points)), w0)) →
  output_dir_usable w →
  ∃ w3,
    main fromtimestamp w
    = (plot_weather_conditions_pie (pt_condition <$> points) city;;
       print (Str.nl +:+ "--- All visualizations saved in '" +:+ PLOTS_DIR
              +:+ "' directory ---");;
       print "--- Script finished ---")%py w3
    ∧ fs w3
      = <[chart_path "wind_speed_forecast.png"
            := File (wind_speed_figure (pt_time <$> points)
                       (pt_wind_speed <$> points) city)]>
          (<[chart_path "humidity_forecast.png"
               := File (humidity_figure (pt_time <$> points)
                          (pt_humidity <$> points) city)]>
             (<[chart_path "temperature_forecast.png"
                  := File (temperature_figure (pt_time <$> points)
                             (pt_temp <$> points) (pt_feels_like <$> points)
                             city)]>
                (<[PLOTS_DIR := Directory]> (fs w))))
    ∧ sent w3 = sent w ++ [forecast_request api_key city].
Proof.
  intros Hanswered Htruthy Hprocess Husable.
  rewrite (main_answered _ _ _ _ Hanswered), Htruthy.
  rewrite (bind_ret _ _ _ _ _ (print_run _ _)).
  rewrite (bind_ret _ _ _ _ _ (Hprocess _)).
  unfold columns_of at 1.
  edestruct (line_charts_run) as (w3 & Hrun & Hfs & _ & Hsent);
    [|exists w3; split; [apply Hrun|]].
  { eapply output_dir_usable_fs; [|exact Husable]. reflexivity. }
  split; [exact Hfs | exact Hsent].
Qed.

(** A run whose response is not transformed leaves disk and display as
    they were. *)
Lemma main_no_charts w api_key city data :
  answered w api_key city data →
  (Py.truthy data = false
   ∨ ∃ line, ∀ w0, process_forecast_data fromtimestamp data w0
                   = (Return None, set_stdout (stdout w0 ++ [line]) w0)) →
  ∃ w', main fromtimestamp w = (Return tt, w')
        ∧ fs w' = fs w ∧ shown w' = shown w.
Proof.
  intros Hanswered Hcase. rewrite (main_answered _ _ _ _ Hanswered).
  destruct (Py.truthy data) eqn:Htruthy.
  - destruct Hcase as [? | [line Hprocess]]; [done|].
    rewrite (bind_ret _ _ _ _ _ (print_run _ _)).
    rewrite (bind_ret _ _ _ _ _ (Hprocess _)).
    eexists. split; [reflexivity | done].
  - eexists. split; [reflexivity | done].
Qed.

End MainFacts.

Lemma Counter_replicate (x : json) n :
  collections.hashable x = true → collections.same_key x x = true →
  collections.Counter (replicate (S n) x) = Return [(x, N.of_nat (S n))].
Proof.
  intros Hhash Hsame. unfold collections.Counter. simpl. rewrite Hhash. simpl.
  assert (∀ m k, collections.update [(x, k)] (replicate m x)
                 = Return [(x, (k + N.of_nat m)%N)]) as Hgo.
  { induction m as [|m IH]; intros k; simpl.
    - by rewrite N.add_0_r.
    - rewrite Hhash, Hsame, IH. do 3 f_equal. lia. }
  rewrite Hgo. do 3 f_equal. lia.
Qed.

Section PipelineTheorems.

Variable fromtimestamp : json → result datetime.

Lemma empty_conditions_labels entries points :
  Forall2 (well_formed_entry fromtimestamp) entries points →
  Forall empty_conditions entries →
  pt_condition <$> points = replicate (length entries) (JStr "N/A").
Proof.
  induction 1 as [|e p entries points He _ IH]; intros Hall; [done|].
  apply Forall_cons in Hall as [(d & -> & Hweather) Hall].
  rewrite fmap_cons, (IH Hall). cbn [length replicate]. f_equal.
  inversion He as [? ? ? ? ? ? ? ? ? weather label ? ? ? ? ? ? ? ? Hw Hlabel]; subst.
  simpl. assert (weather = JList []) as -> by congruence. by inversion Hlabel.
Qed.

Lemma process_forecast_data_no_list d w :
  Py.dict_get "list" d = None →
  process_forecast_data fromtimestamp (JDict d) w
  = (Return None,
     set_stdout (stdout w ++ ["Error: Invalid or empty data received from API."]) w).
Proof.
  intros Hlist. unfold process_forecast_data, bind, lift.
  destruct d as [|kv d]; [reflexivity|].
  cbn [Py.truthy negb Py.contains rbind]. rewrite Hlist.
  rewrite bool_decide_eq_false_2 by (by intros [? ?]). reflexivity.
Qed.

Lemma line_charts_on_dir city points files :
  line_charts_on city points files !! PLOTS_DIR = Some Directory.
Proof.
  unfold line_charts_on. rewrite !lookup_insert_ne by paths_differ.
  apply lookup_insert_eq.
Qed.

Lemma line_charts_on_pie city points files :
  line_charts_on city points files !! chart_path "weather_conditions_pie_chart.png"
  = files !! chart_path "weather_conditions_pie_chart.png".
Proof. unfold line_charts_on. by rewrite !lookup_insert_ne by paths_differ. Qed.

Lemma line_charts_on_files city points files :
  line_charts_on city points files !! chart_path "temperature_forecast.png"
  = Some (File (temperature_figure (pt_time <$> points) (pt_temp <$> points)
                  (pt_feels_like <$> points) city))
  ∧ line_charts_on city points files !! chart_path "humidity_forecast.png"
    = Some (File (humidity_figure (pt_time <$> points) (pt_humidity <$> points) city))
  ∧ line_charts_on city points files !! chart_path "wind_speed_forecast.png"
    = Some (File (wind_speed_figure (pt_time <$> points)
                    (pt_wind_speed <$> points) city)).
Proof.
  unfold line_charts_on. split_and!.
  - rewrite !lookup_insert_ne by paths_differ. apply lookup_insert_eq.
  - rewrite lookup_insert_ne by paths_differ. apply lookup_insert_eq.
  - apply lookup_insert_eq.
Qed.

(** The end of the run, from the pie chart on: the chart is skipped,
    saved, or its counting raises. *)
Lemma pie_and_farewell labels city a b w :
  fs w !! PLOTS_DIR = Some Directory →
  fs w !! chart_path "weather_conditions_pie_chart.png" ≠ Some Directory →
  ∃ w',
    (plot_weather_conditions_pie labels city;; print a;; print b)%py w
    = (pie_chart_result labels, w')
    ∧ fs w' = pie_chart_on city labels (fs w).
Proof.
  intros Hdir Hfile. unfold pie_chart_result, pie_chart_on.
  destruct labels as [|l labels].
  - rewrite (bind_ret _ _ _ _ _ (plot_weather_conditions_pie_empty _ _)).
    eexists. split; reflexivity.
  - destruct (collections.Counter (l :: labels)) as [counts|err] eqn:Hcount.
    + erewrite bind_ret
        by (by apply (plot_weather_conditions_pie_ok _ counts)).
      eexists. split; reflexivity.
    + erewrite bind_raise
        by (by apply plot_weather_conditions_pie_unhashable).
      eexists. split; reflexivity.
Qed.

(** The whole run on a response whose entries carry [points]. *)
Lemma main_points_run w api_key city d entries points :
  answered w api_key city (JDict d) →
  Py.dict_get "list" d = Some (JList entries) →
  Forall2 (well_formed_entry fromtimestamp) entries points →
  output_dir_usable w →
  ∃ w',
    main fromtimestamp w = (pie_chart_result (pt_condition <$> points), w')
    ∧ fs w' = pie_chart_on city (pt_condition <$> points)
                (line_charts_on city points (fs w)).
Proof.
  intros Hanswered Hlist Hpoints Husable.
  destruct (main_line_charts fromtimestamp w api_key city (JDict d) points)
    as (w3 & Hmain & Hfs & _); try done.
  { by eapply dict_get_truthy. }
  { intros w0. rewrite (process_forecast_data_list _ _ _ _ Hlist).
    by rewrite (process_entries_ok _ _ _ Hpoints). }
  fold (line_charts_on city points (fs w)) in Hfs.
  destruct (pie_and_farewell (pt_condition <$> points) city
              (Str.nl +:+ "--- All visualizations saved in '" +:+ PLOTS_DIR
               +:+ "' directory ---")
              "--- Script finished ---" w3) as (w' & Hrun & Hfs').
  { rewrite Hfs. apply line_charts_on_dir. }
  { rewrite Hfs, line_charts_on_pie. apply Husable. set_solver. }
  exists w'. split; [by rewrite Hmain|].
  by rewrite Hfs', Hfs.
Qed.

Lemma pie_chart_on_other city labels files p :
  p ≠ chart_path "weather_conditions_pie_chart.png" →
  pie_chart_on city labels files !! p = files !! p.
Proof.
  intros Hp. unfold pie_chart_on. destruct labels; [done|].
  destruct (collections.Counter _); [|done].
  by rewrite lookup_insert_ne.
Qed.

Lemma plots_need_the_directory w ts temps feels hums speeds labels counts city :
  fs w !! PLOTS_DIR = None →
  labels ≠ [] →
  collections.Counter labels = Return counts →
  Forall (λ run : M unit,
            ∃ err, run w = (Raise err, w) ∧ exn_type err = FileNotFoundError)
         [plot_temperature_forecast ts temps feels city;
          plot_humidity_forecast ts hums city;
          plot_wind_speed_forecast ts speeds city;
          plot_weather_conditions_pie labels city].
Proof.
  intros Hdir Hlabels Hcount.
  repeat apply Forall_cons_2; [..|apply Forall_nil_2].
  - destruct (savefig_missing PLOTS_DIR "temperature_forecast.png"
                (temperature_figure ts temps feels city) w Hdir) as (err & Hrun & Herr).
    exists err. split; [|done]. by apply bind_raise.
  - destruct (savefig_missing PLOTS_DIR "humidity_forecast.png"
                (humidity_figure ts hums city) w Hdir) as (err & Hrun & Herr).
    exists err. split; [|done]. by apply bind_raise.
  - destruct (savefig_missing PLOTS_DIR "wind_speed_forecast.png"
                (wind_speed_figure ts speeds city) w Hdir) as (err & Hrun & Herr).
    exists err. split; [|done]. by apply bind_raise.
  - destruct (savefig_missing PLOTS_DIR "weather_conditions_pie_chart.png"
                (conditions_figure counts city) w Hdir) as (err & Hrun & Herr).
    exists err. split; [|done].
    unfold plot_weather_conditions_pie. destruct labels; [done|].
    unfold bind at 1, lift. rewrite Hcount. by apply bind_raise.
Qed.

End PipelineTheorems.

(** ** The claims about the pipeline *)

(** C1, amended. A response dictionary that lacks the forecast list makes
    the transformation report invalid data and return [None], and the
    pipeline then leaves disk and display untouched: no chart is produced.
    A forecast list that is present and empty is accepted: the
    transformation returns six empty lists. *)
Theorem missing_forecast_list_rejected fromtimestamp d :
  (Py.dict_get "list" d = None →
   (∀ w, process_forecast_data fromtimestamp (JDict d) w
         = (Return None,
            set_stdout
              (stdout w ++ ["Error: Invalid or empty data received from API."]) w))
   ∧ (∀ w api_key city,
        answered w api_key city (JDict d) →
        ∃ w', main fromtimestamp w = (Return tt, w')
              ∧ fs w' = fs w ∧ shown w' = shown w))
  ∧ (Py.dict_get "list" d = Some (JList []) →
     ∀ w, process_forecast_data fromtimestamp (JDict d) w
          = (Return (Some (Columns [] [] [] [] [] [])), w)).
Proof.
  split.
  - intros Hlist. split.
    + intros w. by apply process_forecast_data_no_list.
    + intros w api_key city Hanswered.
      apply (main_no_charts fromtimestamp _ _ _ _ Hanswered).
      right. eexists. intros w0. by apply process_forecast_data_no_list.
  - intros Hlist w. by rewrite (process_forecast_data_list _ _ _ _ Hlist).
Qed.

(** C6, amended. [ensure_plots_dir] creates the directory when it is
    absent and does nothing, without error, when it is there.  [main] runs
    it once before the rendering, so that on a valid response the three line
    charts are written into the directory, and the pie chart too when the
    run ends normally on a list that is not empty.  The rendering operations
    do not create the directory: without it each of them raises
    [FileNotFoundError] and leaves the world as it was. *)
Theorem plots_dir_ensured_by_main :
  (∀ w, fs w !! PLOTS_DIR = None →
        ∃ w', ensure_plots_dir w = (Return tt, w')
              ∧ fs w' = <[PLOTS_DIR := Directory]> (fs w))
  ∧ (∀ w, fs w !! PLOTS_DIR = Some Directory → ensure_plots_dir w = (Return tt, w))
  ∧ (∀ fromtimestamp w api_key city data entries,
       answered w api_key city data →
       valid_response fromtimestamp data entries →
       output_dir_usable w →
       fs (main fromtimestamp w).2 !! PLOTS_DIR = Some Directory
       ∧ is_file (fs (main fromtimestamp w).2 !! chart_path "temperature_forecast.png")
         = true
       ∧ is_file (fs (main fromtimestamp w).2 !! chart_path "humidity_forecast.png")
         = true
       ∧ is_file (fs (main fromtimestamp w).2 !! chart_path "wind_speed_forecast.png")
         = true
       ∧ ((main fromtimestamp w).1 = Return tt → entries ≠ [] →
          is_file (fs (main fromtimestamp w).2
                   !! chart_path "weather_conditions_pie_chart.png") = true))
  ∧ (∀ w ts temps feels hums speeds labels counts city,
       fs w !! PLOTS_DIR = None →
       labels ≠ [] →
       collections.Counter labels = Return counts →
       Forall (λ run : M unit,
                 ∃ err, run w = (Raise err, w) ∧ exn_type err = FileNotFoundError)
              [plot_temperature_forecast ts temps feels city;
               plot_humidity_forecast ts hums city;
               plot_wind_speed_forecast ts speeds city;
               plot_weather_conditions_pie labels city]).
Proof.
  split_and!.
  - intros w Hdir. eexists. split; [by apply ensure_plots_dir_absent | done].
  - intros w Hdir. by eapply ensure_plots_dir_present.
  - intros fromtimestamp w api_key city data entries Hanswered Hvalid Husable.
    destruct Hvalid as (d & -> & Hlist & Hwf).
    destruct (well_formed_points _ _ Hwf) as [points Hpoints].
    destruct (main_points_run fromtimestamp _ _ _ _ _ _ Hanswered Hlist Hpoints Husable)
      as (w' & Hmain & Hfs).
    rewrite Hmain. cbn [fst snd]. rewrite Hfs.
    destruct (line_charts_on_files city points (fs w)) as (Ht & Hh & Hw).
    split_and!.
    + rewrite pie_chart_on_other by paths_differ.
      apply line_charts_on_dir.
    + rewrite pie_chart_on_other by paths_differ.
      by rewrite Ht.
    + rewrite pie_chart_on_other by paths_differ.
      by rewrite Hh.
    + rewrite pie_chart_on_other by paths_differ.
      by rewrite Hw.
    + intros Hresult Hentries. unfold pie_chart_result in Hresult.
      unfold pie_chart_on.
      destruct Hpoints as [|e p entries points He Hrest]; [done|].
      rewrite fmap_cons in *.
      destruct (collections.Counter _) as [counts|]; [|done].
      by rewrite lookup_insert_eq.
  - intros w ts temps feels hums speeds labels counts city Hdir Hlabels Hcount.
    by apply (plots_need_the_directory w ts temps feels hums speeds labels counts).
Qed.

(** C7, amended. On an empty list of labels the pie chart step only
    reports that there is nothing to plot: no file is written, nothing is
    shown.  That happens in a run whose forecast list is empty, after the
    three line charts were written.  An entry with an empty condition list
    is labelled "N/A", so that a run with at least one entry, all of them
    with empty condition lists, writes the pie chart as well, with the single
    slice "N/A": four chart files. *)
Theorem pie_chart_skipped_on_no_labels :
  (∀ city w,
     plot_weather_conditions_pie [] city w
     = (Return tt,
        set_stdout
          (stdout w ++ ["No weather descriptions to plot for pie chart."]) w))
  ∧ (∀ fromtimestamp w api_key city d,
       answered w api_key city (JDict d) →
       Py.dict_get "list" d = Some (JList []) →
       output_dir_usable w →
       ∃ w', main fromtimestamp w = (Return tt, w')
             ∧ fs w' = line_charts_on city [] (fs w))
  ∧ (∀ fromtimestamp w api_key city data entries,
       answered w api_key city data →
       valid_response fromtimestamp data entries →
       output_dir_usable w →
       entries ≠ [] →
       Forall empty_conditions entries →
       ∃ points w',
         Forall2 (well_formed_entry fromtimestamp) entries points
         ∧ main fromtimestamp w = (Return tt, w')
         ∧ fs w'
           = <[chart_path "weather_conditions_pie_chart.png"
                 := File (conditions_figure
                            [(JStr "N/A", N.of_nat (length entries))] city)]>
               (line_charts_on city points (fs w))).
Proof.
  split_and!.
  - intros city w. apply plot_weather_conditions_pie_empty.
  - intros fromtimestamp w api_key city d Hanswered Hlist Husable.
    destruct (main_points_run fromtimestamp _ _ _ _ _ [] Hanswered Hlist
                (Forall2_nil_2 _ _ _) Husable) as (w' & Hmain & Hfs).
    by exists w'.
  - intros fromtimestamp w api_key city data entries
           Hanswered Hvalid Husable Hentries Hempty.
    destruct Hvalid as (d & -> & Hlist & Hwf).
    destruct (well_formed_points _ _ Hwf) as [points Hpoints].
    destruct (main_points_run fromtimestamp _ _ _ _ _ _ Hanswered Hlist Hpoints Husable)
      as (w' & Hmain & Hfs).
    exists points, w'. split; [done|].
    rewrite (empty_conditions_labels _ _ _ Hpoints Hempty) in Hmain, Hfs.
    destruct entries as [|e entries]; [done|].
    unfold pie_chart_result, pie_chart_on in *. cbn [length replicate] in *.
    change (JStr "N/A" :: replicate (length entries) (JStr "N/A"))
      with (replicate (S (length entries)) (JStr "N/A")) in *.
    rewrite Counter_replicate in Hmain, Hfs by reflexivity. done.
Qed.

(** C8. The transformation keeps the entries in the order of the response:
    in a run on a response whose entries carry the observations [points], in
    that order, the columns are those of [points] and the temperature chart
    is drawn from their temperatures in the same order. *)
Theorem temperature_chart_in_source_order fromtimestamp w api_key city d entries points :
  answered w api_key city (JDict d) →
  Py.dict_get "list" d = Some (JList entries) →
  Forall2 (well_formed_entry fromtimestamp) entries points →
  output_dir_usable w →
  (process_forecast_data fromtimestamp (JDict d) w).1
  = Return (Some (columns_of points))
  ∧ fs (main fromtimestamp w).2 !! chart_path "temperature_forecast.png"
    = Some (File (temperature_figure (pt_time <$> points) (pt_temp <$> points)
                    (pt_feels_like <$> points) city)).
Proof.
  intros Hanswered Hlist Hpoints Husable. split.
  - rewrite (process_forecast_data_list _ _ _ _ Hlist).
    by rewrite (process_entries_ok _ _ _ Hpoints).
  - destruct (main_points_run fromtimestamp _ _ _ _ _ _ Hanswered Hlist Hpoints Husable)
      as (w' & Hmain & Hfs).
    rewrite Hmain. cbn [snd]. rewrite Hfs.
    rewrite pie_chart_on_other by paths_differ.
    apply line_charts_on_files.
Qed.

(** ** The claims on sample runs *)

Lemma scenario_answered data :
  answered (Sample.scenario data) "ABC" "Paris" data.
Proof.
  unfold answered. split_and!; try done.
  eexists. split_and!; reflexivity.
Qed.

Lemma scenario_output_dir_usable data : output_dir_usable (Sample.scenario data).
Proof.
  unfold output_dir_usable, Sample.scenario, Sample.world_with. cbn [fs].
  split; [by left | intros name _; by rewrite lookup_empty].
Qed.

Lemma three_entries_points :
  Forall2 (well_formed_entry Utc.fromtimestamp) Sample.three_entries Sample.three_points.
Proof.
  repeat apply Forall2_cons_2; [..|apply Forall2_nil_2];
    (econstructor; [reflexivity..|]); by constructor.
Qed.

Lemma calm_entries_points :
  Forall2 (well_formed_entry Utc.fromtimestamp) Sample.calm_entries Sample.calm_points.
Proof.
  repeat apply Forall2_cons_2; [..|apply Forall2_nil_2];
    (econstructor; [reflexivity..|]); by constructor.
Qed.

Lemma forecast_valid entries points :
  Forall2 (well_formed_entry Utc.fromtimestamp) entries points →
  valid_response Utc.fromtimestamp (Sample.forecast entries) entries.
Proof.
  intros Hpoints. eexists. split_and!; [reflexivity..|].
  induction Hpoints; constructor; eauto.
Qed.

(** C1, amended, on a body that carries an error code and no list, and on
    an empty forecast list. *)
Lemma missing_forecast_list_rejected_witness :
  process_forecast_data Utc.fromtimestamp (JDict Sample.no_list) (Sample.offline [])
  = (Return None,
     set_stdout ["Error: Invalid or empty data received from API."] (Sample.offline []))
  ∧ (∃ w', main Utc.fromtimestamp (Sample.scenario (JDict Sample.no_list)) = (Return tt, w')
           ∧ fs w' = ∅ ∧ shown w' = [])
  ∧ process_forecast_data Utc.fromtimestamp (Sample.forecast []) (Sample.offline [])
    = (Return (Some (Columns [] [] [] [] [] [])), Sample.offline []).
Proof.
  split_and!.
  - apply (proj1 (proj1 (missing_forecast_list_rejected Utc.fromtimestamp
                             Sample.no_list) eq_refl)).
  - apply (proj2 (proj1 (missing_forecast_list_rejected Utc.fromtimestamp
                             Sample.no_list) eq_refl)
             (Sample.scenario (JDict Sample.no_list)) "ABC" "Paris").
    apply scenario_answered.
  - apply (proj2 (missing_forecast_list_rejected Utc.fromtimestamp
                    [("cod", JStr "200"); ("cnt", JInt 0); ("list", JList [])])).
    reflexivity.
Defined.

(** C1 as stated fails: a forecast list that is present and empty is not
    rejected; the transformation returns six empty lists. *)
Lemma empty_forecast_list_not_rejected :
  Py.getitem (Sample.forecast []) "list" = Return (JList [])
  ∧ (process_forecast_data Utc.fromtimestamp (Sample.forecast []) (Sample.offline [])).1
    = Return (Some (Columns [] [] [] [] [] []))
  ∧ (process_forecast_data Utc.fromtimestamp (Sample.forecast []) (Sample.offline [])).1
    ≠ Return None.
Proof. split_and!; [reflexivity | reflexivity | discriminate]. Qed.

(** C2 on the forecast of three entries. *)
Lemma process_forecast_data_aligned_witness :
  ∃ cols,
    process_forecast_data Utc.fromtimestamp (Sample.forecast Sample.three_entries)
      (Sample.offline [])
    = (Return (Some cols), Sample.offline [])
    ∧ length (timestamps cols) = 3%nat
    ∧ length (temperatures cols) = 3%nat
    ∧ length (feels_like_temps cols) = 3%nat
    ∧ length (humidities cols) = 3%nat
    ∧ length (wind_speeds cols) = 3%nat
    ∧ length (weather_descriptions_main cols) = 3%nat
    ∧ ∀ i, (i < 3)%nat →
           ∃ e p, Sample.three_entries !! i = Some e
                  ∧ well_formed_entry Utc.fromtimestamp e p
                  ∧ row cols i = Some p.
Proof.
  apply (process_forecast_data_aligned Utc.fromtimestamp
           (Sample.forecast Sample.three_entries) Sample.three_entries).
  apply (forecast_valid _ _ three_entries_points).
Defined.

(** C3, amended, on the forecast of three entries, the last of which has
    an empty condition list. *)
Lemma condition_column_labels_witness :
  ∃ cols,
    process_forecast_data Utc.fromtimestamp (Sample.forecast Sample.three_entries)
      (Sample.offline [])
    = (Return (Some cols), Sample.offline [])
    ∧ ∀ i d weather,
        Sample.three_entries !! i = Some (JDict d) →
        Py.dict_get "weather" d = Some weather →
        (weather = JList [] ∨ weather = JNull →
         weather_descriptions_main cols !! i = Some (JStr "N/A"))
        ∧ (∀ c rest description,
             weather = JList (JDict c :: rest) →
             Py.dict_get "main" c = Some description →
             weather_descriptions_main cols !! i = Some description).
Proof.
  apply (condition_column_labels Utc.fromtimestamp
           (Sample.forecast Sample.three_entries) Sample.three_entries).
  apply (forecast_valid _ _ three_entries_points).
Defined.

(** C3 as stated fails: for an entry whose condition list is missing the
    lookup raises, and no label is produced. *)
Lemma missing_condition_list_raises :
  Py.dict_get "weather"
    [("dt", JInt 1700000000);
     ("main", JDict [("temp", JInt 10); ("feels_like", JFloat 8.5);
                     ("humidity", JInt 81)]);
     ("wind", JDict [("speed", JFloat 4.5)])] = None
  ∧ process_forecast_data Utc.fromtimestamp
      (Sample.forecast [Sample.entry_without_weather]) (Sample.offline [])
    = (Raise (Exn KeyError "'weather'"), Sample.offline []).
Proof. split; reflexivity. Qed.



(** X26 on a city the server does not know (status 404). *)
Lemma fetch_weather_data_failures_witness :
  fetch_weather_data "ABC" "Nowhereville" Cases.unknown_city
  = (Return JNull,
     diagnosed "ABC" "Nowhereville"
       ("HTTP Error: 404 Client Error: Not Found for url: "
        +:+ "http://api.openweathermap.org/data/2.5/forecast"
        +:+ "?q=Nowhereville&appid=ABC&units=metric"
        +:+ " - City not found: Nowhereville")
       Cases.unknown_city).
Proof.
  apply (fetch_weather_data_failures "ABC" "Nowhereville" Cases.unknown_city
           LocationNotFound).
  by apply fails_location.
Defined.

Example fetch_unauthorized :
  (fetch_weather_data "BAD" "Paris" Sample.unauthorized).1 = Return JNull
  ∧ stdout (fetch_weather_data "BAD" "Paris" Sample.unauthorized).2
    = ["HTTP Error: 401 Client Error: Unauthorized for url: " +:+ BASE_API_URL
       +:+ " - Invalid API key or key not activated yet."].
Proof. split; reflexivity. Qed.

Example fetch_overloaded :
  (fetch_weather_data "ABC" "Paris" Sample.overloaded).1 = Return JNull
  ∧ stdout (fetch_weather_data "ABC" "Paris" Sample.overloaded).2
    = ["HTTP Error: 503 Server Error: Service Unavailable for url: "
       +:+ BASE_API_URL].
Proof. split; reflexivity. Qed.

Example fetch_unreachable :
  (fetch_weather_data "ABC" "Paris" Sample.unreachable).1 = Return JNull
  ∧ stdout (fetch_weather_data "ABC" "Paris" Sample.unreachable).2
    = ["Request Error: Connection refused"].
Proof. split; reflexivity. Qed.

Example fetch_garbled :
  (fetch_weather_data "ABC" "Paris" (Sample.garbled JSONDecodeError)).1 = Return JNull
  ∧ stdout (fetch_weather_data "ABC" "Paris" (Sample.garbled JSONDecodeError)).2
    = ["Error: Failed to decode JSON response from API."]
  ∧ (fetch_weather_data "ABC" "Paris" (Sample.garbled RequestsJSONDecodeError)).1
    = Return JNull
  ∧ stdout (fetch_weather_data "ABC" "Paris" (Sample.garbled RequestsJSONDecodeError)).2
    = ["Request Error: Expecting value"].
Proof. split_and!; reflexivity. Qed.

(** An exception that no handler names leaves the function. *)
Example fetch_other_error :
  (fetch_weather_data "ABC" "Paris" (Sample.garbled ValueError)).1
  = Raise (Exn ValueError "Expecting value").
Proof. reflexivity. Qed.

(** C5 with the key "ABC" in the environment, and with no key and, at the
    prompt, a line of three spaces or a line of white space of Unicode. *)
Lemma get_api_key_never_empty_witness :
  "ABC" ≠ ""
  ∧ (∃ w', main Utc.fromtimestamp (Sample.offline ["   "])
           = (Raise (Exn SystemExit "None"), w')
           ∧ sent w' = [])
  ∧ (∃ w', main Utc.fromtimestamp (Sample.offline [Cases.blank_line])
           = (Raise (Exn SystemExit "None"), w')
           ∧ sent w' = []).
Proof.
  split_and!.
  - apply (proj1 get_api_key_never_empty (Sample.scenario JNull) "ABC"
             (Sample.scenario JNull)).
    reflexivity.
  - apply (proj1 (proj2 get_api_key_never_empty) Utc.fromtimestamp
             (Sample.offline ["   "]) "   " []); reflexivity.
  - apply (proj2 (proj2 get_api_key_never_empty) Utc.fromtimestamp
             (Sample.offline [Cases.blank_line]) [160; 32; 8195]%N []);
      [reflexivity | reflexivity |].
    repeat constructor.
Defined.

(** C6, amended, on an empty disk. *)
Lemma plots_dir_ensured_by_main_witness :
  (∃ w', ensure_plots_dir (Sample.offline []) = (Return tt, w')
         ∧ fs w' = {[ PLOTS_DIR := Directory ]})
  ∧ fs (main Utc.fromtimestamp
          (Sample.scenario (Sample.forecast Sample.three_entries))).2 !! PLOTS_DIR
    = Some Directory
  ∧ is_file (fs (main Utc.fromtimestamp
                   (Sample.scenario (Sample.forecast Sample.three_entries))).2
             !! chart_path "humidity_forecast.png") = true.
Proof.
  pose proof (proj1 (proj2 (proj2 plots_dir_ensured_by_main)) Utc.fromtimestamp
                (Sample.scenario (Sample.forecast Sample.three_entries)) "ABC" "Paris"
                (Sample.forecast Sample.three_entries) Sample.three_entries
                (scenario_answered _)
                (forecast_valid _ _ three_entries_points)
                (scenario_output_dir_usable _)) as (Hdir & _ & Hhumidity & _).
  split_and!; [|exact Hdir|exact Hhumidity].
  apply (proj1 plots_dir_ensured_by_main (Sample.offline [])). reflexivity.
Defined.

(** C6 as stated fails: a rendering operation does not create the
    directory; called where the directory is absent it raises and leaves the
    disk as it was. *)
Lemma rendering_does_not_create_dir :
  fs (Sample.offline []) !! PLOTS_DIR = None
  ∧ plot_humidity_forecast [DateTime 2023 11 14 22 13 20 0] [JInt 81] "Paris"
      (Sample.offline [])
    = (Raise (Exn FileNotFoundError
                "[Errno 2] No such file or directory: 'visualizations/humidity_forecast.png'"),
       Sample.offline []).
Proof. split; reflexivity. Qed.

(** C7, amended, on an empty forecast list and on two entries with empty
    condition lists. *)
Lemma pie_chart_skipped_on_no_labels_witness :
  (∃ w', main Utc.fromtimestamp (Sample.scenario (Sample.forecast [])) = (Return tt, w')
         ∧ fs w' = line_charts_on "Paris" [] ∅)
  ∧ ∃ points w',
      Forall2 (well_formed_entry Utc.fromtimestamp) Sample.calm_entries points
      ∧ main Utc.fromtimestamp (Sample.scenario (Sample.forecast Sample.calm_entries))
        = (Return tt, w')
      ∧ fs w'
        = <[chart_path "weather_conditions_pie_chart.png"
              := File (conditions_figure [(JStr "N/A", 2%N)] "Paris")]>
            (line_charts_on "Paris" points ∅).
Proof.
  split.
  - apply (proj1 (proj2 pie_chart_skipped_on_no_labels) Utc.fromtimestamp
             (Sample.scenario (Sample.forecast [])) "ABC" "Paris"
             [("cod", JStr "200"); ("cnt", JInt 0); ("list", JList [])]).
    + apply scenario_answered.
    + reflexivity.
    + apply scenario_output_dir_usable.
  - apply (proj2 (proj2 pie_chart_skipped_on_no_labels) Utc.fromtimestamp
             (Sample.scenario (Sample.forecast Sample.calm_entries)) "ABC" "Paris"
             (Sample.forecast Sample.calm_entries) Sample.calm_entries).
    + apply scenario_answered.
    + apply (forecast_valid _ _ calm_entries_points).
    + apply scenario_output_dir_usable.
    + discriminate.
    + repeat constructor; eexists; (split; [reflexivity|]); reflexivity.
Defined.

(** C7 as stated fails: in a run in which every entry has an empty
    condition list, the labels are "N/A", the pie chart step is not skipped
    and four chart files are written. *)
Lemma empty_condition_lists_yield_four_charts :
  (process_forecast_data Utc.fromtimestamp (Sample.forecast Sample.calm_entries)
     (Sample.offline [])).1
  = Return (Some (columns_of Sample.calm_points))
  ∧ weather_descriptions_main (columns_of Sample.calm_points)
    = [JStr "N/A"; JStr "N/A"]
  ∧ chart_files (main Utc.fromtimestamp
                   (Sample.scenario (Sample.forecast Sample.calm_entries))).2
    = ["temperature_forecast.png"; "humidity_forecast.png";
       "wind_speed_forecast.png"; "weather_conditions_pie_chart.png"].
Proof. split_and!; vm_compute; reflexivity. Qed.

(** C8 on scenario A: three entries with temperatures 10, 12 and 9. *)
Lemma temperature_chart_in_source_order_witness :
  (process_forecast_data Utc.fromtimestamp (Sample.forecast Sample.three_entries)
     (Sample.scenario (Sample.forecast Sample.three_entries))).1
  = Return (Some (columns_of Sample.three_points))
  ∧ fs (main Utc.fromtimestamp
          (Sample.scenario (Sample.forecast Sample.three_entries))).2
    !! chart_path "temperature_forecast.png"
    = Some (File (temperature_figure
                    [DateTime 2023 11 14 22 13 20 0; DateTime 2023 11 15 1 13 20 0;
                     DateTime 2023 11 15 4 13 20 0]
                    [JInt 10; JInt 12; JInt 9]
                    [JFloat 8.5; JFloat 8.5; JFloat 8.5] "Paris")).
Proof.
  apply (temperature_chart_in_source_order Utc.fromtimestamp
           (Sample.scenario (Sample.forecast Sample.three_entries)) "ABC" "Paris"
           [("cod", JStr "200"); ("cnt", JInt 3); ("list", JList Sample.three_entries)]
           Sample.three_entries Sample.three_points).
  - apply scenario_answered.
  - reflexivity.
  - apply three_entries_points.
  - apply scenario_output_dir_usable.
Defined.

(** C10, amended, on an entry without "weather" that follows three well
    formed entries, and on one whose temperature block is a number. *)
Lemma process_forecast_data_partial_witness :
  (∃ err, process_forecast_data Utc.fromtimestamp
            (Sample.forecast [Sample.entry_with_scalar_main]) (Sample.offline [])
          = (Raise err, Sample.offline []))
  ∧ process_forecast_data Utc.fromtimestamp
      (Sample.forecast (Sample.three_entries ++ [Sample.entry_without_weather]))
      (Sample.offline [])
    = (Raise (Py.key_error "weather"), Sample.offline []).
Proof.
  split.
  - apply (proj1 (process_forecast_data_partial Utc.fromtimestamp
                    [("cod", JStr "200"); ("cnt", JInt 1);
                     ("list", JList [Sample.entry_with_scalar_main])]
                    [Sample.entry_with_scalar_main] (Sample.offline []) eq_refl)
             Sample.entry_with_scalar_main "weather").
    + apply list_elem_of_here.
    + apply lacks_top; [set_solver | reflexivity].
  - apply (proj2 (process_forecast_data_partial Utc.fromtimestamp
                    [("cod", JStr "200"); ("cnt", JInt 4);
                     ("list", JList (Sample.three_entries
                                     ++ [Sample.entry_without_weather]))]
                    (Sample.three_entries ++ [Sample.entry_without_weather])
                    (Sample.offline []) eq_refl)
             Sample.three_entries Sample.three_points
             Sample.entry_without_weather "weather" []).
    + reflexivity.
    + apply three_entries_points.
    + eapply missing_weather; reflexivity.
Defined.

(** C10 as stated fails: an entry may lack a key and the transformation
    raise another error than a key error, when an earlier step of the loop
    fails first; here the temperature block is a number. *)
Lemma lacking_key_raises_type_error :
  lacks_key Sample.entry_with_scalar_main "weather"
  ∧ process_forecast_data Utc.fromtimestamp
      (Sample.forecast [Sample.entry_with_scalar_main]) (Sample.offline [])
    = (Raise (Exn TypeError "'int' object is not subscriptable"), Sample.offline [])
  ∧ exn_type (Exn TypeError "'int' object is not subscriptable") ≠ KeyError.
Proof.
  split_and!.
  - apply lacks_top; [set_solver | reflexivity].
  - reflexivity.
  - discriminate.
Qed.

(** * Further properties of the script *)

(** ** Further properties of the retrieval *)

(** X1. [fetch_weather_data] issues exactly one GET request, whatever the
    outcome: to the forecast endpoint, with the city, the key and metric
    units.  It prints at most one line and touches nothing else. *)
Theorem fetch_weather_data_one_request api_key city w :
  sent (fetch_weather_data api_key city w).2
  = sent w ++ [(BASE_API_URL, [("q", city); ("appid", api_key); ("units", "metric")])]
  ∧ environ (fetch_weather_data api_key city w).2 = environ w
  ∧ server (fetch_weather_data api_key city w).2 = server w
  ∧ stdin (fetch_weather_data api_key city w).2 = stdin w
  ∧ fs (fetch_weather_data api_key city w).2 = fs w
  ∧ shown (fetch_weather_data api_key city w).2 = shown w
  ∧ (stdout (fetch_weather_data api_key city w).2 = stdout w
     ∨ ∃ line, stdout (fetch_weather_data api_key city w).2 = stdout w ++ [line]).
Proof.
  unfold fetch_weather_data, requests.get, bind, print, ret.
  destruct (server w _) as [r|e]; simpl.
  - destruct (requests.raise_for_status r); simpl.
    + destruct (json_body r) as [data|e]; simpl; [by split_and!; eauto|].
      repeat case_match; simplify_eq/=; split_and!; eauto.
    + repeat case_match; simplify_eq/=; split_and!; eauto.
  - repeat case_match; simplify_eq/=; split_and!; eauto.
Qed.

Lemma raise_for_status_raises r e :
  requests.raise_for_status r = Raise e → isinstance e HTTPError = true.
Proof.
  unfold requests.raise_for_status. case_match; [|done]. by intros [= <-].
Qed.

(** X2. No [RequestException] and no [JSONDecodeError] leaves
    [fetch_weather_data].  What does leave it is an exception of another
    class raised by the request or by the decoding of the body, which no
    handler names, or the [UnboundLocalError] of the first handler reading
    [response] when [requests.get] itself raised an [HTTPError]; nothing is
    printed in these cases. *)
Theorem fetch_weather_data_escapes api_key city w err :
  (fetch_weather_data api_key city w).1 = Raise err →
  isinstance err RequestException = false
  ∧ isinstance err JSONDecodeError = false
  ∧ stdout (fetch_weather_data api_key city w).2 = stdout w
  ∧ (server w (forecast_request api_key city) = Raise err
     ∨ (∃ r, server w (forecast_request api_key city) = Return r
             ∧ requests.raise_for_status r = Return tt
             ∧ json_body r = Raise err)
     ∨ (∃ e, server w (forecast_request api_key city) = Raise e
             ∧ isinstance e HTTPError = true
             ∧ exn_type err = UnboundLocalError)).
Proof.
  unfold fetch_weather_data, requests.get, bind, print, ret.
  fold (forecast_request api_key city).
  destruct (server w _) as [r|e] eqn:Hserver; simpl.
  - destruct (requests.raise_for_status r) as [[]|e] eqn:Hstatus; simpl.
    + destruct (json_body r) as [data|e] eqn:Hbody; simpl; [done|].
      repeat case_match; simplify_eq/=; try done.
      intros [= <-]. split_and!; eauto 10.
    + pose proof (raise_for_status_raises _ _ Hstatus) as Hhttp.
      repeat case_match; simplify_eq/=; done.
  - repeat case_match; simplify_eq/=; try done;
      intros [= <-]; split_and!; eauto 10.
Qed.

(** X3. [fetch_weather_data] returns a value without printing exactly when
    the answer has no error status (outside 400 to 599) and its body
    decodes; the value is then the decoded body, as it is. *)
Theorem fetch_weather_data_silent api_key city w data :
  fetch_weather_data api_key city w
  = (Return data, set_sent (sent w ++ [forecast_request api_key city]) w)
  ↔ ∃ r, server w (forecast_request api_key city) = Return r
         ∧ ¬ 400 ≤ status_code r < 600
         ∧ json_body r = Return data.
Proof.
  split.
  - unfold fetch_weather_data, requests.get, bind, print, ret.
    fold (forecast_request api_key city).
    assert (∀ (l : list string) x, l ++ [x] ≠ l) as Hgrow.
    { intros l x Heq. apply (f_equal length) in Heq.
      rewrite length_app in Heq. simpl in Heq. lia. }
    destruct (server w _) as [r|e] eqn:Hserver; simpl.
    + destruct (requests.raise_for_status r) as [[]|e] eqn:Hstatus; simpl.
      * destruct (json_body r) as [body|e] eqn:Hbody; simpl.
        { intros [= <-]. exists r. split_and!; try done.
          intros Hrange. by rewrite (raise_for_status_error _ Hrange) in Hstatus. }
        repeat case_match; simplify_eq/=; try done;
          intros [= _ Hout]; by apply Hgrow in Hout.
      * repeat case_match; simplify_eq/=; try done;
          intros [= _ Hout]; by apply Hgrow in Hout.
    + repeat case_match; simplify_eq/=; try done;
        intros [= _ Hout]; by apply Hgrow in Hout.
  - intros (r & Hserver & Hrange & Hbody).
    apply (fetch_weather_data_ok _ _ _ _ _ Hserver); [|done].
    by apply raise_for_status_ok.
Qed.

(** ** Further properties of the credential resolution *)

(** X4. A key returned by [get_api_key] is the value of the environment
    variable, returned as it is with the world untouched (no prompt, no
    input read), or else, the variable being unset or empty, the first line
    of input stripped of surrounding white space, after the notice and the
    prompt were written and that one line consumed. *)
Theorem get_api_key_source w key w' :
  get_api_key w = (Return key, w') →
  (environ w !! "OPENWEATHERMAP_API_KEY" = Some key ∧ w' = w)
  ∨ (truthy_str (environ w !! "OPENWEATHERMAP_API_KEY") = false
     ∧ ∃ line rest,
         stdin w = line :: rest
         ∧ key = Str.strip line
         ∧ stdin w' = rest
         ∧ stdout w'
           = stdout w
             ++ ["OpenWeatherMap API key not found in .env file or environment variables.";
                 "Please enter your OpenWeatherMap API key: "]).
Proof.
  unfold get_api_key, bind, getenv, ret, print, input, exit, raise.
  destruct (truthy_str (environ w !! _)) eqn:Henv; simpl.
  - rewrite Henv. simpl. intros [= <- <-]. left.
    apply truthy_str_true in Henv as (s & -> & _). done.
  - destruct (stdin w) as [|line rest]; simpl; [done|].
    destruct (Str.is_empty (Str.strip line)); simpl; [done|].
    intros [= <- <-]. right. split; [done|]. exists line, rest.
    split_and!; try done. simpl. by rewrite <- app_assoc.
Qed.

(** X5. [get_api_key] issues no request and leaves environment, disk and
    display as they are, whether it returns, exits or fails; it reads at most
    one line of input. *)
Theorem get_api_key_footprint w :
  sent (get_api_key w).2 = sent w
  ∧ environ (get_api_key w).2 = environ w
  ∧ server (get_api_key w).2 = server w
  ∧ fs (get_api_key w).2 = fs w
  ∧ shown (get_api_key w).2 = shown w
  ∧ stdout w `prefix_of` stdout (get_api_key w).2
  ∧ (stdin (get_api_key w).2 = stdin w
     ∨ ∃ line, stdin w = line :: stdin (get_api_key w).2).
Proof.
  unfold get_api_key, bind, getenv, ret, print, input, exit, raise.
  destruct (truthy_str (environ w !! _)) eqn:Henv; simpl.
  - rewrite Henv. simpl. split_and!; auto.
  - destruct (stdin w) as [|line rest] eqn:Hin; simpl.
    + split_and!; auto using prefix_app_r.
    + destruct (Str.is_empty (Str.strip line)); simpl;
        (split_and!; [done..| |by eauto]).
      * rewrite <- !app_assoc. by apply prefix_app_r.
      * rewrite <- !app_assoc. by apply prefix_app_r.
Qed.

(** X6. With no key in the environment and no line left to read, the prompt
    fails: [EOFError] leaves [get_api_key], which is not the exit of the
    script; the closing message about the required key is not printed. *)
Theorem get_api_key_end_of_input w :
  truthy_str (environ w !! "OPENWEATHERMAP_API_KEY") = false →
  stdin w = [] →
  get_api_key w
  = (Raise (Exn EOFError "EOF when reading a line"),
     set_stdout
       (stdout w
        ++ ["OpenWeatherMap API key not found in .env file or environment variables.";
            "Please enter your OpenWeatherMap API key: "]) w).
Proof.
  intros Henv Hin.
  unfold get_api_key, bind, getenv, ret, print, input, exit, raise.
  rewrite Henv. simpl. rewrite Hin. simpl. by rewrite <- app_assoc.
Qed.

(** ** Further properties of the transformation *)

Lemma getitem_returns v k x :
  Py.getitem v k = Return x → ∃ d, v = JDict d ∧ Py.dict_get k d = Some x.
Proof.
  destruct v; simpl; try done.
  destruct (Py.dict_get k d) eqn:Hget; [|done]. intros [= <-]. eauto.
Qed.

Lemma len_truthy v n : Py.truthy v = true → Py.len v = Return n → 0 < n.
Proof.
  destruct v as [| | | |s|l|d]; simpl; try done.
  - destruct s; [done|]. intros _ [= <-]. simpl. lia.
  - destruct l; [done|]. intros _ [= <-]. simpl. lia.
  - destruct d; [done|]. intros _ [= <-]. simpl. lia.
Qed.

Section ReadEntries.

Variable fromtimestamp : json → result datetime.

Lemma process_entry_returns acc e acc' :
  process_entry fromtimestamp acc e = Return acc' →
  ∃ p, entry_reads fromtimestamp e p ∧ acc' = columns_app acc (columns_of [p]).
Proof.
  unfold process_entry.
  destruct (Py.getitem e "dt") as [dt|] eqn:Hdt; [|done].
  apply getitem_returns in Hdt as (d & -> & Hdt). cbn [rbind].
  destruct (fromtimestamp dt) as [t|] eqn:Ht; [|done]. cbn [rbind].
  destruct (Py.getitem (JDict d) "main") as [main|] eqn:Hmain; [|done].
  apply getitem_returns in Hmain as (d' & [= <-] & Hmain). cbn [rbind].
  destruct (Py.getitem main "temp") as [temp|] eqn:Htemp; [|done].
  apply getitem_returns in Htemp as (m & -> & Htemp). cbn [rbind].
  destruct (Py.getitem (JDict m) "feels_like") as [feels|] eqn:Hfeels; [|done].
  apply getitem_returns in Hfeels as (m' & [= <-] & Hfeels). cbn [rbind].
  destruct (Py.getitem (JDict m) "humidity") as [hum|] eqn:Hhum; [|done].
  apply getitem_returns in Hhum as (m' & [= <-] & Hhum). cbn [rbind].
  destruct (Py.getitem (JDict d) "wind") as [wind|] eqn:Hwind; [|done].
  apply getitem_returns in Hwind as (d' & [= <-] & Hwind). cbn [rbind].
  destruct (Py.getitem wind "speed") as [speed|] eqn:Hspeed; [|done].
  apply getitem_returns in Hspeed as (wn & -> & Hspeed). cbn [rbind].
  destruct (Py.getitem (JDict d) "weather") as [weather|] eqn:Hweather; [|done].
  apply getitem_returns in Hweather as (d' & [= <-] & Hweather). cbn [rbind].
  assert (∀ label,
            label_read weather label →
            entry_reads fromtimestamp (JDict d) (Point t temp feels hum speed label))
    as Hreads.
  { intros label Hlabel. exists d, dt, m, wn, weather. split_and!; done. }
  destruct (Py.truthy weather) eqn:Htruthy; cbn [rbind].
  - destruct (Py.len weather) as [n|] eqn:Hlen; [|done]. cbn [rbind].
    pose proof (len_truthy _ _ Htruthy Hlen) as Hpos.
    assert ((0 <? n) = true) as -> by lia.
    destruct (Py.getitem0 weather) as [first|] eqn:Hfirst; [|done]. cbn [rbind].
    destruct (Py.getitem first "main") as [label|] eqn:Hlabel; [|done].
    apply getitem_returns in Hlabel as (c & -> & Hlabel). cbn [rbind].
    intros [= <-]. exists (Point t temp feels hum speed label).
    split; [|reflexivity]. apply Hreads. right.
    destruct weather as [| | | |s|[|x rest]|]; simpl in Hfirst; try done.
    + by destruct s.
    + injection Hfirst as ->. eauto.
  - intros [= <-]. exists (Point t temp feels hum speed (JStr "N/A")).
    split; [|reflexivity]. apply Hreads. by left.
Qed.

Lemma process_entry_reads acc e p :
  entry_reads fromtimestamp e p →
  process_entry fromtimestamp acc e = Return (columns_app acc (columns_of [p])).
Proof.
  intros (d & dt & m & wn & weather & -> & Hdt & Ht & Hm & Htemp & Hfeels & Hhum
          & Hwn & Hspeed & Hweather & Hlabel).
  destruct p as [t temp feels hum speed label]. simpl in *.
  unfold process_entry.
  rewrite (getitem_dict _ _ _ Hdt), (getitem_dict _ _ _ Hm),
    (getitem_dict _ _ _ Hwn), (getitem_dict _ _ _ Hweather). simpl.
  rewrite Ht. simpl. rewrite Htemp, Hfeels, Hhum, Hspeed. simpl.
  destruct Hlabel as [[Hfalsy ->] | (c & rest & -> & Hc)].
  - by rewrite Hfalsy.
  - simpl. by rewrite Hc.
Qed.

Lemma process_entries_returns es :
  ∀ acc acc',
    process_entries fromtimestamp acc es = Return acc' →
    ∃ ps, Forall2 (entry_reads fromtimestamp) es ps
          ∧ acc' = columns_app acc (columns_of ps).
Proof.
  induction es as [|e es IH]; intros acc acc'; simpl.
  - intros [= <-]. exists []. split; [constructor|]. by rewrite columns_app_nil_r.
  - destruct (process_entry fromtimestamp acc e) as [acc1|] eqn:He; [|done].
    simpl. intros Hrest.
    apply process_entry_returns in He as (p & Hp & ->).
    apply IH in Hrest as (ps & Hps & ->).
    exists (p :: ps). split; [by constructor|].
    by rewrite (columns_app_cons acc p ps).
Qed.

Lemma process_entries_reads es ps :
  Forall2 (entry_reads fromtimestamp) es ps →
  ∀ acc, process_entries fromtimestamp acc es
         = Return (columns_app acc (columns_of ps)).
Proof.
  induction 1 as [|e p es ps He _ IH]; intros acc; simpl.
  - by rewrite columns_app_nil_r.
  - rewrite (process_entry_reads _ _ _ He). simpl.
    by rewrite IH, (columns_app_cons acc p ps).
Qed.

Lemma process_forecast_data_returns data w cols :
  (process_forecast_data fromtimestamp data w).1 = Return (Some cols) →
  ∃ d forecast entries,
    data = JDict d
    ∧ Py.dict_get "list" d = Some forecast
    ∧ Py.iter forecast = Return entries
    ∧ process_entries fromtimestamp (Columns [] [] [] [] [] []) entries = Return cols.
Proof.
  unfold process_forecast_data, bind, lift, print, ret.
  destruct (negb (Py.truthy data)); simpl; [done|].
  destruct (Py.contains "list" data) as [[]|]; simpl; try done.
  destruct (Py.getitem data "list") as [forecast|] eqn:Hlist; simpl; [|done].
  apply getitem_returns in Hlist as (d & -> & Hlist).
  destruct (Py.iter forecast) as [entries|] eqn:Hiter; simpl; [|done].
  destruct (process_entries _ _ _) as [cols'|] eqn:Hrun; simpl; [|done].
  intros [= <-]. by exists d, forecast, entries.
Qed.

End ReadEntries.

(** X8. The transformation returns columns exactly when the response is a
    dictionary whose "list" can be iterated and every item read: each item
    is a dictionary with a convertible "dt", a dictionary "main" holding
    "temp", "feels_like" and "humidity", a dictionary "wind" holding "speed",
    and a "weather" that is falsy or a list starting with a dictionary that
    holds "main".  The columns are then those of the observations read, in
    the order of the list. *)
Theorem process_forecast_data_returns_iff fromtimestamp data w cols :
  (process_forecast_data fromtimestamp data w).1 = Return (Some cols)
  ↔ ∃ d forecast entries points,
      data = JDict d
      ∧ Py.dict_get "list" d = Some forecast
      ∧ Py.iter forecast = Return entries
      ∧ Forall2 (entry_reads fromtimestamp) entries points
      ∧ cols = columns_of points.
Proof.
  split.
  - intros Hrun.
    apply process_forecast_data_returns in Hrun
      as (d & forecast & entries & -> & Hlist & Hiter & Hrun).
    apply process_entries_returns in Hrun as (points & Hpoints & ->).
    by exists d, forecast, entries, points.
  - intros (d & forecast & entries & points & -> & Hlist & Hiter & Hpoints & ->).
    unfold process_forecast_data, bind, lift.
    rewrite (dict_get_truthy _ _ _ Hlist). simpl. rewrite Hlist. simpl.
    rewrite Hiter. simpl.
    by rewrite (process_entries_reads _ _ _ Hpoints).
Qed.

(** X9. Whenever the transformation returns columns, the six lists have the
    same length, the number of items of the forecast list; nothing is
    assumed of the response. *)
Theorem process_forecast_data_equal_lengths fromtimestamp data w cols :
  (process_forecast_data fromtimestamp data w).1 = Return (Some cols) →
  ∃ forecast entries,
    Py.getitem data "list" = Return forecast
    ∧ Py.iter forecast = Return entries
    ∧ length (timestamps cols) = length entries
    ∧ length (temperatures cols) = length entries
    ∧ length (feels_like_temps cols) = length entries
    ∧ length (humidities cols) = length entries
    ∧ length (wind_speeds cols) = length entries
    ∧ length (weather_descriptions_main cols) = length entries.
Proof.
  intros Hrun.
  apply process_forecast_data_returns in Hrun
    as (d & forecast & entries & -> & Hlist & Hiter & Hrun).
  apply process_entries_returns in Hrun as (points & Hpoints & ->).
  exists forecast, entries. split; [by apply getitem_dict|]. split; [done|].
  pose proof (Forall2_length _ _ _ Hpoints) as Hlen.
  unfold columns_app, columns_of; simpl. rewrite !length_fmap. by split_and!.
Qed.

Ltac absent_case :=
  split_and!;
  [ split; [ intros ?; first [done | by left | by right] | intros [?|?]; done ]
  | intros ?; done
  | intros Hne; first [done | by destruct Hne] ].

Lemma process_forecast_data_absent_world fromtimestamp data w :
  ((process_forecast_data fromtimestamp data w).1 = Return None
   ↔ Py.truthy data = false ∨ Py.contains "list" data = Return false)
  ∧ ((process_forecast_data fromtimestamp data w).1 = Return None →
     (process_forecast_data fromtimestamp data w).2
     = set_stdout (stdout w ++ ["Error: Invalid or empty data received from API."]) w)
  ∧ ((process_forecast_data fromtimestamp data w).1 ≠ Return None →
     (process_forecast_data fromtimestamp data w).2 = w).
Proof.
  unfold process_forecast_data, bind, lift, print, ret.
  destruct (Py.truthy data); simpl; [|absent_case].
  destruct (Py.contains "list" data) as [[]|]; simpl;
    [|absent_case..].
  destruct (Py.getitem data "list") as [forecast|]; simpl;
    [|absent_case].
  destruct (Py.iter forecast) as [entries|]; simpl;
    [|absent_case].
  destruct (process_entries _ _ _); simpl; absent_case.
Qed.

(** X10. The transformation returns [None] exactly when the response is
    falsy or the membership test finds no "list" in it; it then prints the
    one diagnostic.  In every other case, columns or an error, it leaves the
    world as it was. *)
Theorem process_forecast_data_absent_iff fromtimestamp data w :
  ((process_forecast_data fromtimestamp data w).1 = Return None
   ↔ Py.truthy data = false ∨ Py.contains "list" data = Return false)
  ∧ ((process_forecast_data fromtimestamp data w).1 = Return None →
     (process_forecast_data fromtimestamp data w).2
     = set_stdout (stdout w ++ ["Error: Invalid or empty data received from API."]) w)
  ∧ ((process_forecast_data fromtimestamp data w).1 ≠ Return None →
     (process_forecast_data fromtimestamp data w).2 = w).
Proof. apply process_forecast_data_absent_world. Qed.

(** X11. A truthy response that is no dictionary never yields columns: when
    the membership test finds "list" in it, as an element of a list or inside
    a string, the subscript raises [TypeError]; a number makes the membership
    test itself raise [TypeError]; otherwise the result is [None]. *)
Theorem process_forecast_data_not_a_dict fromtimestamp data w :
  (∀ d, data ≠ JDict d) →
  Py.truthy data = true →
  (Py.contains "list" data = Return false
   ∧ (process_forecast_data fromtimestamp data w).1 = Return None)
  ∨ ∃ err, (process_forecast_data fromtimestamp data w).1 = Raise err
           ∧ exn_type err = TypeError.
Proof.
  intros Hdict Htruthy. unfold process_forecast_data, bind, lift, print, ret.
  rewrite Htruthy. simpl.
  destruct data as [| | | |s|l|d]; simpl in *; try done.
  - right. by eexists.
  - right. by eexists.
  - right. by eexists.
  - destruct (Str.contains "list" s); simpl; [right; by eexists | by left].
  - destruct (existsb (Py.is_str "list") l); simpl; [right; by eexists | by left].
  - by destruct (Hdict d).
Qed.

(** X12. A "list" that is not a list is not reported as invalid data.  A
    number, a boolean or null raises [TypeError]; a dictionary or a string
    is iterated, by keys or by characters, so that an empty one yields six
    empty lists and any other raises [TypeError] at the first item. *)
Theorem process_forecast_data_list_not_a_list fromtimestamp d forecast w :
  Py.dict_get "list" d = Some forecast →
  (∀ l, forecast ≠ JList l) →
  ((forecast = JDict [] ∨ forecast = JStr "")
   ∧ process_forecast_data fromtimestamp (JDict d) w
     = (Return (Some (Columns [] [] [] [] [] [])), w))
  ∨ ∃ err, process_forecast_data fromtimestamp (JDict d) w = (Raise err, w)
           ∧ exn_type err = TypeError.
Proof.
  intros Hlist Hnot. unfold process_forecast_data, bind, lift, print, ret.
  rewrite (dict_get_truthy _ _ _ Hlist). simpl. rewrite Hlist. simpl.
  destruct forecast as [| | | |s|l|items]; simpl; try (right; by eexists).
  - destruct s; simpl; [left; by auto | right; by eexists].
  - by destruct (Hnot l).
  - destruct items as [|[k v] items]; simpl; [left; by auto | right; by eexists].
Qed.

(** ** The footprint of a run *)

Lemma footprint_refl w : footprint w w.
Proof. by split. Qed.

Lemma footprint_trans w1 w2 w3 : footprint w1 w2 → footprint w2 w3 → footprint w1 w3.
Proof.
  intros [] []. split.
  - congruence.
  - congruence.
  - by etrans.
  - by etrans.
  - by etrans.
  - by etrans.
  - intros p Hp. rewrite footprint_other1, footprint_other0; done.
  - auto.
  - auto.
Qed.

Lemma footprint_print s w : footprint w (set_stdout (stdout w ++ [s]) w).
Proof. split; try done. simpl. by apply prefix_app_r. Qed.

Lemma footprint_insert p x w :
  p ∈ output_paths →
  (fs w !! p = Some Directory → x = Directory) →
  footprint w (set_fs (<[p := x]> (fs w)) w).
Proof.
  intros Hp Hdir. split; try done; simpl.
  - intros q Hq. rewrite lookup_insert_ne; [done|]. by intros ->.
  - intros q Hq. destruct (decide (p = q)) as [->|].
    + by rewrite lookup_insert_eq.
    + by rewrite lookup_insert_ne.
  - intros q Hq. destruct (decide (p = q)) as [->|].
    + rewrite lookup_insert_eq. by rewrite (Hdir Hq).
    + by rewrite lookup_insert_ne.
Qed.

Lemma within_bind {A B} (m : M A) (k : A → M B) :
  within_footprint m → (∀ a, within_footprint (k a)) → within_footprint (bind m k).
Proof.
  intros Hm Hk w. unfold bind. specialize (Hm w).
  destruct (m w) as [[a|e] w1]; simpl in *; [|done].
  eapply footprint_trans; [exact Hm | apply Hk].
Qed.

Lemma within_ret {A} (a : A) : within_footprint (ret a).
Proof. intros w. apply footprint_refl. Qed.

Lemma within_raise {A} e : within_footprint (@raise A e).
Proof. intros w. apply footprint_refl. Qed.

Lemma within_lift {A} (r : result A) : within_footprint (lift r).
Proof. intros w. apply footprint_refl. Qed.

Lemma within_print s : within_footprint (print s).
Proof. intros w. apply footprint_print. Qed.

Lemma within_getenv name : within_footprint (getenv name).
Proof. intros w. apply footprint_refl. Qed.

Lemma within_input prompt : within_footprint (input prompt).
Proof.
  intros w. unfold input. simpl.
  destruct (stdin w) as [|l rest] eqn:Hin; simpl.
  - apply footprint_print.
  - split; try done; simpl.
    + by apply prefix_app_r.
    + rewrite Hin. by apply suffix_cons_r.
Qed.

Lemma within_show fig : within_footprint (plt.show_figure fig).
Proof. intros w. split; try done. simpl. by apply prefix_app_r. Qed.

Lemma within_savefig name fig :
  name ∈ chart_names → within_footprint (plt.savefig PLOTS_DIR name fig).
Proof.
  intros Hname w. unfold plt.savefig.
  destruct (fs w !! PLOTS_DIR) as [[]|]; simpl; try apply footprint_refl.
  destruct (fs w !! os.path_join PLOTS_DIR name) as [[]|] eqn:Hfile; simpl;
    try apply footprint_refl;
    (apply footprint_insert;
     [apply list_elem_of_further, list_elem_of_fmap; by exists name
     | by rewrite Hfile]).
Qed.

Ltac within :=
  repeat first
    [ apply within_ret | apply within_raise | apply within_lift
    | apply within_print | apply within_getenv | apply within_input
    | apply within_show
    | apply within_savefig; unfold chart_names; set_solver
    | apply within_bind; [|intros ?]
    | match goal with
      | |- within_footprint (if ?b then _ else _) => destruct b
      | |- within_footprint (match ?x with _ => _ end) => destruct x
      | |- within_footprint exit => unfold exit
      end ].

Lemma within_get_api_key : within_footprint get_api_key.
Proof. unfold get_api_key. within. Qed.

Lemma within_fetch_weather_data api_key city :
  within_footprint (fetch_weather_data api_key city).
Proof.
  intros w. unfold fetch_weather_data, requests.get, bind, print, ret.
  assert (footprint w
            (set_sent (sent w ++ [(BASE_API_URL,
                                   [("q", city); ("appid", api_key);
                                    ("units", "metric")])]) w)) as Hsent.
  { split; try done. simpl. by apply prefix_app_r. }
  assert (∀ s, footprint w
                 (set_stdout
                    (stdout w ++ [s])
                    (set_sent (sent w ++ [(BASE_API_URL,
                                           [("q", city); ("appid", api_key);
                                            ("units", "metric")])]) w))) as Hout.
  { intros s. split; try done; simpl; by apply prefix_app_r. }
  destruct (server w _) as [r|e]; simpl.
  - destruct (requests.raise_for_status r); simpl.
    + destruct (json_body r) as [data|e]; simpl; [done|].
      repeat case_match; simplify_eq/=; done.
    + repeat case_match; simplify_eq/=; done.
  - repeat case_match; simplify_eq/=; done.
Qed.

Lemma within_process_forecast_data fromtimestamp data :
  within_footprint (process_forecast_data fromtimestamp data).
Proof. unfold process_forecast_data. within. Qed.

Lemma within_ensure_plots_dir : within_footprint ensure_plots_dir.
Proof.
  intros w. unfold ensure_plots_dir, bind, os.path_exists, os.makedirs, print.
  destruct (fs w !! PLOTS_DIR) as [n|] eqn:Hdir; simpl.
  - apply footprint_refl.
  - rewrite Hdir.
    eapply footprint_trans; [|apply footprint_print].
    apply footprint_insert; [apply list_elem_of_here | done].
Qed.

Lemma within_plot_temperature_forecast ts temps feels city :
  within_footprint (plot_temperature_forecast ts temps feels city).
Proof. unfold plot_temperature_forecast. within. Qed.

Lemma within_plot_humidity_forecast ts hums city :
  within_footprint (plot_humidity_forecast ts hums city).
Proof. unfold plot_humidity_forecast. within. Qed.

Lemma within_plot_wind_speed_forecast ts speeds city :
  within_footprint (plot_wind_speed_forecast ts speeds city).
Proof. unfold plot_wind_speed_forecast. within. Qed.

Lemma within_plot_weather_conditions_pie labels city :
  within_footprint (plot_weather_conditions_pie labels city).
Proof. unfold plot_weather_conditions_pie. within. Qed.

Lemma within_main fromtimestamp : within_footprint (main fromtimestamp).
Proof.
  unfold main.
  repeat first
    [ apply within_get_api_key | apply within_fetch_weather_data
    | apply within_process_forecast_data | apply within_ensure_plots_dir
    | apply within_plot_temperature_forecast | apply within_plot_humidity_forecast
    | apply within_plot_wind_speed_forecast
    | apply within_plot_weather_conditions_pie
    | apply within_print
    | apply within_getenv
    | apply within_bind; [|intros ?]
    | match goal with
      | |- within_footprint (if ?b then _ else _) => destruct b
      | |- within_footprint (match ?x with _ => _ end) => destruct x
      end ].
Qed.

(** X13. Whatever the environment, the input, the network and the disk,
    and however the run ends, [main] leaves the environment as it is, only
    adds to the output, to the requests sent and to the figures shown, only
    consumes input, and on disk touches no path but the output directory and
    the four chart files; it removes nothing and replaces no directory. *)
Theorem main_footprint fromtimestamp w :
  environ (main fromtimestamp w).2 = environ w
  ∧ server (main fromtimestamp w).2 = server w
  ∧ stdout w `prefix_of` stdout (main fromtimestamp w).2
  ∧ sent w `prefix_of` sent (main fromtimestamp w).2
  ∧ shown w `prefix_of` shown (main fromtimestamp w).2
  ∧ stdin (main fromtimestamp w).2 `suffix_of` stdin w
  ∧ (∀ p, p ∉ ["visualizations";
               "visualizations/temperature_forecast.png";
               "visualizations/humidity_forecast.png";
               "visualizations/wind_speed_forecast.png";
               "visualizations/weather_conditions_pie_chart.png"] →
          fs (main fromtimestamp w).2 !! p = fs w !! p)
  ∧ (∀ p, is_Some (fs w !! p) → is_Some (fs (main fromtimestamp w).2 !! p))
  ∧ (∀ p, fs w !! p = Some Directory →
          fs (main fromtimestamp w).2 !! p = Some Directory).
Proof.
  destruct (within_main fromtimestamp w). split_and!; try done.
Qed.

(** ** Further properties of the orchestration *)

Lemma sends_nothing_bind {A B} (m : M A) (k : A → M B) :
  sends_nothing m → (∀ a, sends_nothing (k a)) → sends_nothing (bind m k).
Proof.
  intros Hm Hk w. unfold bind. specialize (Hm w).
  destruct (m w) as [[a|e] w1]; simpl in *; [|done].
  by rewrite Hk.
Qed.

Lemma draws_nothing_bind {A B} (m : M A) (k : A → M B) :
  draws_nothing m → (∀ a, draws_nothing (k a)) → draws_nothing (bind m k).
Proof.
  intros Hm Hk w. unfold bind. specialize (Hm w).
  destruct (m w) as [[a|e] w1]; simpl in *; [|done].
  destruct (Hk a w1) as [-> ->]. done.
Qed.

Ltac sends_nothing :=
  repeat first
    [ apply sends_nothing_bind; [|intros ?]
    | match goal with
      | |- sends_nothing (if ?b then _ else _) => destruct b
      | |- sends_nothing (match ?x with _ => _ end) => destruct x
      end
    | by intros ? ];
  try (intros ?; unfold plt.savefig, os.makedirs; simpl; by repeat case_match).

Ltac draws_nothing :=
  repeat first
    [ apply draws_nothing_bind; [|intros ?]
    | match goal with
      | |- draws_nothing (if ?b then _ else _) => destruct b
      | |- draws_nothing (match ?x with _ => _ end) => destruct x
      end
    | by intros ? ].

Lemma get_api_key_sends_nothing : sends_nothing get_api_key.
Proof.
  unfold get_api_key, exit. sends_nothing.
  intros w. unfold input. simpl. by destruct (stdin w).
Qed.

Lemma get_api_key_draws_nothing : draws_nothing get_api_key.
Proof.
  unfold get_api_key, exit. draws_nothing.
  intros w. unfold input. simpl. by destruct (stdin w).
Qed.

Lemma get_api_key_environ w : environ (get_api_key w).2 = environ w.
Proof. apply (within_get_api_key w). Qed.

Lemma process_forecast_data_sends_nothing fromtimestamp data :
  sends_nothing (process_forecast_data fromtimestamp data).
Proof. unfold process_forecast_data. sends_nothing. Qed.

Lemma process_forecast_data_draws_nothing fromtimestamp data :
  draws_nothing (process_forecast_data fromtimestamp data).
Proof. unfold process_forecast_data. draws_nothing. Qed.

Lemma rendering_sends_nothing ts temps feels hums speeds labels city :
  sends_nothing ensure_plots_dir
  ∧ sends_nothing (plot_temperature_forecast ts temps feels city)
  ∧ sends_nothing (plot_humidity_forecast ts hums city)
  ∧ sends_nothing (plot_wind_speed_forecast ts speeds city)
  ∧ sends_nothing (plot_weather_conditions_pie labels city).
Proof.
  unfold ensure_plots_dir, plot_temperature_forecast, plot_humidity_forecast,
    plot_wind_speed_forecast, plot_weather_conditions_pie.
  split_and!; sends_nothing.
Qed.

Lemma fetch_weather_data_sent api_key city w :
  sent (fetch_weather_data api_key city w).2
  = sent w ++ [forecast_request api_key city].
Proof.
  unfold fetch_weather_data, requests.get, bind, print, ret.
  fold (forecast_request api_key city).
  destruct (server w _) as [r|e]; simpl.
  - destruct (requests.raise_for_status r); simpl.
    + destruct (json_body r) as [data|e]; simpl; [done|].
      by repeat case_match; simplify_eq/=.
    + by repeat case_match; simplify_eq/=.
  - by repeat case_match; simplify_eq/=.
Qed.

Lemma fetch_weather_data_draws_nothing api_key city :
  draws_nothing (fetch_weather_data api_key city).
Proof.
  intros w. unfold fetch_weather_data, requests.get, bind, print, ret.
  destruct (server w _) as [r|e]; simpl.
  - destruct (requests.raise_for_status r); simpl.
    + destruct (json_body r) as [data|e]; simpl; [done|].
      by repeat case_match; simplify_eq/=.
    + by repeat case_match; simplify_eq/=.
  - by repeat case_match; simplify_eq/=.
Qed.

(** The result of the retrieval depends on the network alone. *)
Lemma fetch_weather_data_result api_key city w w' :
  server w' = server w →
  (fetch_weather_data api_key city w').1 = (fetch_weather_data api_key city w).1.
Proof.
  intros Hserver. unfold fetch_weather_data, requests.get, bind, print, ret.
  rewrite Hserver.
  destruct (server w _) as [r|e]; simpl.
  - destruct (requests.raise_for_status r); simpl.
    + destruct (json_body r) as [data|e]; simpl; [done|].
      by repeat case_match; simplify_eq/=.
    + by repeat case_match; simplify_eq/=.
  - by repeat case_match; simplify_eq/=.
Qed.

(** X14. Without a city in the environment (unset or empty), [main] stops
    after the key was resolved: however the run ends it issues no request
    and leaves disk and display as they are; with a key in the environment
    it prints that the city name cannot be empty and returns. *)
Theorem main_without_city fromtimestamp w :
  truthy_str (environ w !! "CITY_NAME") = false →
  sent (main fromtimestamp w).2 = sent w
  ∧ fs (main fromtimestamp w).2 = fs w
  ∧ shown (main fromtimestamp w).2 = shown w
  ∧ ∀ key, environ w !! "OPENWEATHERMAP_API_KEY" = Some key → key ≠ "" →
           main fromtimestamp w
           = (Return tt,
              set_stdout (stdout w ++ ["--- Weather Data Visualizer ---";
                                       "City name cannot be empty. Exiting."]) w).
Proof.
  intros Hcity. unfold main.
  rewrite (bind_ret _ _ _ _ _ (print_run _ _)).
  set (w1 := set_stdout (stdout w ++ ["--- Weather Data Visualizer ---"]) w).
  split_and!.
  - unfold bind at 1.
    pose proof (get_api_key_sends_nothing w1) as Hsent.
    pose proof (get_api_key_environ w1) as Henv.
    destruct (get_api_key w1) as [[key|e] w2]; simpl in *; [|done].
    unfold bind at 1, getenv at 1. rewrite Henv. simpl. by rewrite Hcity.
  - unfold bind at 1.
    pose proof (get_api_key_draws_nothing w1) as [Hfs _].
    pose proof (get_api_key_environ w1) as Henv.
    destruct (get_api_key w1) as [[key|e] w2]; simpl in *; [|done].
    unfold bind at 1, getenv at 1. rewrite Henv. simpl. by rewrite Hcity.
  - unfold bind at 1.
    pose proof (get_api_key_draws_nothing w1) as [_ Hshown].
    pose proof (get_api_key_environ w1) as Henv.
    destruct (get_api_key w1) as [[key|e] w2]; simpl in *; [|done].
    unfold bind at 1, getenv at 1. rewrite Henv. simpl. by rewrite Hcity.
  - intros key Hkey Hne.
    erewrite bind_ret by (by apply get_api_key_env).
    erewrite bind_ret by reflexivity. cbn [environ set_stdout w1].
    rewrite Hcity. simpl. unfold print, w1. simpl. by rewrite <- app_assoc.
Qed.

Lemma main_fetched fromtimestamp w api_key city :
  environ w !! "OPENWEATHERMAP_API_KEY" = Some api_key → api_key ≠ "" →
  environ w !! "CITY_NAME" = Some city → city ≠ "" →
  main fromtimestamp w
  = bind (fetch_weather_data api_key city)
      (λ weather_data,
         if Py.truthy weather_data
         then
           print "Weather data fetched successfully.";;
           processed_data ← process_forecast_data fromtimestamp weather_data;
           match processed_data with
           | None => print "Failed to process weather data. Exiting."
           | Some (Columns timestamps temps feels_like_temps humidities
                           wind_speeds weather_descriptions) =>
               ensure_plots_dir;;
               print (Str.nl +:+ "Generating and saving plots...");;
               plot_temperature_forecast timestamps temps feels_like_temps city;;
               plot_humidity_forecast timestamps humidities city;;
               plot_wind_speed_forecast timestamps wind_speeds city;;
               plot_weather_conditions_pie weather_descriptions city;;
               print (Str.nl +:+ "--- All visualizations saved in '" +:+ PLOTS_DIR
                      +:+ "' directory ---");;
               print "--- Script finished ---"
           end
         else
           print ("Could not retrieve weather data for " +:+ Str.title city
                  +:+ ". Please check the city name and your API key."))%py
      (set_stdout (stdout w ++ ["--- Weather Data Visualizer ---";
                                Str.nl +:+ "Fetching weather data for "
                                  +:+ Str.title city +:+ "..."]) w).
Proof.
  intros Hkey Hkey_ne Hcity Hcity_ne. unfold main.
  rewrite (bind_ret _ _ _ _ _ (print_run _ _)).
  erewrite bind_ret by (by apply get_api_key_env).
  erewrite bind_ret by reflexivity. cbn [environ set_stdout]. rewrite Hcity.
  assert (truthy_str (Some city) = true) as -> by (apply truthy_str_true; eauto).
  cbn [negb default from_option id].
  rewrite (bind_ret _ _ _ _ _ (print_run _ _)).
  cbn [stdout set_stdout]. by rewrite <- app_assoc.
Qed.

(** X15. When the retrieval returns a falsy value, which is [None] after a
    reported failure but also a body that decodes to null, to an empty
    dictionary or list, to zero or to an empty string, [main] reports that
    the data could not be retrieved and returns: the transformation is not
    run, disk and display stay as they are. *)
Theorem main_nothing_retrieved fromtimestamp w api_key city data :
  environ w !! "OPENWEATHERMAP_API_KEY" = Some api_key → api_key ≠ "" →
  environ w !! "CITY_NAME" = Some city → city ≠ "" →
  (fetch_weather_data api_key city w).1 = Return data →
  Py.truthy data = false →
  ∃ w', main fromtimestamp w = (Return tt, w')
        ∧ fs w' = fs w
        ∧ shown w' = shown w
        ∧ sent w' = sent w ++ [forecast_request api_key city]
        ∧ last (stdout w')
          = Some ("Could not retrieve weather data for " +:+ Str.title city
                  +:+ ". Please check the city name and your API key.").
Proof.
  intros Hkey Hkey_ne Hcity Hcity_ne Hfetch Hfalsy.
  rewrite (main_fetched _ _ _ _ Hkey Hkey_ne Hcity Hcity_ne).
  set (w1 := set_stdout _ w).
  pose proof (fetch_weather_data_result api_key city w w1 eq_refl) as Hresult.
  pose proof (fetch_weather_data_sent api_key city w1) as Hsent.
  pose proof (fetch_weather_data_draws_nothing api_key city w1) as [Hfs Hshown].
  rewrite Hfetch in Hresult. unfold bind at 1.
  destruct (fetch_weather_data api_key city w1) as [r w2]; simpl in *; subst r.
  rewrite Hfalsy. eexists. split; [reflexivity|].
  cbn [fs shown sent stdout set_stdout]. split_and!; try done.
  by rewrite last_snoc.
Qed.

Lemma main_requests fromtimestamp w :
  ∃ l, sent (main fromtimestamp w).2 = sent w ++ l
       ∧ (l = []
          ∨ ∃ key city,
              key ≠ "" ∧ city ≠ ""
              ∧ environ w !! "CITY_NAME" = Some city
              ∧ l = [forecast_request key city]).
Proof.
  unfold main.
  rewrite (bind_ret _ _ _ _ _ (print_run _ _)).
  set (w1 := set_stdout (stdout w ++ ["--- Weather Data Visualizer ---"]) w).
  unfold bind at 1.
  pose proof (get_api_key_sends_nothing w1) as Hsent.
  pose proof (get_api_key_environ w1) as Henv.
  destruct (get_api_key w1) as [[key|e] w2] eqn:Hkey; simpl in Hsent, Henv.
  2:{ exists []. rewrite app_nil_r. by split; [|left]. }
  apply get_api_key_returns in Hkey.
  unfold bind at 1, getenv at 1. rewrite Henv.
  destruct (environ w !! "CITY_NAME") as [city|] eqn:Hcity.
  2:{ exists []. rewrite app_nil_r. by split; [|left]. }
  destruct (truthy_str (Some city)) eqn:Htruthy.
  2:{ exists []. rewrite app_nil_r. by split; [|left]. }
  apply truthy_str_true in Htruthy as (? & [= <-] & Hcity_ne).
  cbn [negb default from_option id].
  rewrite (bind_ret _ _ _ _ _ (print_run _ _)).
  set (w3 := set_stdout _ w2).
  unfold bind at 1.
  pose proof (fetch_weather_data_sent key city w3) as Hfetch.
  exists [forecast_request key city]. split; [|right; by exists key, city].
  destruct (fetch_weather_data key city w3) as [[data|e] w4]; simpl in Hfetch.
  - match goal with
    | |- sent (?m w4).2 = _ => assert (sends_nothing m) as Htail
    end.
    { destruct (Py.truthy data); [|by intros ?].
      apply sends_nothing_bind; [by intros ?|intros _].
      apply sends_nothing_bind;
        [apply process_forecast_data_sends_nothing
        |intros [[ts temps feels hums speeds labels]|]];
        [|by intros ?].
      destruct (rendering_sends_nothing ts temps feels hums speeds labels city)
        as (Hdir & Ht & Hh & Hw & Hp).
      repeat (apply sends_nothing_bind; [done || by intros ? | intros _]).
      by intros ?. }
    by rewrite Htail, Hfetch, Hsent.
  - simpl. by rewrite Hfetch, Hsent.
Qed.

(** X16. A run issues at most one request, and none before a key and a
    city are known: the requests sent are those of before, or those followed
    by the one forecast request, which carries a key that is not empty and
    the city named by the environment. *)
Theorem main_one_request fromtimestamp w :
  sent (main fromtimestamp w).2 = sent w
  ∨ ∃ key city,
      key ≠ "" ∧ city ≠ ""
      ∧ environ w !! "CITY_NAME" = Some city
      ∧ sent (main fromtimestamp w).2 = sent w ++ [forecast_request key city].
Proof.
  destruct (main_requests fromtimestamp w)
    as (l & Hsent & [-> | (key & city & Hkey & Hcity & Henv & ->)]).
  - left. by rewrite app_nil_r in Hsent.
  - right. by exists key, city.
Qed.

Section WholeRuns.

Variable fromtimestamp : json → result datetime.

Lemma pie_and_farewell_full labels city a b w :
  fs w !! PLOTS_DIR = Some Directory →
  fs w !! chart_path "weather_conditions_pie_chart.png" ≠ Some Directory →
  ∃ w',
    (plot_weather_conditions_pie labels city;; print a;; print b)%py w
    = (pie_chart_result labels, w')
    ∧ fs w' = pie_chart_on city labels (fs w)
    ∧ shown w' = shown w ++ pie_chart_shown city labels
    ∧ sent w' = sent w.
Proof.
  intros Hdir Hfile. unfold pie_chart_result, pie_chart_on, pie_chart_shown.
  destruct labels as [|l labels].
  - rewrite (bind_ret _ _ _ _ _ (plot_weather_conditions_pie_empty _ _)).
    eexists. split; [reflexivity|]. simpl. by rewrite app_nil_r.
  - destruct (collections.Counter (l :: labels)) as [counts|err] eqn:Hcount.
    + erewrite bind_ret
        by (by apply (plot_weather_conditions_pie_ok _ counts)).
      eexists. split; [reflexivity|]. done.
    + erewrite bind_raise
        by (by apply plot_weather_conditions_pie_unhashable).
      eexists. split; [reflexivity|]. by rewrite app_nil_r.
Qed.

(** The whole run on a response whose entries carry [points], with all it
    leaves behind. *)
Lemma main_points_run_full w api_key city d entries points :
  answered w api_key city (JDict d) →
  Py.dict_get "list" d = Some (JList entries) →
  Forall2 (well_formed_entry fromtimestamp) entries points →
  output_dir_usable w →
  ∃ w',
    main fromtimestamp w = (pie_chart_result (pt_condition <$> points), w')
    ∧ fs w' = pie_chart_on city (pt_condition <$> points)
                (line_charts_on city points (fs w))
    ∧ shown w' = shown w ++ line_figures city points
                 ++ pie_chart_shown city (pt_condition <$> points)
    ∧ sent w' = sent w ++ [forecast_request api_key city]
    ∧ environ w' = environ w
    ∧ server w' = server w.
Proof.
  intros Hanswered Hlist Hpoints Husable.
  assert (∃ w',
            main fromtimestamp w = (pie_chart_result (pt_condition <$> points), w')
            ∧ fs w' = pie_chart_on city (pt_condition <$> points)
                        (line_charts_on city points (fs w))
            ∧ shown w' = shown w ++ line_figures city points
                         ++ pie_chart_shown city (pt_condition <$> points)
            ∧ sent w' = sent w ++ [forecast_request api_key city])
    as (w' & Hmain & Hfs & Hshown & Hsent).
  { rewrite (main_answered _ _ _ _ _ Hanswered), (dict_get_truthy _ _ _ Hlist).
    rewrite (bind_ret _ _ _ _ _ (print_run _ _)).
    assert (∀ w0, process_forecast_data fromtimestamp (JDict d) w0
                  = (Return (Some (columns_of points)), w0)) as Hprocess.
    { intros w0. rewrite (process_forecast_data_list _ _ _ _ Hlist).
      by rewrite (process_entries_ok _ _ _ Hpoints). }
    rewrite (bind_ret _ _ _ _ _ (Hprocess _)).
    unfold columns_of at 1.
    edestruct (line_charts_run) as (w3 & Hrun & Hfs & Hshown & Hsent);
      [|rewrite Hrun].
    { eapply output_dir_usable_fs; [|exact Husable]. reflexivity. }
    cbn [fs shown sent fetched set_sent set_stdout] in Hfs, Hshown, Hsent.
    fold (line_charts_on city points (fs w)) in Hfs.
    fold (line_figures city points) in Hshown.
    destruct (pie_and_farewell_full (pt_condition <$> points) city
                (Str.nl +:+ "--- All visualizations saved in '" +:+ PLOTS_DIR
                 +:+ "' directory ---")
                "--- Script finished ---" w3)
      as (w' & Hpie & Hfs' & Hshown' & Hsent').
    { rewrite Hfs. apply line_charts_on_dir. }
    { rewrite Hfs, line_charts_on_pie. apply Husable. set_solver. }
    exists w'. split; [done|]. split_and!.
    - by rewrite Hfs', Hfs.
    - by rewrite Hshown', Hshown, <- app_assoc.
    - by rewrite Hsent', Hsent. }
  exists w'. pose proof (within_main fromtimestamp w) as Hwithin.
  rewrite Hmain in Hwithin. destruct Hwithin. by split_and!.
Qed.

End WholeRuns.

Lemma line_charts_on_union city points (files : gmap string node) :
  line_charts_on city points files = line_charts_on city points ∅ ∪ files.
Proof.
  unfold line_charts_on. rewrite <- !insert_union_l. by rewrite (left_id_L ∅ (∪)).
Qed.

Lemma pie_chart_on_union city labels (files : gmap string node) :
  pie_chart_on city labels files = pie_chart_on city labels ∅ ∪ files.
Proof.
  unfold pie_chart_on. destruct labels; [by rewrite (left_id_L ∅ (∪))|].
  destruct (collections.Counter _); [|by rewrite (left_id_L ∅ (∪))].
  rewrite <- insert_union_l. by rewrite (left_id_L ∅ (∪)).
Qed.

(** Writing the charts over the charts of the same data changes nothing. *)
Lemma charts_on_idempotent city points labels (files : gmap string node) :
  pie_chart_on city labels
    (line_charts_on city points
       (pie_chart_on city labels (line_charts_on city points files)))
  = pie_chart_on city labels (line_charts_on city points files).
Proof.
  rewrite (pie_chart_on_union _ _ (line_charts_on _ _ (pie_chart_on _ _ _))).
  rewrite (line_charts_on_union _ _ (pie_chart_on _ _ _)).
  rewrite (pie_chart_on_union _ _ (line_charts_on _ _ files)).
  rewrite (line_charts_on_union _ _ files).
  set (P := pie_chart_on city labels ∅). set (L := line_charts_on city points ∅).
  rewrite !(assoc_L (∪)).
  rewrite <- (assoc_L (∪) (P ∪ L) P L), (idemp_L (∪) (P ∪ L)). done.
Qed.

Lemma pie_chart_on_pie city labels (files : gmap string node) :
  files !! chart_path "weather_conditions_pie_chart.png" ≠ Some Directory →
  pie_chart_on city labels files !! chart_path "weather_conditions_pie_chart.png"
  ≠ Some Directory.
Proof.
  intros Hfile. unfold pie_chart_on. destruct labels; [done|].
  destruct (collections.Counter _); [|done]. by rewrite lookup_insert_eq.
Qed.

Lemma charts_on_usable city points labels w w' :
  output_dir_usable w →
  fs w' = pie_chart_on city labels (line_charts_on city points (fs w)) →
  output_dir_usable w'.
Proof.
  intros [_ Hfiles] Hfs. unfold output_dir_usable. rewrite Hfs. split.
  - right. rewrite pie_chart_on_other by paths_differ. apply line_charts_on_dir.
  - intros name Hname.
    destruct (line_charts_on_files city points (fs w)) as (Ht & Hh & Hw).
    unfold chart_names in Hname.
    repeat (apply elem_of_cons in Hname as [-> | Hname]);
      [..|by apply elem_of_nil in Hname].
    + rewrite pie_chart_on_other by paths_differ. by rewrite Ht.
    + rewrite pie_chart_on_other by paths_differ. by rewrite Hh.
    + rewrite pie_chart_on_other by paths_differ. by rewrite Hw.
    + apply pie_chart_on_pie. rewrite line_charts_on_pie. apply Hfiles. set_solver.
Qed.

(** X17. On a valid response the figures shown during the run are the
    temperature, humidity and wind speed figures of the observations, in that
    order, followed by the pie chart when it is drawn; the run issues the one
    forecast request, and the three line charts on disk hold the figures
    shown. *)
Theorem main_shows_what_it_saves fromtimestamp w api_key city d entries points :
  answered w api_key city (JDict d) →
  Py.dict_get "list" d = Some (JList entries) →
  Forall2 (well_formed_entry fromtimestamp) entries points →
  output_dir_usable w →
  shown (main fromtimestamp w).2
  = shown w ++ line_figures city points
    ++ pie_chart_shown city (pt_condition <$> points)
  ∧ sent (main fromtimestamp w).2 = sent w ++ [forecast_request api_key city]
  ∧ Forall2 (λ name fig,
               fs (main fromtimestamp w).2 !! chart_path name = Some (File fig))
            ["temperature_forecast.png"; "humidity_forecast.png";
             "wind_speed_forecast.png"]
            (line_figures city points)
  ∧ ∀ fig, pie_chart_shown city (pt_condition <$> points) = [fig] →
           fs (main fromtimestamp w).2 !! chart_path "weather_conditions_pie_chart.png"
           = Some (File fig).
Proof.
  intros Hanswered Hlist Hpoints Husable.
  destruct (main_points_run_full fromtimestamp _ _ _ _ _ _
              Hanswered Hlist Hpoints Husable)
    as (w' & -> & Hfs & Hshown & Hsent & _). cbn [snd].
  split_and!; try done.
  - rewrite Hfs.
    destruct (line_charts_on_files city points (fs w)) as (Ht & Hh & Hw).
    repeat apply Forall2_cons_2; [..|apply Forall2_nil_2];
      by rewrite pie_chart_on_other by paths_differ.
  - intros fig. rewrite Hfs. unfold pie_chart_shown, pie_chart_on.
    destruct (pt_condition <$> points); [done|].
    destruct (collections.Counter _); [|done].
    intros [= <-]. by rewrite lookup_insert_eq.
Qed.

(** X18. Running the script again on the same answer leaves the disk as the
    first run left it: the chart files are replaced by equal ones, under
    their fixed names, and the run ends the same way. *)
Theorem main_rerun_same_files fromtimestamp w api_key city d entries points :
  answered w api_key city (JDict d) →
  Py.dict_get "list" d = Some (JList entries) →
  Forall2 (well_formed_entry fromtimestamp) entries points →
  output_dir_usable w →
  (main fromtimestamp (main fromtimestamp w).2).1 = (main fromtimestamp w).1
  ∧ fs (main fromtimestamp (main fromtimestamp w).2).2 = fs (main fromtimestamp w).2.
Proof.
  intros Hanswered Hlist Hpoints Husable.
  destruct (main_points_run_full fromtimestamp _ _ _ _ _ _
              Hanswered Hlist Hpoints Husable)
    as (w1 & -> & Hfs & _ & _ & Henv & Hserver). cbn [fst snd].
  assert (answered w1 api_key city (JDict d)) as Hanswered1.
  { unfold answered in *. by rewrite Henv, Hserver. }
  pose proof (charts_on_usable _ _ _ _ _ Husable Hfs) as Husable1.
  destruct (main_points_run_full fromtimestamp _ _ _ _ _ _
              Hanswered1 Hlist Hpoints Husable1)
    as (w2 & -> & Hfs2 & _). cbn [fst snd].
  split; [done|]. rewrite Hfs2, Hfs. apply charts_on_idempotent.
Qed.

(** X19. [ensure_plots_dir] tests that the path exists, not that it is a
    directory: when a regular file has the name of the output directory it
    does nothing, and the first chart then fails.  The run ends with
    [NotADirectoryError]; nothing is written nor shown. *)
Theorem main_plots_dir_is_a_file fromtimestamp w api_key city d entries points content :
  answered w api_key city (JDict d) →
  Py.dict_get "list" d = Some (JList entries) →
  Forall2 (well_formed_entry fromtimestamp) entries points →
  fs w !! PLOTS_DIR = Some (File content) →
  ensure_plots_dir w = (Return tt, w)
  ∧ ∃ err w',
      main fromtimestamp w = (Raise err, w')
      ∧ exn_type err = NotADirectoryError
      ∧ fs w' = fs w
      ∧ shown w' = shown w.
Proof.
  intros Hanswered Hlist Hpoints Hfile.
  split; [by eapply ensure_plots_dir_present|].
  assert (main fromtimestamp w
          = (Raise (Exn NotADirectoryError
                      ("[Errno 20] Not a directory: '"
                       +:+ os.path_join PLOTS_DIR "temperature_forecast.png" +:+ "'")),
             set_stdout
               (stdout (fetched api_key city w)
                ++ ["Weather data fetched successfully.";
                    Str.nl +:+ "Generating and saving plots..."])
               (fetched api_key city w))) as Hmain.
  { rewrite (main_answered _ _ _ _ _ Hanswered), (dict_get_truthy _ _ _ Hlist).
    rewrite (bind_ret _ _ _ _ _ (print_run _ _)).
    assert (∀ w0, process_forecast_data fromtimestamp (JDict d) w0
                  = (Return (Some (columns_of points)), w0)) as Hprocess.
    { intros w0. rewrite (process_forecast_data_list _ _ _ _ Hlist).
      by rewrite (process_entries_ok _ _ _ Hpoints). }
    rewrite (bind_ret _ _ _ _ _ (Hprocess _)).
    unfold columns_of at 1.
    erewrite bind_ret by (by eapply ensure_plots_dir_present).
    rewrite (bind_ret _ _ _ _ _ (print_run _ _)).
    apply bind_raise. unfold plot_temperature_forecast. apply bind_raise.
    unfold plt.savefig. cbn [fs stdout set_stdout fetched set_sent].
    rewrite Hfile, <- app_assoc. reflexivity. }
  eexists _, _. split; [exact Hmain|]. done.
Qed.

Lemma Counter_update_raises l :
  ∀ c err, collections.update c l = Raise err →
           exn_type err = TypeError ∧ ∃ x, x ∈ l ∧ collections.hashable x = false.
Proof.
  induction l as [|x l IH]; intros c err; simpl; [done|].
  destruct (collections.hashable x) eqn:Hx.
  - intros Hrun. apply IH in Hrun as (? & y & ? & ?).
    split; [done|]. exists y. split; [by right | done].
  - intros [= <-]. split; [done|]. exists x. split; [by left | done].
Qed.

Lemma Counter_update_unhashable l x :
  x ∈ l → collections.hashable x = false →
  ∀ c, ∃ err, collections.update c l = Raise err.
Proof.
  intros Hin Hx. induction Hin as [x l | x y l _ IH]; intros c; simpl.
  - rewrite Hx. by eexists.
  - destruct (collections.hashable y); [apply IH; done | by eexists].
Qed.

(** X20. A label that is a list or a dictionary cannot be counted: on a
    response with such a "main" under a condition, the run writes the three
    line charts and then ends with [TypeError] at the pie chart; the pie
    chart is neither written nor shown. *)
Theorem main_unhashable_label fromtimestamp w api_key city d entries points label :
  answered w api_key city (JDict d) →
  Py.dict_get "list" d = Some (JList entries) →
  Forall2 (well_formed_entry fromtimestamp) entries points →
  output_dir_usable w →
  label ∈ pt_condition <$> points →
  collections.hashable label = false →
  ∃ err w',
    main fromtimestamp w = (Raise err, w')
    ∧ exn_type err = TypeError
    ∧ fs w' = line_charts_on city points (fs w)
    ∧ shown w' = shown w ++ line_figures city points.
Proof.
  intros Hanswered Hlist Hpoints Husable Hin Hlabel.
  destruct (main_points_run_full fromtimestamp _ _ _ _ _ _
              Hanswered Hlist Hpoints Husable)
    as (w' & Hmain & Hfs & Hshown & _).
  destruct (Counter_update_unhashable _ _ Hin Hlabel []) as [err Hcount].
  fold (collections.Counter (pt_condition <$> points)) in Hcount.
  unfold pie_chart_result, pie_chart_on, pie_chart_shown in *.
  rewrite Hcount in *.
  exists err, w'. split; [done|].
  split; [by apply (Counter_update_raises _ _ _ Hcount)|].
  destruct (pt_condition <$> points); [by apply elem_of_nil in Hin|].
  split; [done|]. by rewrite Hshown, app_nil_r.
Qed.

(** X21. On a disk that refuses no creation (the file system modelled has
    no permissions), [ensure_plots_dir] never fails and leaves the output path
    in place; no other path changes, and a path that was there is left
    untouched.  Running it a second time changes nothing. *)
Theorem ensure_plots_dir_idempotent w :
  ∃ w1,
    ensure_plots_dir w = (Return tt, w1)
    ∧ is_Some (fs w1 !! PLOTS_DIR)
    ∧ (∀ p, p ≠ PLOTS_DIR → fs w1 !! p = fs w !! p)
    ∧ (is_Some (fs w !! PLOTS_DIR) → w1 = w)
    ∧ ensure_plots_dir w1 = (Return tt, w1).
Proof.
  destruct (fs w !! PLOTS_DIR) as [n|] eqn:Hdir.
  - exists w. rewrite (ensure_plots_dir_present _ _ Hdir), Hdir.
    split_and!; eauto.
  - eexists. rewrite (ensure_plots_dir_absent _ Hdir). split; [done|].
    cbn [fs set_stdout set_fs]. split_and!.
    + rewrite lookup_insert_eq. eauto.
    + intros p Hp. by rewrite lookup_insert_ne.
    + by intros [? ?].
    + eapply ensure_plots_dir_present. cbn [fs set_stdout set_fs].
      apply lookup_insert_eq.
Qed.

(** ** The histogram of the pie chart *)

Lemma Counter_add_total x c :
  total (collections.add x c).*2 = (total c.*2 + 1)%N.
Proof.
  induction c as [|[k n] c IH]; csimpl; [done|].
  destruct (collections.same_key k x); csimpl; unfold total in *; simpl; [lia|].
  rewrite IH. lia.
Qed.

Lemma Counter_add_positive x c :
  Forall (λ n, (0 < n)%N) c.*2 → Forall (λ n, (0 < n)%N) (collections.add x c).*2.
Proof.
  induction c as [|[k n] c IH]; csimpl; intros Hc.
  - repeat constructor.
  - apply Forall_cons in Hc as [Hn Hc].
    destruct (collections.same_key k x); csimpl; constructor; auto. lia.
Qed.

Lemma Counter_add_keys x c k :
  k ∈ (collections.add x c).*1 → k = x ∨ k ∈ c.*1.
Proof.
  induction c as [|[k' n] c IH]; csimpl.
  - intros ->%list_elem_of_singleton. by left.
  - destruct (collections.same_key k' x); csimpl; [by right|].
    intros [->|Hin]%elem_of_cons; [right; by left|].
    destruct (IH Hin); [by left | right; by right].
Qed.

Lemma Counter_update_total l :
  ∀ c c', collections.update c l = Return c' →
          total c'.*2 = (total c.*2 + N.of_nat (length l))%N
          ∧ (Forall (λ n, (0 < n)%N) c.*2 → Forall (λ n, (0 < n)%N) c'.*2)
          ∧ (∀ k, k ∈ c'.*1 → k ∈ l ∨ k ∈ c.*1).
Proof.
  induction l as [|x l IH]; intros c c'; simpl.
  - intros [= <-]. split_and!; auto. lia.
  - destruct (collections.hashable x); [|done]. intros Hrun.
    apply IH in Hrun as (Htotal & Hpos & Hkeys). split_and!.
    + rewrite Htotal, Counter_add_total. lia.
    + intros Hc. by apply Hpos, Counter_add_positive.
    + intros k Hk. destruct (Hkeys k Hk) as [Hin|Hin]; [left; by right|].
      destruct (Counter_add_keys _ _ _ Hin) as [->|]; [left; by left | by right].
Qed.

(** X22. The pie chart drawn from a list of labels has as many sizes as
    slice labels, no slice is empty, every slice label is one of the labels
    given, and the sizes add up to the number of labels: every entry is
    counted once. *)
Theorem pie_chart_counts_every_label labels counts city :
  collections.Counter labels = Return counts →
  ∃ sizes keys colors autopct startangle title,
    conditions_figure counts city
    = PieChart sizes keys colors autopct startangle title
    ∧ length sizes = length keys
    ∧ total sizes = N.of_nat (length labels)
    ∧ Forall (λ n, (0 < n)%N) sizes
    ∧ ∀ k, k ∈ keys → k ∈ labels.
Proof.
  intros Hcount. unfold conditions_figure.
  eexists _, _, _, _, _, _. split; [reflexivity|].
  apply Counter_update_total in Hcount as (Htotal & Hpos & Hkeys).
  split_and!.
  - by rewrite !length_fmap.
  - by rewrite Htotal.
  - apply Hpos. constructor.
  - intros k Hk. destruct (Hkeys k Hk) as [|Hin]; [done|].
    by apply elem_of_nil in Hin.
Qed.

Lemma tally_add s s' c :
  string_keys c →
  tally s' (collections.add (JStr s) c)
  = (tally s' c + if decide (s = s') then 1 else 0)%N.
Proof.
  induction c as [|[k n] c IH]; intros Hc.
  - simpl. destruct (String.eqb_spec s s'); by case_decide.
  - apply Forall_cons in Hc as [[t Ht] Hc]. simpl in Ht. subst k.
    cbn [collections.add collections.same_key].
    destruct (String.eqb_spec t s) as [->|Hts]; cbn [tally collections.same_key].
    + destruct (String.eqb_spec s s'); case_decide; try done; lia.
    + destruct (String.eqb_spec t s'); [|by apply IH].
      case_decide; [congruence | lia].
Qed.

Lemma string_keys_add s c : string_keys c → string_keys (collections.add (JStr s) c).
Proof.
  induction c as [|[k n] c IH]; intros Hc; simpl.
  - repeat constructor. by exists s.
  - apply Forall_cons in Hc as [Hk Hc].
    destruct (collections.same_key k (JStr s)); constructor; simpl in *; auto.
    by apply IH.
Qed.

Lemma add_keys s s' c :
  string_keys c →
  JStr s' ∈ (collections.add (JStr s) c).*1 ↔ s' = s ∨ JStr s' ∈ c.*1.
Proof.
  induction c as [|[k n] c IH]; intros Hc; csimpl.
  - rewrite list_elem_of_singleton, elem_of_nil.
    split; [intros [= ->]; by left | intros [-> | []]; done].
  - apply Forall_cons in Hc as [[t Ht] Hc]. simpl in Ht. subst k.
    cbn [collections.same_key].
    destruct (String.eqb_spec t s) as [->|Hts]; csimpl.
    + rewrite !elem_of_cons.
      split; [intros [[= ->] | ?]; auto | intros [-> | [? | ?]]; auto].
    + rewrite !elem_of_cons, (IH Hc).
      split; [intros [? | [? | ?]]; auto | intros [? | [? | ?]]; auto].
Qed.

Lemma NoDup_add s c :
  string_keys c → NoDup c.*1 → NoDup (collections.add (JStr s) c).*1.
Proof.
  induction c as [|[k n] c IH]; intros Hc Hnodup; csimpl.
  - apply NoDup_singleton.
  - pose proof Hc as Hc0.
    apply Forall_cons in Hc as [[t Ht] Hc]. simpl in Ht. subst k.
    apply NoDup_cons in Hnodup as [Hnotin Hnodup].
    cbn [collections.same_key].
    destruct (String.eqb_spec t s) as [->|Hts]; csimpl.
    + by apply NoDup_cons.
    + apply NoDup_cons. split; [|by apply IH].
      rewrite (add_keys _ _ _ Hc). intros [-> | ?]; done.
Qed.

Lemma tally_elem_of s n c :
  string_keys c → NoDup c.*1 →
  (JStr s, n) ∈ c ↔ JStr s ∈ c.*1 ∧ tally s c = n.
Proof.
  induction c as [|[k m] c IH]; intros Hc Hnodup; csimpl.
  - rewrite !elem_of_nil. split; [done | by intros [[] _]].
  - apply Forall_cons in Hc as [[t Ht] Hc]. simpl in Ht. subst k.
    apply NoDup_cons in Hnodup as [Hnotin Hnodup].
    cbn [collections.same_key]. rewrite !elem_of_cons, (IH Hc Hnodup).
    destruct (String.eqb_spec t s) as [->|Hts].
    + split.
      * intros [[= ->] | [Hin _]]; [by auto | done].
      * intros [_ ->]. by left.
    + split.
      * intros [[= ? _] | [Hin Htally]]; [congruence | by auto].
      * intros [[[= ?] | Hin] Htally]; [congruence | by auto].
Qed.

Lemma occurrences_snoc s x l :
  occurrences s (l ++ [x]) = (occurrences s l + if decide (x = s) then 1 else 0)%nat.
Proof.
  unfold occurrences. rewrite filter_app, length_app. f_equal.
  rewrite filter_cons, filter_nil. by case_decide.
Qed.

Lemma occurrences_positive s l : s ∈ l ↔ (0 < occurrences s l)%nat.
Proof.
  unfold occurrences. induction l as [|x l IH].
  - rewrite elem_of_nil. simpl. lia.
  - rewrite elem_of_cons, filter_cons. case_decide; simpl.
    + split; [lia | by left].
    + rewrite IH. split; [by intros [-> | ?] | by right].
Qed.

Lemma counted_add pre s c :
  counted pre c → counted (pre ++ [s]) (collections.add (JStr s) c).
Proof.
  intros (Hkeys & Hnodup & Hdom & Htally). split_and!.
  - by apply string_keys_add.
  - by apply NoDup_add.
  - intros s'. rewrite (add_keys _ _ _ Hkeys), Hdom, elem_of_app,
      list_elem_of_singleton.
    split; [intros [? | ?]; auto | intros [? | ?]; auto].
  - intros s'. rewrite (tally_add _ _ _ Hkeys), Htally, occurrences_snoc.
    case_decide; lia.
Qed.

Lemma counted_update l :
  ∀ pre c, counted pre c →
           ∃ c', collections.update c (JStr <$> l) = Return c'
                 ∧ counted (pre ++ l) c'.
Proof.
  induction l as [|s l IH]; intros pre c Hc; csimpl.
  - exists c. by rewrite app_nil_r.
  - destruct (IH (pre ++ [s]) _ (counted_add _ s _ Hc)) as (c' & Hrun & Hc').
    exists c'. split; [done|]. by rewrite <- app_assoc in Hc'.
Qed.

Lemma Counter_strings l :
  ∃ c, collections.Counter (JStr <$> l) = Return c
       ∧ NoDup c.*1
       ∧ ∀ k n, (k, n) ∈ c
                ↔ ∃ s, k = JStr s ∧ s ∈ l ∧ n = N.of_nat (occurrences s l).
Proof.
  destruct (counted_update l [] []) as (c & Hrun & Hkeys & Hnodup & Hdom & Htally).
  { split_and!; try done.
    - constructor.
    - constructor.
    - intros s. by rewrite !elem_of_nil. }
  exists c. split; [done|]. split; [done|]. simpl in *.
  intros k n. split.
  - intros Hin.
    pose proof (proj1 (Forall_forall _ _) Hkeys _ Hin) as [s Hs]. simpl in Hs.
    subst k. exists s. split; [done|].
    apply (tally_elem_of _ _ _ Hkeys Hnodup) in Hin as [Hin <-].
    by rewrite <- Hdom, Htally.
  - intros (s & -> & Hin & ->).
    apply (tally_elem_of _ _ _ Hkeys Hnodup). by rewrite Hdom, Htally.
Qed.

(** X23. For labels that are strings the counting never fails, and the
    histogram has one slice for each distinct label, sized by the number of
    times the label occurs. *)
Theorem pie_chart_histogram (labels : list string) :
  ∃ counts,
    collections.Counter (JStr <$> labels) = Return counts
    ∧ NoDup counts.*1
    ∧ ∀ k n, (k, n) ∈ counts
             ↔ ∃ s, k = JStr s ∧ s ∈ labels
                    ∧ n = N.of_nat (occurrences s labels).
Proof. apply Counter_strings. Qed.

(** ** White space around a key typed at the prompt *)

(** X7. A key typed at the prompt is returned without the white space
    around it: it neither starts nor ends with a white-space character, of
    ASCII or of Unicode, and stripping it again, on the left or on the right,
    changes nothing.  A key of the environment is returned as it is, white
    space included. *)
Theorem get_api_key_stripped w key w' :
  get_api_key w = (Return key, w') →
  (truthy_str (environ w !! "OPENWEATHERMAP_API_KEY") = false →
   Str.lstrip key = key ∧ Str.rstrip key = key
   ∧ ∀ cp rest, Str.isspace cp = true →
                key ≠ Str.utf8 cp +:+ rest ∧ key ≠ rest +:+ Str.utf8 cp)
  ∧ (truthy_str (environ w !! "OPENWEATHERMAP_API_KEY") = true →
     environ w !! "OPENWEATHERMAP_API_KEY" = Some key).
Proof.
  unfold get_api_key, bind, getenv, ret, print, input, exit, raise.
  destruct (truthy_str (environ w !! _)) eqn:Henv; simpl.
  - rewrite Henv. simpl. intros [= <- _]. split; [done|]. intros _.
    apply truthy_str_true in Henv as (s & -> & _). done.
  - destruct (stdin w) as [|line rest]; simpl; [done|].
    destruct (Str.is_empty (Str.strip line)); simpl; [done|].
    intros [= <- _]. split; [|done]. intros _.
    destruct (strip_stripped line) as [Hl Hr]. split_and!; [done..|].
    intros cp rest'. by apply stripped_no_space.
Qed.

(** ** Composition *)

Lemma process_forecast_data_result fromtimestamp data w w' :
  (process_forecast_data fromtimestamp data w').1
  = (process_forecast_data fromtimestamp data w).1.
Proof.
  unfold process_forecast_data, bind, lift, print, ret.
  destruct (negb (Py.truthy data)); simpl; [done|].
  destruct (Py.contains "list" data) as [[]|]; simpl; try done.
  destruct (Py.getitem data "list") as [forecast|]; simpl; [|done].
  destruct (Py.iter forecast) as [entries|]; simpl; [|done].
  by destruct (process_entries _ _ _).
Qed.

(** X24. An error of the transformation is not handled by [main]: it ends
    the run, after the retrieval was reported as successful and before the
    output directory is looked at; no chart is written nor shown. *)
Theorem main_transformation_error fromtimestamp w api_key city data err :
  answered w api_key city data →
  (process_forecast_data fromtimestamp data w).1 = Raise err →
  ∃ w', main fromtimestamp w = (Raise err, w')
        ∧ fs w' = fs w
        ∧ shown w' = shown w
        ∧ last (stdout w') = Some "Weather data fetched successfully.".
Proof.
  intros Hanswered Hraise.
  assert (Py.truthy data = true) as Htruthy.
  { revert Hraise. unfold process_forecast_data, bind, lift.
    by destruct (Py.truthy data). }
  rewrite (main_answered _ _ _ _ _ Hanswered), Htruthy.
  rewrite (bind_ret _ _ _ _ _ (print_run _ _)).
  set (w1 := set_stdout _ _).
  pose proof (process_forecast_data_result fromtimestamp data w w1) as Hresult.
  pose proof (process_forecast_data_draws_nothing fromtimestamp data w1) as [Hfs Hshown].
  assert ((process_forecast_data fromtimestamp data w1).1 ≠ Return None) as Hsome
    by (rewrite Hresult, Hraise; done).
  pose proof (proj2 (proj2 (process_forecast_data_absent_world fromtimestamp data w1))
                Hsome) as Hworld.
  rewrite Hraise in Hresult. unfold bind at 1.
  destruct (process_forecast_data fromtimestamp data w1) as [r w2]; simpl in *.
  subst r w2. eexists. split; [reflexivity|]. split_and!; try done.
  unfold w1. cbn [stdout set_stdout]. by rewrite last_snoc.
Qed.

Lemma columns_app_assoc a b c :
  columns_app (columns_app a b) c = columns_app a (columns_app b c).
Proof. unfold columns_app; simpl. by rewrite <- !app_assoc. Qed.

Lemma columns_app_nil_l a : columns_app (Columns [] [] [] [] [] []) a = a.
Proof. by destruct a. Qed.

Section Accumulator.

Variable fromtimestamp : json → result datetime.

(** The lists built so far take no part in the reading of an entry. *)
Lemma process_entry_acc acc e :
  process_entry fromtimestamp acc e
  = rbind (process_entry fromtimestamp (Columns [] [] [] [] [] []) e)
          (λ c, Return (columns_app acc c)).
Proof.
  unfold process_entry.
  repeat (cbn [rbind];
          lazymatch goal with
          | |- rbind ?r _ = _ => destruct r
          | _ => fail
          end);
    reflexivity.
Qed.

Lemma process_entries_acc es :
  ∀ acc,
    process_entries fromtimestamp acc es
    = rbind (process_entries fromtimestamp (Columns [] [] [] [] [] []) es)
            (λ c, Return (columns_app acc c)).
Proof.
  induction es as [|e es IH]; intros acc; cbn [process_entries rbind].
  - by rewrite columns_app_nil_r.
  - rewrite (process_entry_acc acc e).
    destruct (process_entry fromtimestamp _ e) as [c1|]; cbn [rbind]; [|done].
    rewrite (IH (columns_app acc c1)), (IH c1).
    destruct (process_entries fromtimestamp _ es) as [c2|]; cbn [rbind]; [|done].
    by rewrite columns_app_assoc.
Qed.

End Accumulator.

(** X25. The transformation works entry by entry: on the concatenation of
    two forecast lists it returns the columns of the first followed by those
    of the second; when one of them raises, the first error is the error of
    the whole. *)
Theorem process_forecast_data_concatenation fromtimestamp d1 d2 d l1 l2 w :
  Py.dict_get "list" d1 = Some (JList l1) →
  Py.dict_get "list" d2 = Some (JList l2) →
  Py.dict_get "list" d = Some (JList (l1 ++ l2)) →
  (process_forecast_data fromtimestamp (JDict d) w).1
  = match (process_forecast_data fromtimestamp (JDict d1) w).1 with
    | Return (Some c1) =>
        match (process_forecast_data fromtimestamp (JDict d2) w).1 with
        | Return (Some c2) => Return (Some (columns_app c1 c2))
        | r2 => r2
        end
    | r1 => r1
    end.
Proof.
  intros H1 H2 H.
  rewrite (process_forecast_data_list _ _ _ _ H1),
    (process_forecast_data_list _ _ _ _ H2), (process_forecast_data_list _ _ _ _ H).
  rewrite process_entries_app.
  destruct (process_entries fromtimestamp _ l1) as [c1|]; cbn [rbind fst]; [|done].
  rewrite (process_entries_acc _ l2 c1).
  by destruct (process_entries fromtimestamp _ l2).
Qed.

(** ** The further properties on sample runs *)

(** X2 on a body whose decoding raises a plain [ValueError]. *)
Lemma fetch_weather_data_escapes_witness :
  isinstance (Exn ValueError "Expecting value") RequestException = false
  ∧ isinstance (Exn ValueError "Expecting value") JSONDecodeError = false
  ∧ stdout (fetch_weather_data "ABC" "Paris" (Sample.garbled ValueError)).2 = []
  ∧ (server (Sample.garbled ValueError) (forecast_request "ABC" "Paris")
     = Raise (Exn ValueError "Expecting value")
     ∨ (∃ r, server (Sample.garbled ValueError) (forecast_request "ABC" "Paris")
             = Return r
             ∧ requests.raise_for_status r = Return tt
             ∧ json_body r = Raise (Exn ValueError "Expecting value"))
     ∨ (∃ e, server (Sample.garbled ValueError) (forecast_request "ABC" "Paris")
             = Raise e
             ∧ isinstance e HTTPError = true
             ∧ exn_type (Exn ValueError "Expecting value") = UnboundLocalError)).
Proof.
  apply (fetch_weather_data_escapes "ABC" "Paris" (Sample.garbled ValueError)).
  reflexivity.
Defined.

(** X3 on the scenario of three entries. *)
Lemma fetch_weather_data_silent_witness :
  fetch_weather_data "ABC" "Paris"
    (Sample.scenario (Sample.forecast Sample.three_entries))
  = (Return (Sample.forecast Sample.three_entries),
     set_sent [forecast_request "ABC" "Paris"]
       (Sample.scenario (Sample.forecast Sample.three_entries))).
Proof.
  apply (proj2 (fetch_weather_data_silent "ABC" "Paris"
                  (Sample.scenario (Sample.forecast Sample.three_entries))
                  (Sample.forecast Sample.three_entries))).
  eexists. split_and!; [reflexivity | simpl; lia | reflexivity].
Defined.

(** X4 on a key typed between a no-break space and an em space. *)
Lemma get_api_key_source_witness :
  (environ (Cases.typed Cases.padded_key) !! "OPENWEATHERMAP_API_KEY" = Some "sk-1"
   ∧ (get_api_key (Cases.typed Cases.padded_key)).2 = Cases.typed Cases.padded_key)
  ∨ (truthy_str (environ (Cases.typed Cases.padded_key) !! "OPENWEATHERMAP_API_KEY") = false
     ∧ ∃ line rest,
         stdin (Cases.typed Cases.padded_key) = line :: rest
         ∧ "sk-1" = Str.strip line
         ∧ stdin (get_api_key (Cases.typed Cases.padded_key)).2 = rest
         ∧ stdout (get_api_key (Cases.typed Cases.padded_key)).2
           = stdout (Cases.typed Cases.padded_key)
             ++ ["OpenWeatherMap API key not found in .env file or environment variables.";
                 "Please enter your OpenWeatherMap API key: "]).
Proof.
  apply (get_api_key_source (Cases.typed Cases.padded_key) "sk-1"
           (get_api_key (Cases.typed Cases.padded_key)).2).
  reflexivity.
Defined.

(** X6 on an empty environment with nothing to read. *)
Lemma get_api_key_end_of_input_witness :
  get_api_key (Sample.offline [])
  = (Raise (Exn EOFError "EOF when reading a line"),
     set_stdout
       ["OpenWeatherMap API key not found in .env file or environment variables.";
        "Please enter your OpenWeatherMap API key: "] (Sample.offline [])).
Proof.
  apply (get_api_key_end_of_input (Sample.offline [])); reflexivity.
Defined.

(** X7 on a key typed between a no-break space and an em space. *)
Lemma get_api_key_stripped_witness :
  Str.lstrip "sk-1" = "sk-1" ∧ Str.rstrip "sk-1" = "sk-1"
  ∧ ∀ cp rest, Str.isspace cp = true →
               "sk-1" ≠ Str.utf8 cp +:+ rest ∧ "sk-1" ≠ rest +:+ Str.utf8 cp.
Proof.
  apply (proj1 (get_api_key_stripped (Cases.typed Cases.padded_key) "sk-1"
                  (get_api_key (Cases.typed Cases.padded_key)).2 eq_refl)).
  reflexivity.
Defined.

(** X8 on the forecast of three entries. *)
Lemma process_forecast_data_returns_iff_witness :
  ∃ d forecast entries points,
    Sample.forecast Sample.three_entries = JDict d
    ∧ Py.dict_get "list" d = Some forecast
    ∧ Py.iter forecast = Return entries
    ∧ Forall2 (entry_reads Utc.fromtimestamp) entries points
    ∧ columns_of Sample.three_points = columns_of points.
Proof.
  apply (proj1 (process_forecast_data_returns_iff Utc.fromtimestamp
                  (Sample.forecast Sample.three_entries) (Sample.offline [])
                  (columns_of Sample.three_points))).
  reflexivity.
Defined.

(** X9 on the forecast of three entries. *)
Lemma process_forecast_data_equal_lengths_witness :
  ∃ forecast entries,
    Py.getitem (Sample.forecast Sample.three_entries) "list" = Return forecast
    ∧ Py.iter forecast = Return entries
    ∧ 3%nat = length entries ∧ 3%nat = length entries ∧ 3%nat = length entries
    ∧ 3%nat = length entries ∧ 3%nat = length entries ∧ 3%nat = length entries.
Proof.
  apply (process_forecast_data_equal_lengths Utc.fromtimestamp
           (Sample.forecast Sample.three_entries) (Sample.offline [])
           (columns_of Sample.three_points)).
  reflexivity.
Defined.

(** X10 on a body without a forecast list. *)
Lemma process_forecast_data_absent_iff_witness :
  (process_forecast_data Utc.fromtimestamp (JDict Sample.no_list) (Sample.offline [])).1
  = Return None
  ∧ (process_forecast_data Utc.fromtimestamp (JDict Sample.no_list) (Sample.offline [])).2
    = set_stdout ["Error: Invalid or empty data received from API."] (Sample.offline [])
  ∧ (process_forecast_data Utc.fromtimestamp (Sample.forecast []) (Sample.offline [])).2
    = Sample.offline [].
Proof.
  split_and!.
  - apply (proj2 (proj1 (process_forecast_data_absent_iff Utc.fromtimestamp
                           (JDict Sample.no_list) (Sample.offline [])))).
    right. reflexivity.
  - apply (proj1 (proj2 (process_forecast_data_absent_iff Utc.fromtimestamp
                           (JDict Sample.no_list) (Sample.offline [])))).
    reflexivity.
  - apply (proj2 (proj2 (process_forecast_data_absent_iff Utc.fromtimestamp
                           (Sample.forecast []) (Sample.offline [])))).
    discriminate.
Defined.

(** X11 on a list that holds the string "list". *)
Lemma process_forecast_data_not_a_dict_witness :
  (Py.contains "list" (JList [JStr "list"; JInt 3]) = Return false
   ∧ (process_forecast_data Utc.fromtimestamp (JList [JStr "list"; JInt 3])
        (Sample.offline [])).1 = Return None)
  ∨ ∃ err, (process_forecast_data Utc.fromtimestamp (JList [JStr "list"; JInt 3])
              (Sample.offline [])).1 = Raise err
           ∧ exn_type err = TypeError.
Proof.
  apply (process_forecast_data_not_a_dict Utc.fromtimestamp
           (JList [JStr "list"; JInt 3]) (Sample.offline [])).
  - discriminate.
  - reflexivity.
Defined.

(** X12 on a forecast list that is null. *)
Lemma process_forecast_data_list_not_a_list_witness :
  ((JNull = JDict [] ∨ JNull = JStr "")
   ∧ process_forecast_data Utc.fromtimestamp (JDict [("list", JNull)]) (Sample.offline [])
     = (Return (Some (Columns [] [] [] [] [] [])), Sample.offline []))
  ∨ ∃ err, process_forecast_data Utc.fromtimestamp (JDict [("list", JNull)])
             (Sample.offline [])
           = (Raise err, Sample.offline [])
           ∧ exn_type err = TypeError.
Proof.
  apply (process_forecast_data_list_not_a_list Utc.fromtimestamp
           [("list", JNull)] JNull (Sample.offline [])).
  - reflexivity.
  - discriminate.
Defined.

Lemma no_city_falsy : truthy_str (environ Cases.no_city !! "CITY_NAME") = false.
Proof. reflexivity. Qed.

Lemma taken_answered :
  answered Cases.taken "ABC" "Paris" (Sample.forecast Sample.three_entries).
Proof.
  unfold answered. split_and!; try done.
  eexists. split_and!; reflexivity.
Qed.

Lemma listed_entry_point :
  Forall2 (well_formed_entry Utc.fromtimestamp) [Cases.listed_entry] [Cases.listed_point].
Proof.
  apply Forall2_cons_2; [|apply Forall2_nil_2].
  econstructor; [reflexivity..|]. by constructor.
Qed.

(** X13 on the scenario of three entries, at a path the script does not
    name. *)
Lemma main_footprint_witness :
  environ (main Utc.fromtimestamp
             (Sample.scenario (Sample.forecast Sample.three_entries))).2
  = environ (Sample.scenario (Sample.forecast Sample.three_entries))
  ∧ fs (main Utc.fromtimestamp
          (Sample.scenario (Sample.forecast Sample.three_entries))).2 !! "notes.txt"
    = fs (Sample.scenario (Sample.forecast Sample.three_entries)) !! "notes.txt".
Proof.
  pose proof (main_footprint Utc.fromtimestamp
                (Sample.scenario (Sample.forecast Sample.three_entries)))
    as (Henv & _ & _ & _ & _ & _ & Hother & _).
  split; [exact Henv|].
  apply Hother. vm_compute. intros H.
  repeat (apply elem_of_cons in H as [H|H]; [discriminate H|]).
  by apply elem_of_nil in H.
Defined.

(** X14 on an environment that names a key and no city. *)
Lemma main_without_city_witness :
  sent (main Utc.fromtimestamp Cases.no_city).2 = []
  ∧ main Utc.fromtimestamp Cases.no_city
    = (Return tt,
       set_stdout ["--- Weather Data Visualizer ---";
                   "City name cannot be empty. Exiting."] Cases.no_city).
Proof.
  pose proof (main_without_city Utc.fromtimestamp Cases.no_city no_city_falsy)
    as (Hsent & _ & _ & Hrun).
  split; [exact Hsent|].
  apply (Hrun "ABC"); [reflexivity|discriminate].
Defined.

(** X15 on a city the server does not know. *)
Lemma main_nothing_retrieved_witness :
  ∃ w', main Utc.fromtimestamp Sample.nowhereville = (Return tt, w')
        ∧ fs w' = fs Sample.nowhereville
        ∧ shown w' = shown Sample.nowhereville
        ∧ sent w' = sent Sample.nowhereville ++ [forecast_request "ABC" "Nowhereville"]
        ∧ last (stdout w')
          = Some ("Could not retrieve weather data for " +:+ Str.title "Nowhereville"
                  +:+ ". Please check the city name and your API key.").
Proof.
  apply (main_nothing_retrieved Utc.fromtimestamp Sample.nowhereville
           "ABC" "Nowhereville" JNull);
    solve [reflexivity | discriminate].
Defined.

(** X17 on the scenario of three entries. *)
Lemma main_shows_what_it_saves_witness :
  shown (main Utc.fromtimestamp
           (Sample.scenario (Sample.forecast Sample.three_entries))).2
  = line_figures "Paris" Sample.three_points
    ++ pie_chart_shown "Paris" (pt_condition <$> Sample.three_points)
  ∧ sent (main Utc.fromtimestamp
            (Sample.scenario (Sample.forecast Sample.three_entries))).2
    = [forecast_request "ABC" "Paris"].
Proof.
  pose proof (main_shows_what_it_saves Utc.fromtimestamp
                (Sample.scenario (Sample.forecast Sample.three_entries))
                "ABC" "Paris" _ Sample.three_entries Sample.three_points
                (scenario_answered _) eq_refl three_entries_points
                (scenario_output_dir_usable _)) as (Hshown & Hsent & _).
  split; [exact Hshown | exact Hsent].
Defined.

(** X18 on the scenario of three entries. *)
Lemma main_rerun_same_files_witness :
  fs (main Utc.fromtimestamp
        (main Utc.fromtimestamp
           (Sample.scenario (Sample.forecast Sample.three_entries))).2).2
  = fs (main Utc.fromtimestamp
          (Sample.scenario (Sample.forecast Sample.three_entries))).2.
Proof.
  apply (main_rerun_same_files Utc.fromtimestamp
           (Sample.scenario (Sample.forecast Sample.three_entries))
           "ABC" "Paris" _ Sample.three_entries Sample.three_points
           (scenario_answered _) eq_refl three_entries_points
           (scenario_output_dir_usable _)).
Defined.

(** X19 on a disk with a regular file named as the output directory. *)
Lemma main_plots_dir_is_a_file_witness :
  ensure_plots_dir Cases.taken = (Return tt, Cases.taken)
  ∧ ∃ err w',
      main Utc.fromtimestamp Cases.taken = (Raise err, w')
      ∧ exn_type err = NotADirectoryError
      ∧ fs w' = fs Cases.taken
      ∧ shown w' = shown Cases.taken.
Proof.
  apply (main_plots_dir_is_a_file Utc.fromtimestamp Cases.taken
           "ABC" "Paris" _ Sample.three_entries Sample.three_points
           (PieChart [] [] [] "" 0 "")
           taken_answered eq_refl three_entries_points).
  reflexivity.
Defined.

(** X20 on an entry whose condition names its category by a list. *)
Lemma main_unhashable_label_witness :
  ∃ err w',
    main Utc.fromtimestamp (Sample.scenario (Sample.forecast [Cases.listed_entry]))
    = (Raise err, w')
    ∧ exn_type err = TypeError
    ∧ fs w' = line_charts_on "Paris" [Cases.listed_point]
                (fs (Sample.scenario (Sample.forecast [Cases.listed_entry])))
    ∧ shown w' = shown (Sample.scenario (Sample.forecast [Cases.listed_entry]))
                 ++ line_figures "Paris" [Cases.listed_point].
Proof.
  apply (main_unhashable_label Utc.fromtimestamp
           (Sample.scenario (Sample.forecast [Cases.listed_entry]))
           "ABC" "Paris" _ [Cases.listed_entry] [Cases.listed_point]
           (JList [JStr "Rain"])
           (scenario_answered _) eq_refl listed_entry_point
           (scenario_output_dir_usable _)).
  - by left.
  - reflexivity.
Defined.

(** X21 on an empty disk, and on a disk that has the directory. *)
Lemma ensure_plots_dir_idempotent_witness :
  (∃ w1, ensure_plots_dir (Sample.offline []) = (Return tt, w1)
         ∧ fs w1 !! "notes.txt" = fs (Sample.offline []) !! "notes.txt"
         ∧ ensure_plots_dir w1 = (Return tt, w1))
  ∧ ensure_plots_dir (set_fs {[ PLOTS_DIR := Directory ]} (Sample.offline []))
    = (Return tt, set_fs {[ PLOTS_DIR := Directory ]} (Sample.offline [])).
Proof.
  split.
  - destruct (ensure_plots_dir_idempotent (Sample.offline []))
      as (w1 & Hrun & _ & Hother & _ & Hagain).
    exists w1. split_and!; [exact Hrun | | exact Hagain].
    apply Hother. discriminate.
  - destruct (ensure_plots_dir_idempotent
                (set_fs {[ PLOTS_DIR := Directory ]} (Sample.offline [])))
      as (w1 & Hrun & _ & _ & Hsame & _).
    rewrite Hrun. f_equal. apply Hsame. by eexists.
Defined.

(** X22 on three labels, two of them equal. *)
Lemma pie_chart_counts_every_label_witness :
  ∃ sizes keys colors autopct startangle title,
    conditions_figure [(JStr "Rain", 2%N); (JStr "Clouds", 1%N)] "Paris"
    = PieChart sizes keys colors autopct startangle title
    ∧ length sizes = length keys
    ∧ total sizes = 3%N
    ∧ Forall (λ n, (0 < n)%N) sizes
    ∧ ∀ k, k ∈ keys → k ∈ [JStr "Rain"; JStr "Clouds"; JStr "Rain"].
Proof.
  apply (pie_chart_counts_every_label [JStr "Rain"; JStr "Clouds"; JStr "Rain"]).
  reflexivity.
Defined.

(** X23 on three labels, two of them equal. *)
Lemma pie_chart_histogram_witness :
  ∃ counts,
    collections.Counter (JStr <$> ["Rain"; "Clouds"; "Rain"]) = Return counts
    ∧ (JStr "Rain", 2%N) ∈ counts.
Proof.
  destruct (pie_chart_histogram ["Rain"; "Clouds"; "Rain"])
    as (counts & Hcounter & _ & Hcounts).
  exists counts. split; [exact Hcounter|].
  apply Hcounts. exists "Rain". split_and!; [reflexivity | | reflexivity].
  by left.
Defined.

(** X24 on an entry without the "weather" key. *)
Lemma main_transformation_error_witness :
  ∃ w', main Utc.fromtimestamp
          (Sample.scenario (Sample.forecast [Sample.entry_without_weather]))
        = (Raise (Exn KeyError "'weather'"), w')
        ∧ fs w' = fs (Sample.scenario (Sample.forecast [Sample.entry_without_weather]))
        ∧ shown w'
          = shown (Sample.scenario (Sample.forecast [Sample.entry_without_weather]))
        ∧ last (stdout w') = Some "Weather data fetched successfully.".
Proof.
  apply (main_transformation_error Utc.fromtimestamp
           (Sample.scenario (Sample.forecast [Sample.entry_without_weather]))
           "ABC" "Paris" _ _ (scenario_answered _)).
  reflexivity.
Defined.

(** X25 on the three entries, split after the first. *)
Lemma process_forecast_data_concatenation_witness :
  (process_forecast_data Utc.fromtimestamp (Sample.forecast Sample.three_entries)
     (Sample.offline [])).1
  = match (process_forecast_data Utc.fromtimestamp
             (Sample.forecast (take 1 Sample.three_entries)) (Sample.offline [])).1 with
    | Return (Some c1) =>
        match (process_forecast_data Utc.fromtimestamp
                 (Sample.forecast (drop 1 Sample.three_entries)) (Sample.offline [])).1 with
        | Return (Some c2) => Return (Some (columns_app c1 c2))
        | r2 => r2
        end
    | r1 => r1
    end.
Proof.
  apply (process_forecast_data_concatenation Utc.fromtimestamp
           _ _ _ (take 1 Sample.three_entries) (drop 1 Sample.three_entries));
    reflexivity.
Defined.
